(** * urwid container widgets: layout solver, contents protocol and focus

    A shallow embedding of [urwid/container.py] (classes [GridFlow],
    [Overlay], [Frame], [Pile] and [Columns]) together with the
    properties its specification states about them.

    Conventions of the embedding
    - Python [int] is [Z]; list indices and lengths are [nat].
    - A method that mutates [self] takes the object and returns the new
      object.  A method that can raise returns a [result].  The setters
      raise before their first assignment, so for them [Raise] also
      means "state unchanged"; what a raise in the middle of a longer
      method leaves behind is not modelled.
    - The canvas cache of [Widget._invalidate] is outside this file;
      only the caches the containers keep themselves are modelled.
    - Child widgets are external collaborators: a [Widget] record
      carries exactly the capabilities the containers consult. *)

From stdpp Require Import base numbers list sets strings sorting.
From Stdlib Require Import ZArith Lia.

Open Scope Z_scope.

(** ** Exceptions *)

Inductive exn : Set :=
| IndexError
| KeyError
| AttributeError
| ZeroDivisionError
| OverlayError
| FrameError
| PileError
| ColumnsError
| GridFlowError.

Inductive result (A : Type) : Type :=
| Ok (a : A)
| Raise (e : exn).

Arguments Ok {A} a.
Arguments Raise {A} e.

#[global] Instance result_ret : MRet result := fun _ a => Ok a.
#[global] Instance result_bind : MBind result := fun _ _ f m =>
  match m with
  | Ok a => f a
  | Raise e => Raise e
  end.
#[global] Instance result_fmap : FMap result := fun _ _ f m =>
  match m with
  | Ok a => Ok (f a)
  | Raise e => Raise e
  end.

(** ** Option values

    Option tuples mix strings, integers and [None]. *)

Inductive atom : Set :=
| ANone
| AInt (n : Z)
| AStr (s : string).

#[global] Instance atom_eq_dec : EqDecision atom.
Proof. solve_decision. Defined.

(** The options half of a [(widget, options)] pair as the caller hands
    it over: a bare value or a tuple of values. *)
Inductive options_value : Set :=
| OAtom (a : atom)
| OTuple (l : list atom).

#[global] Instance options_value_eq_dec : EqDecision options_value.
Proof. solve_decision. Defined.

(** Iterable unpacking [(a, b, ...) = v]: a tuple yields its fields, a
    string its characters, anything else is a [TypeError]. *)
Fixpoint chars (s : string) : list atom :=
  match s with
  | EmptyString => []
  | String c s' => AStr (String c EmptyString) :: chars s'
  end.

Definition unpack (v : options_value) : option (list atom) :=
  match v with
  | OTuple l => Some l
  | OAtom (AStr s) => Some (chars s)
  | OAtom _ => None
  end.

(** ** Widgets *)

Record Widget : Type := mkWidget {
  w_id : nat;                  (* object identity, what [==] compares *)
  w_selectable : bool;         (* selectable() *)
  w_len : option nat;          (* __len__(), defined by list containers *)
  w_rows : Z -> bool -> Z;     (* rows((maxcol,), focus) *)
  w_pack : Z -> bool -> Z;     (* pack((maxcol,), focus)[0] *)
  w_focus_position : option Z  (* focus_position, when base_widget.focus is true *)
}.

(** Truth value of a widget object: false exactly when it defines
    [__len__] and that returns 0. *)
Definition truthy (w : Widget) : bool :=
  match w_len w with
  | Some O => false
  | _ => true
  end.

(** [if x:] for [x : Widget | None]. *)
Definition truthy_opt (x : option Widget) : bool :=
  match x with
  | Some w => truthy w
  | None => false
  end.

(** ** Built-in exceptions

    [exn] lists the exceptions the containers raise by name.  Some
    methods can also let a [TypeError] or a [ValueError] of the
    interpreter escape; their results are [outcome]s. *)

Inductive error : Set :=
| Exn (e : exn)
| TypeError
| ValueError.

Inductive outcome (A : Type) : Type :=
| Returns (a : A)
| Raises (e : error).

Arguments Returns {A} a.
Arguments Raises {A} e.

#[global] Instance outcome_ret : MRet outcome := fun _ a => Returns a.
#[global] Instance outcome_bind : MBind outcome := fun _ _ f m =>
  match m with
  | Returns a => f a
  | Raises e => Raises e
  end.
#[global] Instance outcome_fmap : FMap outcome := fun _ _ f m =>
  match m with
  | Returns a => Returns (f a)
  | Raises e => Raises e
  end.

(** A [result] seen as an [outcome]. *)
Definition lift {A : Type} (m : result A) : outcome A :=
  match m with
  | Ok a => Returns a
  | Raise e => Raises (Exn e)
  end.

(** ** Collaborators

    What the containers import from the rest of urwid and what they
    call on their children beyond the capabilities of [Widget].  A
    size handed to a child is the list of its components: [[]] for
    [()], [[maxcol]] for [(maxcol,)], [[maxcol; maxrow]]. *)

Class Toolkit : Type := {
  (* urwid.util.is_mouse_press(event) *)
  is_mouse_press : string -> bool;
  (* self._command_map[key]; the key is None once a child handled it *)
  _command_map : option string -> option string;
  (* hasattr(w, 'mouse_event') and w.mouse_event(size, event, button, col, row, focus) *)
  has_mouse_event : Widget -> bool;
  w_mouse_event : Widget -> list Z -> string -> Z -> Z -> Z -> bool -> option bool;
  (* w.keypress(size, key) *)
  w_keypress : Widget -> list Z -> string -> option string;
  (* hasattr(w, 'get_pref_col') and w.get_pref_col(size) *)
  has_get_pref_col : Widget -> bool;
  w_get_pref_col : Widget -> list Z -> option Z;
  (* hasattr(w, 'move_cursor_to_coords') and w.move_cursor_to_coords(size, col, row) *)
  has_move_cursor_to_coords : Widget -> bool;
  w_move_cursor_to_coords : Widget -> list Z -> Z -> Z -> bool;
  (* w.pack((), focus): (width, height) of a fixed widget *)
  w_pack_fixed : Widget -> bool -> Z * Z;
  (* urwid.decoration.calculate_left_right_padding(maxcol, align_type,
     align_amount, width_type, width_amount, min_width, left, right) *)
  calculate_left_right_padding :
    Z -> atom -> atom -> atom -> atom -> atom -> atom -> atom -> Z * Z;
  (* urwid.decoration.calculate_top_bottom_filler(maxrow, valign_type,
     valign_amount, height_type, height_amount, min_height, top, bottom) *)
  calculate_top_bottom_filler :
    Z -> atom -> atom -> atom -> atom -> atom -> atom -> atom -> Z * Z
}.

(** ** Overlay *)

Module Overlay.

Record t : Type := mk {
  top_w : Widget;
  bottom_w : Widget;
  align_type : atom;
  align_amount : atom;
  width_type : atom;
  width_amount : atom;
  min_width : atom;
  left : atom;
  right : atom;
  valign_type : atom;
  valign_amount : atom;
  height_type : atom;
  height_amount : atom;
  min_height : atom;
  top : atom;
  bottom : atom
}.

Definition _DEFAULT_BOTTOM_OPTIONS : options_value :=
  OTuple [AStr "left"; ANone; AStr "relative"; AInt 100; ANone; AInt 0; AInt 0;
          AStr "top"; ANone; AStr "relative"; AInt 100; ANone; AInt 0; AInt 0].

(** [Overlay.options(...)]: note the order of the produced tuple. *)
Definition options (align_type align_amount width_type width_amount
    valign_type valign_amount height_type height_amount
    min_width min_height left right top bottom : atom) : options_value :=
  OTuple [align_type; align_amount; width_type; width_amount; min_width;
          left; right; valign_type; valign_amount; height_type;
          height_amount; min_height; top; bottom].

Definition focus (self : t) : Widget := top_w self.

Definition focus_position (self : t) : Z := 1.

Definition set_focus_position (self : t) (position : Z) : result t :=
  if decide (position <> 1) then Raise IndexError else Ok self.

(** The top options as [contents[1]] reports them. *)
Definition top_options (self : t) : options_value :=
  OTuple [align_type self; align_amount self; width_type self;
          width_amount self; min_width self; left self; right self;
          valign_type self; valign_amount self; height_type self;
          height_amount self; min_height self; top self; bottom self].

Definition _contents__getitem__ (self : t) (index : Z)
  : result (Widget * options_value) :=
  if decide (index = 0) then Ok (bottom_w self, _DEFAULT_BOTTOM_OPTIONS)
  else if decide (index = 1) then Ok (top_w self, top_options self)
  else Raise IndexError.

Section Decoration.

(** [urwid.decoration] is imported, not part of this file: its
    normalisers are parameters.  [simplify_*] turns a (type, amount)
    pair back into the user notation, [normalize_*] parses that
    notation and raises the given error class on a bad value. *)
Variables simplify_align simplify_width simplify_valign simplify_height
  : atom -> atom -> options_value.
Variables normalize_align normalize_width normalize_valign normalize_height
  : options_value -> result (atom * atom).

Definition _contents__setitem__ (self : t) (index : Z)
    (value : Widget * options_value) : result t :=
  let '(value_w, value_options) := value in
  if decide (index = 0) then
    if decide (value_options <> _DEFAULT_BOTTOM_OPTIONS) then Raise OverlayError
    else Ok (mk (top_w self) value_w
               (align_type self) (align_amount self) (width_type self)
               (width_amount self) (min_width self) (left self) (right self)
               (valign_type self) (valign_amount self) (height_type self)
               (height_amount self) (min_height self) (top self) (bottom self))
  else if decide (index = 1) then
    match unpack value_options with
    | Some [align_type0; align_amount0; width_type0; width_amount0;
            min_width0; left0; right0; valign_type0; valign_amount0;
            height_type0; height_amount0; min_height0; top0; bottom0] =>
        (* normalize first, this is where errors are raised *)
        '(align_type1, align_amount1) ←
          normalize_align (simplify_align align_type0 align_amount0);
        '(width_type1, width_amount1) ←
          normalize_width (simplify_width width_type0 width_amount0);
        (* the normalised valign amount is bound to another name and
           dropped: [valign_amount] keeps the value that was written *)
        '(valign_type1, _) ←
          normalize_valign (simplify_valign valign_type0 valign_amount0);
        '(height_type1, height_amount1) ←
          normalize_height (simplify_height height_type0 height_amount0);
        (* [value_w] is not stored on this branch *)
        Ok (mk (top_w self) (bottom_w self)
              align_type1 align_amount1 width_type1 width_amount1
              min_width0 left0 right0
              valign_type1 valign_amount0 height_type1 height_amount1
              min_height0 top0 bottom0)
    | _ => Raise OverlayError
    end
  else Raise IndexError.

End Decoration.

Section Layout.
Context `{Toolkit}.

(** Return (padding left, right, filler top, bottom).  [height] stays
    [None] unless the top widget is a fixed one, whose height is not 0
    past the check. *)
Definition calculate_padding_filler (self : t) (size : Z * Z) (focus : bool)
  : result (Z * Z * Z * Z) :=
  let '(maxcol, maxrow) := size in
  '(left', right', height) ←
    (if bool_decide (width_type self = AStr "pack") then
       let '(width, height) := w_pack_fixed (top_w self) focus in
       if bool_decide (height = 0)
       then Raise OverlayError            (* fixed widget must have a height *)
       else
         let '(left', right') :=
           calculate_left_right_padding maxcol
             (align_type self) (align_amount self) (AStr "clip") (AInt width)
             ANone (left self) (right self) in
         Ok (left', right', Some height)
     else
       let '(left', right') :=
         calculate_left_right_padding maxcol
           (align_type self) (align_amount self)
           (width_type self) (width_amount self)
           (min_width self) (left self) (right self) in
       Ok (left', right', None));
  let '(top', bottom') :=
    match height with
    | Some height =>
        (* top_w is a fixed widget *)
        let '(top', bottom') :=
          calculate_top_bottom_filler maxrow
            (valign_type self) (valign_amount self)
            (AStr "given") (AInt height) ANone (top self) (bottom self) in
        if bool_decide (maxrow - top' - bottom' < height)
        then (top', maxrow - top' - height)
        else (top', bottom')
    | None =>
        if bool_decide (height_type self = AStr "pack") then
          (* top_w is a flow widget *)
          let height := w_rows (top_w self) maxcol focus in
          let '(top', bottom') :=
            calculate_top_bottom_filler maxrow
              (valign_type self) (valign_amount self)
              (AStr "given") (AInt height) ANone (top self) (bottom self) in
          if bool_decide (height > maxrow)   (* flow widget rendered too large *)
          then (top', maxrow - height)
          else (top', bottom')
        else
          calculate_top_bottom_filler maxrow
            (valign_type self) (valign_amount self)
            (height_type self) (height_amount self)
            (min_height self) (top self) (bottom self)
    end in
  Ok (left', right', top', bottom').

(** Return the size to pass to top_w. *)
Definition top_w_size (self : t) (size : Z * Z) (left' right' top' bottom' : Z)
  : list Z :=
  if bool_decide (width_type self = AStr "pack") then
    (* top_w is a fixed widget *)
    []
  else
    let '(maxcol, maxrow) := size in
    if bool_decide (width_type self <> AStr "pack")
       && bool_decide (height_type self = AStr "pack")
    then
      (* top_w is a flow widget *)
      [maxcol - left' - right']
    else [maxcol - left' - right'; maxrow - top' - bottom'].

(** Pass keypress to top_w. *)
Definition keypress (self : t) (size : Z * Z) (key : string)
  : result (option string) :=
  '(left', right', top', bottom') ← calculate_padding_filler self size true;
  Ok (w_keypress (top_w self) (top_w_size self size left' right' top' bottom') key).

(** Pass event to top_w, ignore if outside of top_w. *)
Definition mouse_event (self : t) (size : Z * Z) (event : string)
    (button col row : Z) (focus : bool) : result (option bool) :=
  if negb (has_mouse_event (top_w self)) then Ok (Some false)
  else
    '(left', right', top', bottom') ← calculate_padding_filler self size focus;
    let '(maxcol, maxrow) := size in
    if bool_decide (col < left') || bool_decide (col >= maxcol - right')
       || bool_decide (row < top') || bool_decide (row >= maxrow - bottom')
    then Ok (Some false)
    else
      Ok (w_mouse_event (top_w self)
            (top_w_size self size left' right' top' bottom')
            event button (col - left') (row - top') focus).

End Layout.

End Overlay.

(** ** Frame *)

Module Frame.

(** [_body] is annotated [Widget]; the contents protocol passes
    whatever it is given to the setter, so the slot can hold [None]
    like the two optional ones. *)
Record t : Type := mk {
  _header : option Widget;
  _body : option Widget;
  _footer : option Widget;
  focus_part : string
}.

Definition __init__ (body : Widget) (header footer : option Widget)
    (focus_part : string) : t :=
  mk header (Some body) footer focus_part.

Definition header (self : t) : option Widget := _header self.

Definition set_header (self : t) (header : option Widget) : t :=
  let self := mk header (_body self) (_footer self) (focus_part self) in
  if bool_decide (header = None) && bool_decide (focus_part self = "header")
  then mk (_header self) (_body self) (_footer self) "body"
  else self.

Definition body (self : t) : option Widget := _body self.

Definition set_body (self : t) (body : option Widget) : t :=
  mk (_header self) body (_footer self) (focus_part self).

Definition footer (self : t) : option Widget := _footer self.

Definition set_footer (self : t) (footer : option Widget) : t :=
  let self := mk (_header self) (_body self) footer (focus_part self) in
  if bool_decide (footer = None) && bool_decide (focus_part self = "footer")
  then mk (_header self) (_body self) (_footer self) "body"
  else self.

Definition focus_position (self : t) : string := focus_part self.

Definition set_focus_position (self : t) (part : string) : result t :=
  if bool_decide (part ∉ ["header"; "footer"; "body"]) then Raise IndexError
  else if (bool_decide (part = "header") && bool_decide (_header self = None))
          || (bool_decide (part = "footer") && bool_decide (_footer self = None))
  then Raise IndexError
  else Ok (mk (_header self) (_body self) (_footer self) part).

(** The dict lookup [{'header': ..., 'footer': ..., 'body': ...}[focus_part]]. *)
Definition focus (self : t) : result (option Widget) :=
  if bool_decide (focus_part self = "header") then Ok (_header self)
  else if bool_decide (focus_part self = "footer") then Ok (_footer self)
  else if bool_decide (focus_part self = "body") then Ok (_body self)
  else Raise KeyError.

Definition _contents_keys (self : t) : list string :=
  let keys := ["body"] in
  let keys := if truthy_opt (_header self) then keys ++ ["header"] else keys in
  let keys := if truthy_opt (_footer self) then keys ++ ["footer"] else keys in
  keys.

Definition _contents__getitem__ (self : t) (key : string)
  : result (option Widget * atom) :=
  if bool_decide (key = "body") then Ok (_body self, ANone)
  else if bool_decide (key = "header") && truthy_opt (_header self)
  then Ok (_header self, ANone)
  else if bool_decide (key = "footer") && truthy_opt (_footer self)
  then Ok (_footer self, ANone)
  else Raise KeyError.

Definition _contents__setitem__ (self : t) (key : string)
    (value : option Widget * options_value) : result t :=
  if bool_decide (key ∉ ["body"; "header"; "footer"]) then Raise KeyError
  else
    let '(value_w, value_options) := value in
    if bool_decide (value_options <> OAtom ANone) then Raise FrameError
    else if bool_decide (key = "body") then Ok (set_body self value_w)
    else if bool_decide (key = "footer") then Ok (set_footer self value_w)
    else Ok (set_header self value_w).

Definition _contents__delitem__ (self : t) (key : string) : result t :=
  if bool_decide (key ∉ ["header"; "footer"]) then Raise KeyError
  else if (bool_decide (key = "header") && bool_decide (_header self = None))
          || (bool_decide (key = "footer") && bool_decide (_footer self = None))
  then Raise KeyError
  else if bool_decide (key = "header") then Ok (set_header self None)
  else Ok (set_footer self None).

(** Writes through the [contents] view: [contents[key] = (w,
    options)] for each of the three keys, where [w] is a widget or
    [None] ([_contents__setitem__] hands it to the setter unchecked,
    the body included), and [del contents[key]]. *)
Inductive mutation : Type :=
| SetBody (w : option Widget) (options : options_value)
| SetHeader (w : option Widget) (options : options_value)
| SetFooter (w : option Widget) (options : options_value)
| DelItem (key : string).

Definition mutate (self : t) (m : mutation) : result t :=
  match m with
  | SetBody w options => _contents__setitem__ self "body" (w, options)
  | SetHeader w options => _contents__setitem__ self "header" (w, options)
  | SetFooter w options => _contents__setitem__ self "footer" (w, options)
  | DelItem key => _contents__delitem__ self key
  end.

(** [focus] yields a widget, not [None] and not a [KeyError]. *)
Definition focus_exists (self : t) : Prop :=
  exists w, focus self = Ok (Some w).

(** The Frame has its mandatory body and its focus exists. *)
Definition well_focused (self : t) : Prop :=
  _body self <> None /\ focus_exists self.

(** [(head rows, foot rows), (orig head, orig foot)] *)
Definition frame_top_bottom (self : t) (size : Z * Z) (focus : bool)
  : (Z * Z) * (Z * Z) :=
  let '(maxcol, maxrow) := size in
  let hrows :=
    match header self with
    | Some h =>
        if truthy h
        then w_rows h maxcol (bool_decide (focus_part self = "header") && focus)
        else 0
    | None => 0
    end in
  let frows :=
    match footer self with
    | Some f =>
        if truthy f
        then w_rows f maxcol (bool_decide (focus_part self = "footer") && focus)
        else 0
    | None => 0
    end in
  let remaining := maxrow in
  if bool_decide (focus_part self = "footer") then
    if bool_decide (frows >= remaining) then ((0, remaining), (hrows, frows))
    else
      let remaining := remaining - frows in
      if bool_decide (hrows >= remaining)
      then ((remaining, frows), (hrows, frows))
      else ((hrows, frows), (hrows, frows))
  else if bool_decide (focus_part self = "header") then
    if bool_decide (hrows >= maxrow) then ((remaining, 0), (hrows, frows))
    else
      let remaining := remaining - hrows in
      if bool_decide (frows >= remaining)
      then ((hrows, remaining), (hrows, frows))
      else ((hrows, frows), (hrows, frows))
  else if bool_decide (hrows + frows >= remaining) then
    (* self.focus_part == 'body' *)
    let rless1 := Z.max 0 (remaining - 1) in
    if bool_decide (frows >= remaining - 1)
    then ((0, rless1), (hrows, frows))
    else
      let remaining := remaining - frows in
      let rless1 := Z.max 0 (remaining - 1) in
      ((rless1, frows), (hrows, frows))
  else ((hrows, frows), (hrows, frows)).

(** The natural height of a part at width [maxcol]:
    [part.rows((maxcol,), focus)], and 0 for a part that is [None] or
    false. *)
Definition part_rows (part : option Widget) (maxcol : Z) (focus : bool) : Z :=
  match part with
  | Some w => if truthy w then w_rows w maxcol focus else 0
  | None => 0
  end.

(** The clipping order as the specification words it: "footer is
    clipped first, then header", so a header that lost rows implies a
    footer that lost rows. *)
Definition clips_footer_first (self : t) (size : Z * Z) (focus : bool) : Prop :=
  let '((htrim, ftrim), (hrows, frows)) := frame_top_bottom self size focus in
  htrim < hrows -> ftrim < frows.

(** The positions top to bottom, and bottom to top. *)
Definition __iter__ (self : t) : list string :=
  (if truthy_opt (_header self) then ["header"] else [])
    ++ ["body"]
    ++ (if truthy_opt (_footer self) then ["footer"] else []).

Definition __reversed__ (self : t) : list string :=
  (if truthy_opt (_footer self) then ["footer"] else [])
    ++ ["body"]
    ++ (if truthy_opt (_header self) then ["header"] else []).

(** The part of the frame a screen row falls in, by the tests of
    [mouse_event]. *)
Definition part_at (self : t) (size : Z * Z) (focus : bool) (row : Z) : string :=
  let '((htrim, ftrim), _) := frame_top_bottom self size focus in
  if bool_decide (row < htrim) then "header"
  else if bool_decide (row >= size.2 - ftrim) then "footer"
  else "body".

Section Events.
Context `{Toolkit}.

(** Pass keypress to widget in focus. *)
Definition keypress (self : t) (size : Z * Z) (key : string)
  : result (option string) :=
  let '(maxcol, maxrow) := size in
  match (if bool_decide (focus_part self = "header") then header self else None) with
  | Some h =>
      if negb (w_selectable h) then Ok (Some key)
      else Ok (w_keypress h [maxcol] key)
  | None =>
      match (if bool_decide (focus_part self = "footer") then footer self else None) with
      | Some f =>
          if negb (w_selectable f) then Ok (Some key)
          else Ok (w_keypress f [maxcol] key)
      | None =>
          if bool_decide (focus_part self <> "body") then Ok (Some key)
          else
            let remaining := maxrow in
            let remaining :=
              match header self with
              | Some h => remaining - w_rows h maxcol false
              | None => remaining
              end in
            let remaining :=
              match footer self with
              | Some f => remaining - w_rows f maxcol false
              | None => remaining
              end in
            if bool_decide (remaining <= 0) then Ok (Some key)
            else
              match body self with
              | None => Raise AttributeError   (* None has no selectable() *)
              | Some b =>
                  if negb (w_selectable b) then Ok (Some key)
                  else Ok (w_keypress b [maxcol; remaining] key)
              end
      end
  end.

(** The event handed to one part [part], a widget or [None]: the
    focus moves there on a press of button 1 if the part is
    selectable; [position] names the part, [tsize], [col], [row] and
    [focus] are what the part is passed. *)
Definition deliver (self : t) (part : option Widget) (position : string)
    (tsize : list Z) (event : string) (button col row : Z) (focus : bool)
  : result (option bool * t) :=
  self ← (if is_mouse_press event && bool_decide (button = 1)
          then
            match part with
            | None => Raise AttributeError   (* None has no selectable() *)
            | Some w =>
                if w_selectable w then set_focus_position self position
                else Ok self
            end
          else Ok self);
  match part with
  | None => Ok (Some false, self)   (* hasattr(None, 'mouse_event') is false *)
  | Some w =>
      if negb (has_mouse_event w) then Ok (Some false, self)
      else Ok (w_mouse_event w tsize event button col row focus, self)
  end.

(** Pass mouse event to appropriate part of frame.  Focus may be
    changed on button 1 press. *)
Definition mouse_event (self : t) (size : Z * Z) (event : string)
    (button col row : Z) (focus : bool) : result (option bool * t) :=
  let '(maxcol, maxrow) := size in
  let '((htrim, ftrim), (hrows, frows)) :=
    frame_top_bottom self (maxcol, maxrow) focus in
  if bool_decide (row < htrim) then
    (* within header *)
    let focus := focus && bool_decide (focus_part self = "header") in
    deliver self (header self) "header" [maxcol] event button col row focus
  else if bool_decide (row >= maxrow - ftrim) then
    (* within footer *)
    let focus := focus && bool_decide (focus_part self = "footer") in
    deliver self (footer self) "footer" [maxcol] event button col
      (row - maxrow + ftrim) focus
  else
    (* within body *)
    let focus := focus && bool_decide (focus_part self = "body") in
    deliver self (body self) "body" [maxcol; maxrow - htrim - ftrim]
      event button col (row - htrim) focus.

End Events.

End Frame.

(** ** Sizing options

    [PACK], [GIVEN] and [WEIGHT] of [urwid.widget]; an options tuple
    pairs one of them with an amount (the amount of a [PACK] entry is
    [None] and never read). *)

Inductive sizing : Set := PACK | GIVEN | WEIGHT.

#[global] Instance sizing_eq_dec : EqDecision sizing.
Proof. solve_decision. Defined.

(** [int(float(a) * b / c + 0.5)] on integers [a], [b], [c].  The
    quotient is taken exactly: [a * b / c + 1/2 = (2ab + c) / (2c)], and
    [int] truncates toward zero.  (A double carries this value without
    loss as long as [|a| * |c|] stays below [2^50], far above any
    screen extent.)  Float division by zero raises. *)
Definition round_share (a b c : Z) : result Z :=
  if bool_decide (c = 0) then Raise ZeroDivisionError
  else Ok ((2 * a * b + c) `quot` (2 * c)).

Fixpoint sumZ (l : list Z) : Z :=
  match l with
  | [] => 0
  | x :: l' => x + sumZ l'
  end.

(** ** MonitoredFocusList

    Modelled from the spec: [urwid.monitored_list.MonitoredFocusList] is
    imported, not part of this file.  The spec describes it as an
    ordered sequence of entries with a focus cursor (an index); every
    write is validated by the owning container before it is accepted,
    and the cursor is kept inside the sequence. *)

Module MonitoredFocusList.

Record t (A : Type) : Type := mk {
  items : list A;
  _focus : nat
}.

Arguments mk {A} items _focus.
Arguments items {A} _.
Arguments _focus {A} _.

Section Ops.
Context {A : Type}.

Definition empty : t A := mk [] 0%nat.

(** [.focus]: [None] on an empty list. *)
Definition focus (l : t A) : option nat :=
  match items l with
  | [] => None
  | _ => Some (_focus l)
  end.

(** [.focus = index] *)
Definition set_focus (l : t A) (index : Z) : result (t A) :=
  match items l with
  | [] => Ok (mk (items l) 0%nat)
  | _ =>
      if bool_decide (index < 0) || bool_decide (index >= Z.of_nat (length (items l)))
      then Raise IndexError
      else Ok (mk (items l) (Z.to_nat index))
  end.

(** [.append(item)]: validate, append, move the cursor only when it
    pointed past the end. *)
Definition append (validate : list A -> result unit) (l : t A) (item : A)
  : result (t A) :=
  _ ← validate [item];
  let n := length (items l) in
  let focus := if bool_decide (n <= _focus l)%nat then S (_focus l) else _focus l in
  Ok (mk (items l ++ [item]) (Nat.min focus n)).

(** [del l[:1]]: the cursor follows the entry it pointed at. *)
Definition del_first (l : t A) : t A :=
  mk (drop 1 (items l)) (Nat.min (pred (_focus l)) (pred (pred (length (items l))))).

End Ops.

End MonitoredFocusList.

(** ** Built-in functions *)

Module Builtins.

(** [range(start, stop)] *)
Definition range (start stop : Z) : list Z :=
  (fun k : nat => start + Z.of_nat k) <$> seq 0 (Z.to_nat (stop - start)).

(** [range(start, stop, -1)] *)
Definition range_down (start stop : Z) : list Z :=
  (fun k : nat => start - Z.of_nat k) <$> seq 0 (Z.to_nat (start - stop)).

(** [sum(l)]: a [None] among the summands is a [TypeError]. *)
Fixpoint sum (l : list (option Z)) : outcome Z :=
  match l with
  | [] => Returns 0
  | Some x :: l' => Z.add x <$> sum l'
  | None :: _ => Raises TypeError
  end.

(** [l[j]]: a negative index counts from the end. *)
Definition item {A : Type} (l : list A) (j : Z) : result A :=
  let k := if bool_decide (j < 0) then Z.of_nat (length l) + j else j in
  if bool_decide (k < 0) then Raise IndexError
  else
    match l !! Z.to_nat k with
    | Some x => Ok x
    | None => Raise IndexError
    end.

End Builtins.

(** ** WidgetContainerListContentsMixin

    Containers whose positions are indexes into [self.contents]. *)

Module WidgetContainerListContentsMixin.

Section Positions.
Context {A : Type}.
Variable contents : MonitoredFocusList.t A.

Definition __len__ : Z := Z.of_nat (length (MonitoredFocusList.items contents)).

(** positions from first to last *)
Definition __iter__ : list Z := Builtins.range 0 __len__.

(** positions from last to first *)
Definition __reversed__ : list Z := Builtins.range_down (__len__ - 1) (-1).

End Positions.

End WidgetContainerListContentsMixin.

(** ** Pile *)

Module Pile.

Definition entry : Type := Widget * (sizing * Z).

Record t : Type := mk {
  contents : MonitoredFocusList.t entry;
  _selectable : bool;
  pref_col : Z
}.

Definition _validate_contents_modified (new_items : list entry) : result unit :=
  if forallb (fun item : entry => bool_decide (item.2.1 ∈ [PACK; GIVEN; WEIGHT])) new_items
  then Ok tt else Raise PileError.

(** [_contents_modified]: selectable when any child is. *)
Definition _contents_modified (self : t) : t :=
  mk (contents self)
     (existsb (fun item : entry => w_selectable item.1)
        (MonitoredFocusList.items (contents self)))
     (pref_col self).

Definition options (height_type : sizing) (height_amount : Z) : sizing * Z :=
  (height_type, height_amount).

(** [self.contents.append(item)] *)
Definition append (self : t) (item : entry) : result t :=
  c ← MonitoredFocusList.append _validate_contents_modified (contents self) item;
  Ok (_contents_modified (mk c (_selectable self) (pref_col self))).

Definition focus_position (self : t) : result nat :=
  match MonitoredFocusList.focus (contents self) with
  | None => Raise IndexError     (* No focus_position, Pile is empty *)
  | Some f => Ok f
  end.

Definition set_focus_position (self : t) (position : Z) : result t :=
  if bool_decide (position < 0)
     || bool_decide (position >= Z.of_nat (length (MonitoredFocusList.items (contents self))))
  then Raise IndexError
  else
    c ← MonitoredFocusList.set_focus (contents self) position;
    Ok (mk c (_selectable self) (pref_col self)).

(** the child widget in focus or None when Pile is empty *)
Definition focus (self : t) : option Widget :=
  match MonitoredFocusList.focus (contents self) with
  | None => None
  | Some f => fst <$> MonitoredFocusList.items (contents self) !! f
  end.

(** [self.focus == w] *)
Definition focus_is (self : t) (w : Widget) : bool :=
  match focus self with
  | Some fw => bool_decide (w_id fw = w_id w)
  | None => false
  end.

(** First pass of the box branch of [get_item_rows]: fixed extents are
    recorded and deducted, weighted entries are left pending ([None]). *)
Fixpoint reserve (self : t) (maxcol : Z) (focus : bool) (cs : list entry)
    (l : list (option Z)) (remaining wtotal : Z)
  : list (option Z) * Z * Z :=
  match cs with
  | [] => (l, remaining, wtotal)
  | (w, (f, height)) :: cs' =>
      if bool_decide (f = PACK) then
        let rows := w_rows w maxcol (focus && focus_is self w) in
        reserve self maxcol focus cs' (l ++ [Some rows]) (remaining - rows) wtotal
      else if bool_decide (f = GIVEN) then
        reserve self maxcol focus cs' (l ++ [Some height]) (remaining - height) wtotal
      else if bool_decide (height <> 0) then
        reserve self maxcol focus cs' (l ++ [None]) remaining (wtotal + height)
      else
        (* zero-weighted items treated as ('given', 0) *)
        reserve self maxcol focus cs' (l ++ [Some 0]) remaining wtotal
  end.

(** Second pass: every pending entry, in list order, takes its rounded
    share of what is still unassigned. *)
Fixpoint share (i : nat) (cs : list entry) (l : list (option Z))
    (remaining wtotal : Z) : result (list (option Z)) :=
  match cs with
  | [] => Ok l
  | (w, (f, height)) :: cs' =>
      match l !! i with
      | Some None =>
          rows ← round_share remaining height wtotal;
          share (S i) cs' (<[i := Some rows]> l) (remaining - rows) (wtotal - height)
      | _ => share (S i) cs' l remaining wtotal
      end
  end.

(** [size] is [(maxcol,)] or [(maxcol, maxrow)].  The returned list
    holds [Some n] for an [int] and [None] for Python's [None]. *)
Definition get_item_rows (self : t) (size : Z * option Z) (focus : bool)
  : result (list (option Z)) :=
  let maxcol := size.1 in
  let cs := MonitoredFocusList.items (contents self) in
  match size.2 with
  | None =>
      (* pile is a flow widget *)
      Ok (map (fun item : entry =>
                 let '(w, (f, height)) := item in
                 if bool_decide (f = GIVEN) then Some height
                 else Some (w_rows w maxcol (focus && focus_is self w))) cs)
  | Some remaining =>
      (* pile is a box widget *)
      let '(l, remaining, wtotal) := reserve self maxcol focus cs [] remaining 0 in
      if bool_decide (wtotal = 0) then Raise PileError
      else
        let remaining := if bool_decide (remaining < 0) then 0 else remaining in
        share 0 cs l remaining wtotal
  end.

(** An item of the [widget_list] of [Pile(widget_list, focus_item)]:
    a widget or one of the documented tuples - [('flow', w)],
    [('pack', w)], [(height, w)] with an [int] height - or a 3-tuple
    [(tag, height, w)] with any tag. *)
Inductive init_item : Type :=
| Bare (w : Widget)
| Flow (w : Widget)
| Pack (w : Widget)
| Given (height : Z) (w : Widget)
| Tagged (tag : string) (height : Z) (w : Widget).

(** The entry [__init__] appends for an item.  ([(PACK, None)]: the
    amount of a ['pack'] entry is never read, 0 stands for [None].) *)
Definition init_entry (original : init_item) : outcome entry :=
  match original with
  | Bare w => Returns (w, (WEIGHT, 1))
  | Flow w | Pack w => Returns (w, (PACK, 0))
  | Given height w => Returns (w, (GIVEN, height))
  | Tagged tag height w =>
      if bool_decide (tag ∈ ["flow"; "pack"])
      then Raises ValueError                     (* f, w = w *)
      else if bool_decide (tag = "fixed")        (* backwards compatibility *)
      then Returns (w, (GIVEN, height))
      else if bool_decide (tag = "weight")
      then Returns (w, (WEIGHT, height))
      else Raises (Exn PileError)
  end.

(** [self.focus = item], for backwards compatibility: [item] is an
    index or a widget to be looked up. *)
Definition set_focus (self : t) (item : Z + Widget) : outcome t :=
  match item with
  | inl position => lift (set_focus_position self position)
  | inr item =>
      match list_find (fun e : entry => w_id item = w_id e.1)
              (MonitoredFocusList.items (contents self)) with
      | Some (i, _) => lift (set_focus_position self (Z.of_nat i))
      | None => Raises ValueError   (* Widget not found in Pile contents *)
      end
  end.

(** The loop of [__init__] over [enumerate(widget_list)]. *)
Fixpoint init_items (self : t) (focus_item : option (Z + Widget)) (i : nat)
    (widget_list : list init_item) : outcome (t * option (Z + Widget)) :=
  match widget_list with
  | [] => Returns (self, focus_item)
  | original :: widget_list' =>
      item ← init_entry original;
      self ← lift (append self item);
      let focus_item :=
        match focus_item with
        | None => if w_selectable item.1 then Some (inl (Z.of_nat i)) else None
        | Some _ => focus_item
        end in
      init_items self focus_item (S i) widget_list'
  end.

Definition __init__ (widget_list : list init_item) (focus_item : option (Z + Widget))
  : outcome t :=
  let self := mk MonitoredFocusList.empty false 0 in
  '(self, focus_item) ← init_items self focus_item 0 widget_list;
  self ← match MonitoredFocusList.items (contents self), focus_item with
         | _ :: _, Some item => set_focus self item
         | _, _ => Returns self
         end;
  Returns (mk (contents self) (_selectable self) 0).

(** Return a size appropriate for passing to
    [self.contents[i][0].render].  (A [None] row would reach the
    child as its [maxrow]; sizes hold integers here and such a row is
    the [TypeError] of its first use.) *)
Definition get_item_size (self : t) (size : Z * option Z) (i : nat) (focus : bool)
    (item_rows : option (list (option Z))) : outcome (list Z) :=
  let maxcol := size.1 in
  match MonitoredFocusList.items (contents self) !! i with
  | None => Raises (Exn IndexError)
  | Some (w, (f, height)) =>
      if bool_decide (f = GIVEN) then Returns [maxcol; height]
      else if bool_decide (f = WEIGHT) && bool_decide (is_Some size.2) then
        item_rows ←
          match item_rows with
          | Some (r :: l) => Returns (r :: l)
          | _ => lift (get_item_rows self size focus)
          end;
        match item_rows !! i with
        | None => Raises (Exn IndexError)
        | Some None => Raises TypeError
        | Some (Some rows) => Returns [maxcol; rows]
        end
      else Returns [maxcol]
  end.

Definition rows (self : t) (size : Z * option Z) (focus : bool) : outcome Z :=
  item_rows ← lift (get_item_rows self size focus);
  Builtins.sum item_rows.

(** The loop [for i, (r, w) in enumerate(zip(item_rows, widgets))]
    that looks for the item screen row [row] falls in: [Some (i, wrow,
    w)] when it breaks at item [i] with [wrow] rows above it, [None]
    when it runs to its [else]. *)
Fixpoint row_at (row wrow : Z) (i : nat) (zipped : list (option Z * Widget))
  : outcome (option (nat * Z * Widget)) :=
  match zipped with
  | [] => Returns None
  | (None, _) :: _ => Raises TypeError
  | (Some r, w) :: zipped' =>
      if bool_decide (wrow + r > row) then Returns (Some (i, wrow, w))
      else row_at row (wrow + r) (S i) zipped'
  end.

Section Events.
Context `{Toolkit}.

(** Pass the event to the contained widget.  May change focus on
    button 1 press. *)
Definition mouse_event (self : t) (size : Z * option Z) (event : string)
    (button col row : Z) (focus : bool) : outcome (option bool * t) :=
  item_rows ← lift (get_item_rows self size focus);
  found ← row_at row 0 0
             (zip item_rows (map fst (MonitoredFocusList.items (contents self))));
  match found with
  | None => Returns (Some false, self)
  | Some (i, wrow, w) =>
      let focus := focus && focus_is self w in
      self ← (if is_mouse_press event && bool_decide (button = 1)
              then
                if w_selectable w
                then lift (set_focus_position self (Z.of_nat i))
                else Returns self
              else Returns self);
      if negb (has_mouse_event w) then Returns (Some false, self)
      else
        tsize ← get_item_size self size i focus (Some item_rows);
        Returns (w_mouse_event w tsize event button col (row - wrow) focus, self)
  end.


(** Update self.pref_col from the focus widget. *)
Definition _update_pref_col_from_focus (self : t) (size : Z * option Z) : outcome t :=
  match focus self with
  | None => Returns self
  | Some w =>
      if negb (has_get_pref_col w) then Returns self
      else
        i ← lift (focus_position self);
        tsize ← get_item_size self size i true None;
        match w_get_pref_col w tsize with
        | Some pref_col => Returns (mk (contents self) (_selectable self) pref_col)
        | None => Returns self
        end
  end.

(** The loop [for row in rowlist] of [keypress]: the new focus widget
    is offered the rows until it takes the cursor. *)
Fixpoint place_cursor (self : t) (size : Z * option Z) (j : nat) (w : Widget)
    (item_rows : list (option Z)) (rowlist : list Z) : outcome unit :=
  match rowlist with
  | [] => Returns tt
  | row :: rowlist' =>
      tsize ← get_item_size self size j true (Some item_rows);
      if w_move_cursor_to_coords w tsize (pref_col self) row then Returns tt
      else place_cursor self size j w item_rows rowlist'
  end.

(** The loop [for j in candidates] of [keypress]. *)
Fixpoint move_focus (self : t) (size : Z * option Z) (key : option string)
    (item_rows : list (option Z)) (candidates : list Z)
  : outcome (option string * t) :=
  match candidates with
  | [] => Returns (key, self)       (* nothing to select *)
  | j :: candidates' =>
      item ← lift (Builtins.item (MonitoredFocusList.items (contents self)) j);
      if negb (w_selectable item.1)
      then move_focus self size key item_rows candidates'
      else
        self ← _update_pref_col_from_focus self size;
        self ← lift (set_focus_position self j);
        match focus self with
        | None => Returns (None, self)
        | Some w =>
            if negb (has_move_cursor_to_coords w) then Returns (None, self)
            else
              rows ← lift (Builtins.item item_rows j);
              match rows with
              | None => Raises TypeError
              | Some rows =>
                  let rowlist :=
                    if bool_decide (_command_map key = Some "cursor up")
                    then Builtins.range_down (rows - 1) (-1)
                    else Builtins.range 0 rows in
                  _ ← place_cursor self size (Z.to_nat j) w item_rows rowlist;
                  Returns (None, self)
              end
        end
  end.

(** Pass the keypress to the widget in focus.  Unhandled 'up' and
    'down' keys may cause a focus change. *)
Definition keypress (self : t) (size : Z * option Z) (key : string)
  : outcome (option string * t) :=
  match MonitoredFocusList.items (contents self) with
  | [] => Returns (Some key, self)
  | _ =>
      item_rows ←
        match size.2 with
        | Some _ => Some <$> lift (get_item_rows self size true)
        | None => Returns None
        end;
      i ← lift (focus_position self);
      '(key, answered) ←
        (if _selectable self then
           tsize ← get_item_size self size i true item_rows;
           match focus self with
           | None => Raises (Exn AttributeError)
           | Some w =>
               let key := w_keypress w tsize key in
               Returns
                 (key, bool_decide (_command_map key ∉ [Some "cursor up"; Some "cursor down"]))
           end
         else Returns (Some key, false) : outcome (option string * bool));
      if (answered : bool) then Returns (key, self)
      else
        let candidates :=
          if bool_decide (_command_map key = Some "cursor up")
          then Builtins.range_down (Z.of_nat i - 1) (-1)   (* count backwards to 0 *)
          else Builtins.range (Z.of_nat i + 1)
                 (Z.of_nat (length (MonitoredFocusList.items (contents self)))) in
        item_rows ←
          match item_rows with
          | Some (r :: l) => Returns (r :: l)
          | _ => lift (get_item_rows self size true)
          end;
        move_focus self size key item_rows candidates
  end.

End Events.

End Pile.

(** ** Columns *)

(** Order of the [(weight, index)] tuples under [list.sort()]. *)
Definition weighted_le (a b : Z * nat) : Prop :=
  a.1 < b.1 \/ (a.1 = b.1 /\ (a.2 <= b.2)%nat).

#[global] Instance weighted_le_dec : RelDecision weighted_le.
Proof. intros a b. unfold weighted_le. apply _. Defined.

Module Columns.

Definition entry : Type := Widget * (sizing * Z * bool).

Record t : Type := mk {
  contents : MonitoredFocusList.t entry;
  dividechars : Z;
  min_width : Z;
  pref_col : option Z;
  _selectable : bool;
  _cache_maxcol : option Z;
  _cache_column_widths : list Z
}.

Definition _validate_contents_modified (new_items : list entry) : result unit :=
  if forallb (fun item : entry => bool_decide (item.2.1.1 ∈ [PACK; GIVEN; WEIGHT])) new_items
  then Ok tt else Raise ColumnsError.

(** [_invalidate] *)
Definition _invalidate (self : t) : t :=
  mk (contents self) (dividechars self) (min_width self) (pref_col self)
     (_selectable self) None (_cache_column_widths self).

(** [_contents_modified] *)
Definition _contents_modified (self : t) : t :=
  _invalidate
    (mk (contents self) (dividechars self) (min_width self) (pref_col self)
        (existsb (fun item : entry => w_selectable item.1)
           (MonitoredFocusList.items (contents self)))
        (_cache_maxcol self) (_cache_column_widths self)).

(** [Columns([], dividechars)] *)
Definition __init__ (dividechars : Z) : t :=
  mk MonitoredFocusList.empty dividechars 1 None false None [].

Definition options (width_type : sizing) (width_amount : Z) (box_widget : bool)
  : sizing * Z * bool :=
  (width_type, width_amount, box_widget).

Definition with_contents (self : t) (c : MonitoredFocusList.t entry) : t :=
  mk c (dividechars self) (min_width self) (pref_col self)
     (_selectable self) (_cache_maxcol self) (_cache_column_widths self).

(** [self.contents.append(item)] *)
Definition append (self : t) (item : entry) : result t :=
  c ← MonitoredFocusList.append _validate_contents_modified (contents self) item;
  Ok (_contents_modified (with_contents self c)).

(** The getter tests the emptiness of [self.widget_list], the list of
    the widgets of [contents]. *)
Definition focus_position (self : t) : result nat :=
  match map fst (MonitoredFocusList.items (contents self)) with
  | [] => Raise IndexError     (* No focus_position, Columns is empty *)
  | _ => Ok (MonitoredFocusList._focus (contents self))
  end.

(** The setter; a change of focus drops the cached widths. *)
Definition set_focus_position (self : t) (position : Z) : result t :=
  if bool_decide (position < 0)
     || bool_decide (position >= Z.of_nat (length (MonitoredFocusList.items (contents self))))
  then Raise IndexError
  else
    c ← MonitoredFocusList.set_focus (contents self) position;
    if bool_decide (MonitoredFocusList._focus c = MonitoredFocusList._focus (contents self))
    then Ok (with_contents self c)
    else Ok (_invalidate (with_contents self c)).

(** the child widget in focus or None when Columns is empty *)
Definition focus (self : t) : option Widget :=
  match MonitoredFocusList.focus (contents self) with
  | None => None
  | Some f => fst <$> MonitoredFocusList.items (contents self) !! f
  end.

(** The extent an entry claims before the weighted share is known. *)
Definition static_w (self : t) (maxcol : Z) (focus : bool) (i : nat) (item : entry) : Z :=
  let '(w, (t, width, b)) := item in
  if bool_decide (t = GIVEN) then width
  else if bool_decide (t = PACK)
  then w_pack w maxcol (focus && bool_decide (i = MonitoredFocusList._focus (contents self)))
  else min_width self.

(** First loop of [column_widths]: claim the static extents; a column
    right of the focus that does not fit ends the list. *)
Fixpoint claim (self : t) (maxcol : Z) (focus : bool) (i : nat) (cs : list entry)
    (widths : list Z) (weighted : list (Z * nat)) (shared : Z)
  : list Z * list (Z * nat) * Z :=
  match cs with
  | [] => (widths, weighted, shared)
  | item :: cs' =>
      let static_w := static_w self maxcol focus i item in
      if bool_decide (shared < static_w + dividechars self)
         && bool_decide (MonitoredFocusList._focus (contents self) < i)%nat
      then (widths, weighted, shared)
      else
        claim self maxcol focus (S i) cs'
          (widths ++ [static_w])
          (if bool_decide (item.2.1.1 ∉ [GIVEN; PACK])
           then weighted ++ [(item.2.1.2, i)] else weighted)
          (shared - (static_w + dividechars self))
  end.

(** Second loop: drop columns on the left until we fit.  [todo] is the
    part of [enumerate(widths)] still to be visited. *)
Fixpoint drop_left (self : t) (i : nat) (todo : list Z)
    (widths : list Z) (weighted : list (Z * nat)) (shared : Z)
  : list Z * list (Z * nat) * Z :=
  match todo with
  | [] => (widths, weighted, shared)
  | _ :: todo' =>
      if bool_decide (shared >= 0) then (widths, weighted, shared)
      else
        let shared := shared + default 0 (widths !! i) + dividechars self in
        let widths := <[i := 0]> widths in
        let weighted :=
          match weighted with
          | (_, j) :: rest => if bool_decide (j = i) then rest else weighted
          | [] => weighted
          end in
        drop_left self (S i) todo' widths weighted shared
  end.

(** Third loop: divide up the remaining space between weighted cols. *)
Fixpoint grow_weighted (self : t) (weighted : list (Z * nat))
    (widths : list Z) (grow wtotal : Z) : result (list Z) :=
  match weighted with
  | [] => Ok widths
  | (weight, i) :: rest =>
      width ← round_share grow weight wtotal;
      let width := Z.max (min_width self) width in
      grow_weighted self rest (<[i := width]> widths) (grow - width) (wtotal - weight)
  end.

(** The computation of [column_widths] behind the cache test. *)
Definition compute_widths (self : t) (maxcol : Z) (focus : bool) : result (list Z) :=
  let cs := MonitoredFocusList.items (contents self) in
  let '(widths, weighted, shared) :=
    claim self maxcol focus 0 cs [] [] (maxcol + dividechars self) in
  let '(widths, weighted, shared) :=
    drop_left self 0 widths widths weighted shared in
  if bool_decide (shared <> 0) then
    let weighted := merge_sort weighted_le weighted in
    let wtotal := sumZ (map fst weighted) in
    let grow := shared + Z.of_nat (length weighted) * min_width self in
    grow_weighted self weighted widths grow wtotal
  else Ok widths.

(** [column_widths(size, focus)]; only [size[0]] is read. *)
Definition column_widths (self : t) (size : Z * option Z) (focus : bool)
  : result (list Z * t) :=
  let maxcol := size.1 in
  if bool_decide (Some maxcol = _cache_maxcol self)
     && negb (existsb (fun item : entry => bool_decide (item.2.1.1 = PACK))
                (MonitoredFocusList.items (contents self)))
  then Ok (_cache_column_widths self, self)
  else
    widths ← compute_widths self maxcol focus;
    Ok (widths,
        mk (contents self) (dividechars self) (min_width self) (pref_col self)
           (_selectable self) (Some maxcol) widths).

(** The loop of [rows] over [enumerate(zip(widths, self.contents))]:
    the largest [rows] of the columns that are not box columns. *)
Fixpoint max_rows (self : t) (focus : bool) (i : nat) (zipped : list (Z * entry))
    (rows : Z) : Z :=
  match zipped with
  | [] => rows
  | (mc, (w, (t, n, b))) :: zipped' =>
      if b then max_rows self focus (S i) zipped' rows
      else
        max_rows self focus (S i) zipped'
          (Z.max rows
             (w_rows w mc
                (focus && bool_decide (MonitoredFocusList._focus (contents self) = i))))
  end.

(** Return the number of rows required by the columns. *)
Definition rows (self : t) (size : Z * option Z) (focus : bool) : result (Z * t) :=
  '(widths, self) ← column_widths self size focus;
  Ok (max_rows self focus 0 (zip widths (MonitoredFocusList.items (contents self))) 1,
      self).

(** [size[1:]] *)
Definition size_tail (size : Z * option Z) : list Z :=
  match size.2 with
  | Some maxrow => [maxrow]
  | None => []
  end.

(** The loop of [mouse_event] up to the column the screen column
    [col] falls in: [Some (i, x, end, item)] for column [i] spanning
    [x .. end - 1], [None] where the loop returns [False]. *)
Fixpoint column_at (self : t) (col x : Z) (i : nat) (zipped : list (Z * entry))
  : option (nat * Z * Z * entry) :=
  match zipped with
  | [] => None
  | (width, item) :: zipped' =>
      if bool_decide (col < x) then None
      else
        let end_ := x + width in
        if bool_decide (col >= end_)
        then column_at self col (end_ + dividechars self) (S i) zipped'
        else Some (i, x, end_, item)
  end.

Definition with_pref_col (self : t) (pref_col : option Z) : t :=
  mk (contents self) (dividechars self) (min_width self) pref_col
     (_selectable self) (_cache_maxcol self) (_cache_column_widths self).

Section Events.
Context `{Toolkit}.

(** Send event to appropriate column.  May change focus on button 1
    press. *)
Definition mouse_event (self : t) (size : Z * option Z) (event : string)
    (button col row : Z) (focus : bool) : result (option bool * t) :=
  '(widths, self) ← column_widths self size false;
  match column_at self col 0 0 (zip widths (MonitoredFocusList.items (contents self))) with
  | None => Ok (Some false, self)
  | Some (i, x, end_, (w, (_, _, b))) =>
      let focus :=
        focus && bool_decide (MonitoredFocusList._focus (contents self) = i) in
      self ← (if is_mouse_press event && bool_decide (button = 1) && w_selectable w
              then set_focus_position self (Z.of_nat i)
              else Ok self);
      if negb (has_mouse_event w) then Ok (Some false, self)
      else if bool_decide (size.2 = None) && b then
        '(r, self) ← rows self size false;
        Ok (w_mouse_event w [end_ - x; r] event button (col - x) row focus, self)
      else
        Ok (w_mouse_event w ((end_ - x) :: size_tail size) event button (col - x)
              row focus, self)
  end.

(** The loop of [keypress] over the candidate columns: the focus
    goes to the first selectable one. *)
Fixpoint move_focus (self : t) (key : option string) (candidates : list Z)
  : result (option string * t) :=
  match candidates with
  | [] => Ok (key, self)
  | j :: candidates' =>
      item ← Builtins.item (MonitoredFocusList.items (contents self)) j;
      if negb (w_selectable item.1) then move_focus self key candidates'
      else
        self ← set_focus_position self j;
        Ok (None, self)
  end.

(** Pass keypress to the focus column. *)
Definition keypress (self : t) (size : Z * option Z) (key : string)
  : result (option string * t) :=
  (* [if self.focus_position is None]: the getter raises on an empty
     Columns and returns an index otherwise *)
  i ← focus_position self;
  '(widths, self) ← column_widths self size false;
  if bool_decide (length widths <= i)%nat then Ok (Some key, self)
  else
    mc ← Builtins.item widths (Z.of_nat i);
    '(w, (_, _, b)) ← Builtins.item (MonitoredFocusList.items (contents self)) (Z.of_nat i);
    let self :=
      if bool_decide (_command_map (Some key)
                        ∉ [Some "cursor up"; Some "cursor down";
                           Some "cursor page up"; Some "cursor page down"])
      then with_pref_col self None
      else self in
    '(key, self) ←
      (if w_selectable w then
         if bool_decide (size.2 = None) && b then
           '(r, self) ← rows self size true;
           Ok (w_keypress w [mc; r] key, self)
         else Ok (w_keypress w (mc :: size_tail size) key, self)
       else Ok (Some key, self) : result (option string * t));
    if bool_decide (_command_map key ∉ [Some "cursor left"; Some "cursor right"])
    then Ok (key, self)
    else
      let candidates :=
        if bool_decide (_command_map key = Some "cursor left")
        then Builtins.range_down (Z.of_nat i - 1) (-1)   (* count backwards to 0 *)
        else Builtins.range (Z.of_nat i + 1)
               (Z.of_nat (length (MonitoredFocusList.items (contents self)))) in
      move_focus self key candidates.

End Events.

End Columns.

(** ** GridFlow *)

Module GridFlow.

(** Modelled from the spec: [urwid.widget.Divider] is imported, not
    part of this file.  It is the blank-row divider: an unselectable
    widget showing [top] blank rows, one row of its fill character
    (blank by default) and [bottom] blank rows. *)
Record Divider : Type := mkDivider {
  top : Z;
  bottom : Z
}.

Definition divider_rows (d : Divider) : Z := top d + 1 + bottom d.

(** [Padding(c, align)] of one row.  [c] is the [Columns] object the
    row was built around; the loop keeps appending to that object, so
    it is stored here whether or not [original_widget] still is [c]. *)
Record Padding : Type := mkPadding {
  c : Columns.t;
  original_widget : option Widget;   (* [Some w]: replaced by the cell [w] *)
  align : options_value;
  width : option Z;                  (* [None]: the constructor's default *)
  first_position : nat               (* contents position of the first cell *)
}.

Inductive child : Type :=
| Div (d : Divider)
| Pad (pad : Padding).

Definition child_selectable (x : child) : bool :=
  match x with
  | Div _ => false
  | Pad pad =>
      match original_widget pad with
      | Some w => w_selectable w
      | None => Columns._selectable (c pad)
      end
  end.

(** The generated [Pile] of rows and dividers. *)
Record DisplayPile : Type := mkPile {
  p_contents : MonitoredFocusList.t (child * (sizing * Z));
  p_selectable : bool
}.

(** [Pile._contents_modified] *)
Definition pile_contents_modified (p : DisplayPile) : DisplayPile :=
  mkPile (p_contents p)
    (existsb (fun item : child * (sizing * Z) => child_selectable item.1)
       (MonitoredFocusList.items (p_contents p))).

(** [Pile._validate_contents_modified] *)
Definition pile_validate (new_items : list (child * (sizing * Z))) : result unit :=
  if forallb (fun item : child * (sizing * Z) =>
                bool_decide (item.2.1 ∈ [PACK; GIVEN; WEIGHT])) new_items
  then Ok tt else Raise PileError.

(** [p.contents.append(item)] *)
Definition pile_append (p : DisplayPile) (item : child * (sizing * Z))
  : result DisplayPile :=
  l ← MonitoredFocusList.append pile_validate (p_contents p) item;
  Ok (pile_contents_modified (mkPile l (p_selectable p))).

(** [p.focus_position = position] *)
Definition pile_set_focus_position (p : DisplayPile) (position : Z)
  : result DisplayPile :=
  if bool_decide (position < 0)
     || bool_decide (position >= Z.of_nat (length (MonitoredFocusList.items (p_contents p))))
  then Raise IndexError
  else
    l ← MonitoredFocusList.set_focus (p_contents p) position;
    Ok (mkPile l (p_selectable p)).

(** [p.focus] *)
Definition pile_focus (p : DisplayPile) : option child :=
  match MonitoredFocusList.focus (p_contents p) with
  | None => None
  | Some f => fst <$> MonitoredFocusList.items (p_contents p) !! f
  end.

(** The last child of [p] is the padding of the row being filled; a
    write to that padding or to its [Columns] shows there. *)
Definition store_row (p : DisplayPile) (pad : Padding) : DisplayPile :=
  let l := MonitoredFocusList.items (p_contents p) in
  mkPile
    (MonitoredFocusList.mk
       (<[pred (length l) := (Pad pad, default (WEIGHT, 1) (snd <$> last l))]> l)
       (MonitoredFocusList._focus (p_contents p)))
    (p_selectable p).

Inductive display : Type :=
| WDivider (d : Divider)
| WPile (p : DisplayPile).

Definition entry : Type := Widget * (sizing * Z).

Record t : Type := mk {
  contents : MonitoredFocusList.t entry;
  _cell_width : Z;
  h_sep : Z;
  v_sep : Z;
  g_align : options_value;
  _cache_maxcol : option Z;
  _w : display
}.

Definition _invalidate (self : t) : t :=
  mk (contents self) (_cell_width self) (h_sep self) (v_sep self)
     (g_align self) None (_w self).

(** [_contents_modified(slc, new_items)], the validation hook *)
Definition _contents_modified (new_items : list entry) : result unit :=
  if forallb (fun item : entry => bool_decide (item.2.1 = GIVEN)) new_items
  then Ok tt else Raise GridFlowError.

Definition with_contents (self : t) (l : MonitoredFocusList.t entry) : t :=
  mk l (_cell_width self) (h_sep self) (v_sep self)
     (g_align self) (_cache_maxcol self) (_w self).

(** [self.contents.append(item)] *)
Definition append (self : t) (item : entry) : result t :=
  l ← MonitoredFocusList.append _contents_modified (contents self) item;
  Ok (_invalidate (with_contents self l)).

Definition focus_position (self : t) : result nat :=
  match MonitoredFocusList.focus (contents self) with
  | None => Raise IndexError     (* No focus_position, GridFlow is empty *)
  | Some f => Ok f
  end.

Definition set_focus_position (self : t) (position : Z) : result t :=
  if bool_decide (position < 0)
     || bool_decide (position >= Z.of_nat (length (MonitoredFocusList.items (contents self))))
  then Raise IndexError
  else
    l ← MonitoredFocusList.set_focus (contents self) position;
    if bool_decide (MonitoredFocusList._focus l = MonitoredFocusList._focus (contents self))
    then Ok (with_contents self l)
    else Ok (_invalidate (with_contents self l)).

(** State of the loop of [generate_display_widget]: the pile [p], the
    padding [pad] of the row being filled (with its Columns [c]; [None]
    while [c is None]), [column_focused] and [used_space]. *)
Record gen : Type := mkGen {
  gen_p : DisplayPile;
  gen_pad : option Padding;
  gen_column_focused : bool;
  gen_used_space : Z
}.

Definition used (h_sep : Z) (c : Columns.t) : Z :=
  let cs := MonitoredFocusList.items (Columns.contents c) in
  sumZ (map (fun x : Columns.entry => x.2.1.2) cs) + h_sep * Z.of_nat (length cs).

(** starting a new row *)
Definition new_row (self : t) (divider : Divider) (i : nat) (p : DisplayPile)
  : result (DisplayPile * Padding * bool) :=
  p ← (if bool_decide (v_sep self <> 0)
       then pile_append p (Div divider, Pile.options WEIGHT 1)
       else Ok p);
  let c := Columns.__init__ (h_sep self) in
  let pad := mkPadding c None (g_align self) None i in
  p ← pile_append p (Pad pad, Pile.options WEIGHT 1);
  Ok (p, pad, false).

(** The second half of a turn: the cell joins the row of [pad]. *)
Definition fill (self : t) (maxcol : Z) (i : nat) (item : entry)
    (p : DisplayPile) (pad : Padding) (column_focused : bool) : result gen :=
  let '(w, (width_type, width_amount)) := item in
  c ← Columns.append (c pad) (w, Columns.options GIVEN width_amount false);
  fp ← focus_position self;
  '(c, column_focused) ←
    (if bool_decide (i = fp) || (negb column_focused && w_selectable w)
     then
       c ← Columns.set_focus_position c
             (Z.of_nat (length (MonitoredFocusList.items (Columns.contents c))) - 1);
       Ok (c, true)
     else Ok (c, column_focused));
  p ← (if bool_decide (i = fp)
       then pile_set_focus_position p
              (Z.of_nat (length (MonitoredFocusList.items (p_contents p))) - 1)
       else Ok p);
  let used_space := used (h_sep self) c in
  let original_widget :=
    if bool_decide (width_amount > maxcol) then Some w else original_widget pad in
  let pad := mkPadding c original_widget (align pad)
               (Some (used_space - h_sep self)) (first_position pad) in
  Ok (mkGen (store_row p pad) (Some pad) column_focused used_space).

(** One turn of the loop for cell [i]: start a new row if there is
    none or the cell does not fit, then add the cell. *)
Definition place (self : t) (divider : Divider) (maxcol : Z) (st : gen)
    (i : nat) (item : entry) : result gen :=
  '(p, pad, column_focused) ←
    match gen_pad st with
    | None => new_row self divider i (gen_p st)
    | Some pad =>
        if bool_decide (maxcol - gen_used_space st < item.2.2)
        then new_row self divider i (gen_p st)
        else Ok (gen_p st, pad, gen_column_focused st)
    end;
  fill self maxcol i item p pad column_focused.

Fixpoint place_all (self : t) (divider : Divider) (maxcol : Z) (st : gen)
    (i : nat) (items : list entry) : result gen :=
  match items with
  | [] => Ok st
  | item :: items' =>
      st ← place self divider maxcol st i item;
      place_all self divider maxcol st (S i) items'
  end.

(** Actually generate display widget (ignoring cache) *)
Definition generate_display_widget (self : t) (size : Z) : result display :=
  let maxcol := size in
  let divider := mkDivider 0 0 in
  match MonitoredFocusList.items (contents self) with
  | [] => Ok (WDivider divider)
  | items =>
      let divider :=
        if bool_decide (v_sep self > 1)
        then mkDivider (v_sep self - 1) (bottom divider)   (* increase size of divider *)
        else divider in
      let p := mkPile MonitoredFocusList.empty false in
      st ← place_all self divider maxcol (mkGen p None false 0) 0 items;
      if bool_decide (v_sep self <> 0)
      then
        (* remove first divider *)
        Ok (WPile (pile_contents_modified
                     (mkPile (MonitoredFocusList.del_first (p_contents (gen_p st)))
                             (p_selectable (gen_p st)))))
      else
        (* Ensure p __selectable is updated *)
        Ok (WPile (pile_contents_modified (gen_p st)))
  end.

Section WidgetWrap.

(** Whether the setter of the property [_w] calls [self._invalidate()]
    after it has stored the widget. *)
Variable invalidating : bool.

(** Modelled from the spec: [self._w = w].  The property [_w] belongs
    to [WidgetWrap] in [urwid.widget], which is not part of this file.
    Its setter stores the widget; when it is [invalidating] it then
    calls [self._invalidate()], for a GridFlow the method above, which
    drops the cache key. *)
Definition _set_w (self : t) (w : display) : t :=
  let self := mk (contents self) (_cell_width self) (h_sep self) (v_sep self)
                 (g_align self) (_cache_maxcol self) w in
  if invalidating then _invalidate self else self.

Definition get_display_widget (self : t) (size : Z) : result (display * t) :=
  let maxcol := size in
  (* use cache if possible *)
  if bool_decide (_cache_maxcol self = Some maxcol) then Ok (_w self, self)
  else
    let self := mk (contents self) (_cell_width self) (h_sep self) (v_sep self)
                   (g_align self) (Some maxcol) (_w self) in
    w ← generate_display_widget self size;
    let self := _set_w self w in
    Ok (_w self, self).

(** Set the focus to the item in focus in the display widget. *)
Definition _set_focus_from_display_widget (self : t) : result t :=
  let pile_focus :=
    match _w self with
    | WDivider _ => None
    | WPile p => pile_focus p
    end in
  match pile_focus with
  | None => Ok self
  | Some (Div _) => Raise AttributeError   (* a Divider has no first_position *)
  | Some (Pad pad) =>
      col_focus_position ←
        match original_widget pad with
        | None =>
            if truthy_opt (Columns.focus (c pad))
            then Z.of_nat <$> Columns.focus_position (c pad)
            else Ok 0
        | Some w => Ok (default 0 (w_focus_position w))
        end;
      set_focus_position self (Z.of_nat (first_position pad) + col_focus_position)
  end.

(** [self] after the display widget [_w] became [w]. *)
Definition with_display (self : t) (w : display) : t :=
  mk (contents self) (_cell_width self) (h_sep self) (v_sep self)
     (g_align self) (_cache_maxcol self) w.

Section Delegate.

(** [super().mouse_event] hands the event to the display widget, whose
    rows and cells may move their own focus; it reports whether the
    event was handled.  The delegation lives in [urwid.widget]. *)
Variable display_mouse_event :
  display -> Z -> string -> Z -> Z -> Z -> bool -> result (display * bool).

Definition mouse_event (self : t) (size : Z) (event : string) (button : Z)
    (col row : Z) (focus : bool) : result (t * bool) :=
  '(_, self) ← get_display_widget self size;
  '(w, _) ← display_mouse_event (_w self) size event button col row focus;
  self ← _set_focus_from_display_widget (with_display self w);
  Ok (self, true).   (* at a minimum we adjusted our focus *)

End Delegate.

(** [GridFlow(cells, cell_width, h_sep, v_sep, align)].  The display
    widget [_w] is [None] until the call at the end sets it; nothing
    reads it before, a divider stands for it here. *)
Definition __init__ (cells : list Widget) (cell_width h_sep v_sep : Z)
    (align : options_value) : result t :=
  let contents :=
    MonitoredFocusList.mk (map (fun w : Widget => (w, (GIVEN, cell_width))) cells) 0 in
  let self := mk contents cell_width h_sep v_sep align None (WDivider (mkDivider 0 0)) in
  (* set self._w to something other than None *)
  '(_, self) ← get_display_widget self
                 ((h_sep + cell_width)
                  * Z.of_nat (length (MonitoredFocusList.items (GridFlow.contents self))));
  Ok self.

End WidgetWrap.

End GridFlow.

(** ** WidgetContainerMixin

    The methods of the mixin walk down nested containers through
    [focus_position] and [focus].  The widgets here are trees of list
    containers (Pile, Columns and GridFlow share the [focus_position]
    getter and setter modelled above) over leaf widgets; the options
    of the entries play no part and are left out. *)

Module WidgetContainerMixin.

(** Modelled from the spec: a widget that is not a container is a
    leaf; [urwid.widget] gives it a [focus_position] that raises
    [IndexError] and a [focus] that is [None]. *)
#[warnings="-register-all"] Inductive widget : Type :=
| Leaf (w : Widget)
| Container (contents : list widget) (focus_position : nat).

(** [w.focus_position] *)
Definition focus_position (w : widget) : result Z :=
  match w with
  | Leaf _ => Raise IndexError            (* widget is not a container *)
  | Container [] _ => Raise IndexError    (* the container is empty *)
  | Container _ f => Ok (Z.of_nat f)
  end.

(** [w.focus_position = position] *)
Definition set_focus_position (w : widget) (position : Z) : result widget :=
  match w with
  | Leaf _ => Raise IndexError
  | Container cs f =>
      if bool_decide (position < 0) || bool_decide (position >= Z.of_nat (length cs))
      then Raise IndexError
      else Ok (Container cs (Z.to_nat position))
  end.

(** [w.focus]: [None] for a leaf and for an empty container, else
    [contents[focus_position][0]]. *)
Definition focus (w : widget) : result (option widget) :=
  match w with
  | Leaf _ => Ok None
  | Container [] _ => Ok None
  | Container cs f =>
      match cs !! f with
      | Some c => Ok (Some c)
      | None => Raise IndexError
      end
  end.

(** [self[position]] *)
Definition __getitem__ (w : widget) (position : Z) : result widget :=
  match w with
  | Leaf _ => Raise AttributeError        (* no contents *)
  | Container cs _ =>
Builtins.item cs position
  end.

(** Return the [focus_position] values starting from this container
    and proceeding along each child widget until reaching a leaf
    (non-container) widget. *)
Fixpoint get_focus_path (w : widget) : result (list Z) :=
  match w with
  | Leaf _ => Ok []
  | Container [] _ => Ok []
  | Container cs f =>
      out ← (fix focus_of (cs : list widget) (k : nat) : result (list Z) :=
               match cs with
               | [] => Raise IndexError
               | c :: cs' =>
                   match k with
                   | O => get_focus_path c
                   | S k' => focus_of cs' k'
                   end
               end) cs f;
      Ok (Z.of_nat f :: out)
  end.

(** Return the [focus] values starting from this container and
    proceeding along each child widget until reaching a leaf. *)
Fixpoint get_focus_widgets (w : widget) : result (list widget) :=
  match w with
  | Leaf _ => Ok []
  | Container [] _ => Ok []
  | Container cs f =>
      (fix focus_of (cs : list widget) (k : nat) : result (list widget) :=
         match cs with
         | [] => Raise IndexError
         | c :: cs' =>
             match k with
             | O => out ← get_focus_widgets c; Ok (c :: out)
             | S k' => focus_of cs' k'
             end
         end) cs f
  end.

(** Set the [focus_position] property starting from this container
    widget and proceeding along newly focused child widgets.  The
    assignments change the widgets in place: the tree as it is in the
    end comes back also when an exception ends the walk. *)
Fixpoint set_focus_path (w : widget) (positions : list Z) : widget * result unit :=
  match positions with
  | [] => (w, Ok tt)
  | p :: positions' =>
      match focus_position w with
      | Raise e => (w, Raise e)
      | Ok fp =>
          match (if bool_decide (p <> fp)
                 then set_focus_position w p    (* modifies w.focus *)
                 else Ok w) with
          | Raise e => (w, Raise e)
          | Ok w =>
              match focus w with
              | Raise e => (w, Raise e)
              | Ok None => (w, Raise AttributeError)   (* None has no base_widget *)
              | Ok (Some c) =>
                  let '(c', r) := set_focus_path c positions' in
                  match w with
                  | Container cs f => (Container (<[f := c']> cs) f, r)
                  | Leaf _ => (w, r)
                  end
              end
          end
      end
  end.

End WidgetContainerMixin.

(** ** Vocabulary of the solver properties *)

(** [x] is [num / den] rounded to the nearest integer, halves up:
    [x - 1/2 <= num / den < x + 1/2]. *)
Definition nearest (x num den : Z) : Prop :=
  - den < 2 * (x * den - num) <= den.

(** [x] differs from [num / den] by at most 1. *)
Definition within_one (x num den : Z) : Prop :=
  Z.abs (x * den - num) <= den.

Module PileSolver.

(** The weight an entry brings to the second pass: that of a
    ['weight'] entry, 0 for the others. *)
Definition weight_of (item : Pile.entry) : Z :=
  match item with
  | (_, (WEIGHT, height)) => height
  | _ => 0
  end.

(** The extent of an entry that is settled by the first pass. *)
Definition fixed_of (self : Pile.t) (maxcol : Z) (focus : bool) (item : Pile.entry) : Z :=
  match item with
  | (w, (PACK, _)) => w_rows w maxcol (focus && Pile.focus_is self w)
  | (_, (GIVEN, height)) => height
  | (_, (WEIGHT, _)) => 0
  end.

(** What the first pass writes for an entry. *)
Definition slot (self : Pile.t) (maxcol : Z) (focus : bool) (item : Pile.entry)
  : option Z :=
  if bool_decide (weight_of item = 0) then Some (fixed_of self maxcol focus item)
  else None.

(** The second pass by recursion on the entries and their slots, the
    form the proofs work on. *)
Fixpoint share_from (cs : list Pile.entry) (ls : list (option Z))
    (remaining wtotal : Z) : result (list (option Z)) :=
  match cs, ls with
  | (w, (f, height)) :: cs', None :: ls' =>
      rows ← round_share remaining height wtotal;
      (fun out => Some rows :: out) <$>
        share_from cs' ls' (remaining - rows) (wtotal - height)
  | _ :: cs', Some x :: ls' =>
      (fun out => Some x :: out) <$> share_from cs' ls' remaining wtotal
  | _, _ => Ok ls
  end.

(** Rows handed to the weighted entries before position [i]. *)
Fixpoint taken (cs : list Pile.entry) (out : list Z) (i : nat) : Z :=
  match i, cs, out with
  | S j, item :: cs', x :: out' =>
      (if bool_decide (weight_of item = 0) then 0 else x) + taken cs' out' j
  | _, _, _ => 0
  end.

(** Weight of the entries from position [i] on. *)
Definition weight_left (cs : list Pile.entry) (i : nat) : Z :=
  sumZ (map weight_of (drop i cs)).

(** The share bound as the specification words it: every ['weight']
    entry's extent is within 1 of its ideal proportional share of the
    space left by the fixed extents. *)
Definition shares_within_one (self : Pile.t) (maxcol maxrow : Z) (focus : bool)
  : Prop :=
  let cs := MonitoredFocusList.items (Pile.contents self) in
  forall out : list Z,
    Pile.get_item_rows self (maxcol, Some maxrow) focus = Ok (Some <$> out) ->
    forall (i : nat) (item : Pile.entry) (x : Z),
      cs !! i = Some item -> weight_of item <> 0 -> out !! i = Some x ->
      within_one x
        ((maxrow - sumZ (map (fixed_of self maxcol focus) cs)) * weight_of item)
        (sumZ (map weight_of cs)).

End PileSolver.

Module ColumnsSolver.

Section Statics.

Variable self : Columns.t.
Variable maxcol : Z.
Variable focus : bool.

(** Static extents of the entries [cs], the first of which has
    position [i]. *)
Fixpoint statics (i : nat) (cs : list Columns.entry) : list Z :=
  match cs with
  | [] => []
  | item :: cs' => Columns.static_w self maxcol focus i item :: statics (S i) cs'
  end.

(** The [(weight, position)] pairs of the weighted entries of [cs]. *)
Fixpoint weights_from (i : nat) (cs : list Columns.entry) : list (Z * nat) :=
  match cs with
  | [] => []
  | item :: cs' =>
      if bool_decide (item.2.1.1 ∉ [GIVEN; PACK])
      then (item.2.1.2, i) :: weights_from (S i) cs'
      else weights_from (S i) cs'
  end.

End Statics.

(** Columns of the given widths with their separators. *)
Definition cost (dividechars : Z) (ws : list Z) : Z :=
  sumZ (map (fun w => w + dividechars) ws).

(** Number of leading columns the second loop sets to 0: it goes on
    while the remainder is negative. *)
Fixpoint evict (dividechars shared : Z) (ws : list Z) : nat :=
  match ws with
  | [] => 0%nat
  | w :: ws' =>
      if bool_decide (shared >= 0) then 0%nat
      else S (evict dividechars (shared + w + dividechars) ws')
  end.

(** [weighted] without its leading pairs of position below [n]. *)
Fixpoint skip_below (n : nat) (weighted : list (Z * nat)) : list (Z * nat) :=
  match weighted with
  | [] => []
  | (w, k) :: rest =>
      if bool_decide (k < n)%nat then skip_below n rest else weighted
  end.

(** Pairs in increasing position. *)
Definition idx_lt (a b : Z * nat) : Prop := (a.2 < b.2)%nat.

(** [compute_widths] when the first loop keeps [k] entries: the
    second loop hides [evict] of them and the third grows the weighted
    ones that remain. *)
Definition widths_after (self : Columns.t) (maxcol : Z) (focus : bool) (k : nat)
  : result (list Z) :=
  let cs := MonitoredFocusList.items (Columns.contents self) in
  let d := Columns.dividechars self in
  let ss := statics self maxcol focus 0 (take k cs) in
  let shared := maxcol + d - cost d ss in
  let j := evict d shared ss in
  let shared' := shared + cost d (take j ss) in
  let weighted := merge_sort weighted_le (skip_below j (weights_from 0 (take k cs))) in
  if bool_decide (shared' <> 0) then
    Columns.grow_weighted self weighted (replicate j 0 ++ drop j ss)
      (shared' + Z.of_nat (length weighted) * Columns.min_width self)
      (sumZ (map fst weighted))
  else Ok (replicate j 0 ++ drop j ss).

(** An entry of the solver's vocabulary: ['given'] or ['weight'] with
    a non-negative amount. *)
Definition plain (item : Columns.entry) : Prop :=
  item.2.1.1 <> PACK /\ 0 <= item.2.1.2.

(** The order in which the third loop serves the weighted columns of
    [cs]: [weighted.sort()] on the [(weight, position)] pairs, so by
    weight and then by position. *)
Definition service (cs : list Columns.entry) : list (Z * nat) :=
  merge_sort weighted_le (weights_from 0 cs).

(** Width that [widths] holds for the first [n] pairs of [sorted]:
    what the third loop has handed out before it serves the pair
    [n]. *)
Definition handed (sorted : list (Z * nat)) (widths : list Z) (n : nat) : Z :=
  sumZ (map (fun p : Z * nat => default 0 (widths !! p.2)) (take n sorted)).

(** Weight of the pairs of [sorted] from position [n] on. *)
Definition weight_left (sorted : list (Z * nat)) (n : nat) : Z :=
  sumZ (map fst (drop n sorted)).

(** The width a ['given'] entry fixes, 0 for the others. *)
Definition given_of (item : Columns.entry) : Z :=
  if bool_decide (item.2.1.1 = GIVEN) then item.2.1.2 else 0.

(** The share bound as the specification words it: every ['weight']
    column's width is within 1 of its ideal proportional share of the
    space left by the given widths and the separators. *)
Definition shares_within_one (self : Columns.t) (maxcol : Z) (focus : bool) : Prop :=
  let cs := MonitoredFocusList.items (Columns.contents self) in
  forall (widths : list Z) (self' : Columns.t),
    Columns.column_widths self (maxcol, None) focus = Ok (widths, self') ->
    forall (i : nat) (item : Columns.entry) (x : Z),
      cs !! i = Some item -> item.2.1.1 = WEIGHT -> widths !! i = Some x ->
      within_one x
        ((maxcol - sumZ (map given_of cs)
          - Columns.dividechars self * (Z.of_nat (length cs) - 1)) * item.2.1.2)
        (sumZ (map fst (weights_from 0 cs))).

(** The eviction rule as the specification words it: when the
    available width is below what the fixed extents and separators
    need, entries are hidden (extent 0) starting from the list head. *)
Definition hides_from_head (self : Columns.t) (maxcol : Z) (focus : bool) : Prop :=
  let cs := MonitoredFocusList.items (Columns.contents self) in
  maxcol + Columns.dividechars self
    < cost (Columns.dividechars self) (statics self maxcol focus 0 cs) ->
  exists widths self',
    Columns.column_widths self (maxcol, None) focus = Ok (widths, self') /\
    widths !! 0%nat = Some 0.

End ColumnsSolver.

Module GridFlowLayout.

(** A row as its cells: each widget with the width it is given. *)
Definition row : Type := list (Widget * Z).

(** The row of a padding: the cells of the [Columns] built for it.
    (When a cell is wider than the screen the padding shows that cell
    directly; its [Columns] still holds it.) *)
Definition row_cells (pad : GridFlow.Padding) : row :=
  map (fun e : Columns.entry => (e.1, e.2.1.2))
    (MonitoredFocusList.items (Columns.contents (GridFlow.c pad))).

(** A child of the display pile: the blank rows of a divider or the
    cells of a row. *)
Definition child_shape (x : GridFlow.child) : Z + row :=
  match x with
  | GridFlow.Div d => inl (GridFlow.divider_rows d)
  | GridFlow.Pad pad => inr (row_cells pad)
  end.

Definition pile_layout (p : GridFlow.DisplayPile) : list (Z + row) :=
  map (fun x : GridFlow.child * (sizing * Z) => child_shape x.1)
    (MonitoredFocusList.items (GridFlow.p_contents p)).

(** The display widget from top to bottom. *)
Definition layout (d : GridFlow.display) : list (Z + row) :=
  match d with
  | GridFlow.WDivider dv => [inl (GridFlow.divider_rows dv)]
  | GridFlow.WPile p => pile_layout p
  end.

(** The cell of a contents entry. *)
Definition cell_of (item : GridFlow.entry) : Widget * Z := (item.1, item.2.2).

(** The width a row has used: its cells, each followed by [h_sep]. *)
Definition row_used (h_sep : Z) (r : row) : Z :=
  sumZ (map snd r) + h_sep * Z.of_nat (length r).

(** Row wrapping as the specification words it: a cell starts a new
    row when it is the first one or when the used width plus its width
    exceeds the available width; otherwise it joins the current row. *)
Fixpoint wrap_rows (maxcol h_sep : Z) (cur : row) (cells : list (Widget * Z))
  : list row :=
  match cells with
  | [] => [cur]
  | cell :: cells' =>
      if bool_decide (row_used h_sep cur + cell.2 > maxcol)
      then cur :: wrap_rows maxcol h_sep [cell] cells'
      else wrap_rows maxcol h_sep (cur ++ [cell]) cells'
  end.

Definition wrapped (maxcol h_sep : Z) (cells : list (Widget * Z)) : list row :=
  match cells with
  | [] => []
  | cell :: cells' => wrap_rows maxcol h_sep [cell] cells'
  end.

(** Rows with [sep] blank rows between consecutive ones. *)
Fixpoint separated (sep : Z) (rows : list row) : list (Z + row) :=
  match rows with
  | [] => []
  | [r] => [inr r]
  | r :: rows' => inr r :: inl sep :: separated sep rows'
  end.

(** Rows, each preceded by a divider when dividers are in use: the
    pile while it is being built. *)
Fixpoint preceded (v_sep sep : Z) (rows : list row) : list (Z + row) :=
  match rows with
  | [] => []
  | r :: rows' =>
      (if bool_decide (v_sep <> 0) then [inl sep] else [])
        ++ inr r :: preceded v_sep sep rows'
  end.

(** State of the generation loop after some cells: the rows [done]
    are closed and [cur] is the row being filled. *)
Definition building (self : GridFlow.t) (divider : GridFlow.Divider)
    (st : GridFlow.gen) (done : list row) (cur : row) : Prop :=
  exists pad : GridFlow.Padding,
    GridFlow.gen_pad st = Some pad /\
    row_cells pad = cur /\
    GridFlow.gen_used_space st = row_used (GridFlow.h_sep self) cur /\
    pile_layout (GridFlow.gen_p st)
    = preceded (GridFlow.v_sep self) (GridFlow.divider_rows divider) (done ++ [cur]).

End GridFlowLayout.

(** ** Vocabulary of the further properties *)

Module PileLayout.

(** The rows of an entry of a flow Pile. *)
Definition flow_rows (self : Pile.t) (maxcol : Z) (focus : bool)
    (item : Pile.entry) : Z :=
  if bool_decide (item.2.1 = GIVEN) then item.2.2
  else w_rows item.1 maxcol (focus && Pile.focus_is self item.1).

(** The entries holding a selectable widget. *)
Definition selectable (item : Pile.entry) : Prop := w_selectable item.1 = true.

#[global] Instance selectable_dec (item : Pile.entry) : Decision (selectable item).
Proof. unfold selectable. apply _. Defined.

End PileLayout.

Module ColumnsCache.

(** No column is sized by [pack]: the condition under which
    [column_widths] trusts its cache. *)
Definition unpacked (self : Columns.t) : Prop :=
  existsb (fun item : Columns.entry => bool_decide (item.2.1.1 = PACK))
    (MonitoredFocusList.items (Columns.contents self)) = false.

(** The cached widths are the widths of the current contents. *)
Definition coherent (self : Columns.t) : Prop :=
  forall maxcol : Z,
    Columns._cache_maxcol self = Some maxcol -> unpacked self ->
    Columns.compute_widths self maxcol false = Ok (Columns._cache_column_widths self).

(** What the computation of the widths reads of a Columns: the
    contents, [dividechars] and [min_width]. *)
Definition same_layout (a b : Columns.t) : Prop :=
  Columns.contents a = Columns.contents b /\
  Columns.dividechars a = Columns.dividechars b /\
  Columns.min_width a = Columns.min_width b.

End ColumnsCache.

(** How the generation loop of a GridFlow carries the focus. *)
Module GridFlowFocus.

Section Focus.

Variable self : GridFlow.t.
Variable fp : nat.

(** The row being filled after [i] cells: the last child of the pile,
    a padding around the [Columns] of the cells from its
    [first_position] on. *)
Definition current (p : GridFlow.DisplayPile) (pad : GridFlow.Padding) (i : nat) : Prop :=
  let cs := Columns.contents (GridFlow.c pad) in
  (exists o, last (MonitoredFocusList.items (GridFlow.p_contents p))
             = Some (GridFlow.Pad pad, o)) /\
  GridFlow.original_widget pad = None /\
  (GridFlow.first_position pad + length (MonitoredFocusList.items cs))%nat = i /\
  ((MonitoredFocusList._focus cs < length (MonitoredFocusList.items cs))%nat \/
   (MonitoredFocusList.items cs = [] /\ MonitoredFocusList._focus cs = 0%nat)).

(** The focus of the pile is on the row that holds the cell in focus,
    and the focus of that row on the cell. *)
Definition focused (p : GridFlow.DisplayPile) : Prop :=
  exists (pad : GridFlow.Padding) (o : sizing * Z),
    let cs := Columns.contents (GridFlow.c pad) in
    MonitoredFocusList.items (GridFlow.p_contents p)
      !! MonitoredFocusList._focus (GridFlow.p_contents p) = Some (GridFlow.Pad pad, o) /\
    GridFlow.original_widget pad = None /\
    (GridFlow.first_position pad + MonitoredFocusList._focus cs)%nat = fp /\
    fst <$> MonitoredFocusList.items cs !! MonitoredFocusList._focus cs
      = fst <$> MonitoredFocusList.items (GridFlow.contents self) !! fp.

(** State of the generation loop after [i] cells, as far as the focus
    goes. *)
Definition tracks (st : GridFlow.gen) (i : nat) : Prop :=
  let p := GridFlow.gen_p st in
  let l := GridFlow.p_contents p in
  match GridFlow.gen_pad st with
  | None => i = 0%nat /\ MonitoredFocusList.items l = []
  | Some pad =>
      current p pad i /\
      (GridFlow.v_sep self <> 0 ->
       exists d o, MonitoredFocusList.items l !! 0%nat = Some (GridFlow.Div d, o)) /\
      ((fp < i)%nat ->
       focused p /\
       (S (MonitoredFocusList._focus l) = length (MonitoredFocusList.items l) ->
        GridFlow.gen_column_focused st = true))
  end.

End Focus.

End GridFlowFocus.

(** Vocabulary of the focus path. *)
Module FocusPath.

Import WidgetContainerMixin.

(** The tree with every focus reset: what the assignments of
    [set_focus_path] leave alone. *)
Fixpoint skeleton (w : widget) : widget :=
  match w with
  | Leaf x => Leaf x
  | Container cs _ => Container (map skeleton cs) 0
  end.

(** The cursor of every container is inside its contents, as
    MonitoredFocusList keeps it. *)
Fixpoint wf (w : widget) : bool :=
  match w with
  | Leaf _ => true
  | Container cs f =>
      match cs with
      | [] => true
      | _ => bool_decide (f < length cs)%nat
      end && forallb wf cs
  end.

(** [w[p0][p1]...] *)
Fixpoint descend (w : widget) (positions : list Z) : result widget :=
  match positions with
  | [] => Ok w
  | p :: positions' => c ← __getitem__ w p; descend c positions'
  end.

End FocusPath.

(** ** Sample objects

    Concrete widgets and containers on which the model is run. *)

Module Samples.

(** A leaf widget: one row high, one column wide, no children. *)
Definition leaf (id : nat) (selectable : bool) : Widget :=
  mkWidget id selectable None (fun _ _ => 1) (fun _ _ => 1) None.

(** A flow widget of a fixed number of rows. *)
Definition text (id : nat) (rows : Z) : Widget :=
  mkWidget id false None (fun _ _ => rows) (fun _ _ => 1) None.

(** Stand-ins for the normalisers of [urwid.decoration] on the option
    forms used below: a keyword stands alone, a relative amount comes
    as a [('relative', n)] pair, a given extent as a bare integer. *)
Definition simplify (t amount : atom) : options_value :=
  match t with
  | AStr "relative" => OTuple [t; amount]
  | AStr "given" => OAtom amount
  | _ => OAtom t
  end.

Definition normalize (keywords : list string) (v : options_value)
  : result (atom * atom) :=
  match v with
  | OAtom (AStr s) => if bool_decide (s ∈ keywords) then Ok (AStr s, ANone) else Raise OverlayError
  | OAtom (AInt n) => Ok (AStr "given", AInt n)
  | OTuple [AStr "relative"; AInt n] => Ok (AStr "relative", AInt n)
  | _ => Raise OverlayError
  end.

Definition overlay_setitem : Overlay.t -> Z -> Widget * options_value -> result Overlay.t :=
  Overlay._contents__setitem__ simplify simplify simplify simplify
    (normalize ["left"; "center"; "right"]) (normalize ["clip"; "pack"])
    (normalize ["top"; "middle"; "bottom"]) (normalize ["flow"; "pack"]).

(** An overlay showing [leaf 1] centred over [leaf 0]. *)
Definition overlay : Overlay.t :=
  Overlay.mk (leaf 1 true) (leaf 0 false)
    (AStr "center") ANone (AStr "relative") (AInt 50) ANone (AInt 0) (AInt 0)
    (AStr "middle") ANone (AStr "relative") (AInt 50) ANone (AInt 0) (AInt 0).

Definition top_options : options_value :=
  Overlay.options (AStr "left") ANone (AStr "given") (AInt 20)
    (AStr "top") ANone (AStr "given") (AInt 5)
    ANone ANone (AInt 0) (AInt 0) (AInt 0) (AInt 0).

(** A frame with a three-row header and a two-row footer. *)
Definition frame : Frame.t :=
  Frame.__init__ (leaf 0 true) (Some (text 1 3)) (Some (text 2 2)) "body".

(** [Frame(body, focus_part='header')]: no header, focus on it. *)
Definition dangling_frame : Frame.t :=
  Frame.__init__ (leaf 0 true) None None "header".

Definition bare_frame : Frame.t :=
  Frame.__init__ (leaf 0 true) None None "body".

Definition header_focused_frame : Frame.t :=
  Frame.__init__ (leaf 0 true) (Some (leaf 1 true)) None "header".

Definition pile_of (l : list (sizing * Z)) : Pile.t :=
  Pile.mk (MonitoredFocusList.mk (imap (fun i o => (leaf i true, o)) l) 0%nat) true 0.

Definition columns_of (l : list (sizing * Z)) (focus : nat) (dividechars min_width : Z)
  : Columns.t :=
  Columns.mk
    (MonitoredFocusList.mk (imap (fun i o => (leaf i true, (o, false))) l) focus)
    dividechars min_width None true None [].

(** Three columns of width 3, the focus on the last one. *)
Definition crowded_columns : Columns.t :=
  columns_of [(GIVEN, 3); (GIVEN, 3); (GIVEN, 3)] 2 0 1.

(** The same with the focus on the first one. *)
Definition crowded_columns_head : Columns.t :=
  columns_of [(GIVEN, 3); (GIVEN, 3); (GIVEN, 3)] 0 0 1.

(** The same with the focus on the middle one. *)
Definition crowded_columns_middle : Columns.t :=
  columns_of [(GIVEN, 3); (GIVEN, 3); (GIVEN, 3)] 1 0 1.

(** Three light entries before a heavy one. *)
Definition lopsided_pile : Pile.t :=
  pile_of [(WEIGHT, 1); (WEIGHT, 1); (WEIGHT, 1); (WEIGHT, 8)].

(** The same as columns that touch, of [min_width] columns at least. *)
Definition lopsided_columns (min_width : Z) : Columns.t :=
  columns_of [(WEIGHT, 1); (WEIGHT, 1); (WEIGHT, 1); (WEIGHT, 8)] 0 0 min_width.

Definition empty_pile : Pile.t := Pile.mk MonitoredFocusList.empty false 0.

Definition empty_columns : Columns.t := Columns.__init__ 0.

(** A GridFlow of [n] selectable cells of width [cell_width]. *)
Definition gridflow_of (n : nat) (cell_width h_sep v_sep : Z) (focus : nat)
  : GridFlow.t :=
  GridFlow.mk
    (MonitoredFocusList.mk
       (imap (fun i _ => (leaf i true, (GIVEN, cell_width))) (replicate n tt)) focus)
    cell_width h_sep v_sep (OAtom (AStr "left")) None
    (GridFlow.WDivider (GridFlow.mkDivider 0 0)).

(** Five cells of width 4, one blank column and two blank rows apart. *)
Definition gridflow : GridFlow.t := gridflow_of 5 4 1 2 3.

(** A container of two children with the focus on the second, as a
    cell: a list container of length 2 whose [focus_position] is 1. *)
Definition focused_pair (id : nat) : Widget :=
  mkWidget id false (Some 2%nat) (fun _ _ => 2) (fun _ _ => 1) (Some 1).

(** A display widget that does not handle the event. *)
Definition ignore_mouse_event (d : GridFlow.display) (size : Z) (event : string)
    (button col row : Z) (focus : bool) : result (GridFlow.display * bool) :=
  Ok (d, false).

Definition empty_gridflow : GridFlow.t :=
  GridFlow.mk MonitoredFocusList.empty 4 1 1 (OAtom (AStr "left")) None
    (GridFlow.WDivider (GridFlow.mkDivider 0 0)).

(** Stand-ins for the collaborators: an event is a press when its
    name contains "press"; the arrow and page keys have their usual
    commands; children accept the mouse and handle it exactly when
    they are selectable, and hand every key back; a fixed widget is 10
    columns by 3 rows; padding and filler centre an extent of half the
    available one. *)
#[local] Instance toolkit : Toolkit := {|
  is_mouse_press event :=
    match String.index 0 "press" event with Some _ => true | None => false end;
  _command_map key :=
    match key with
    | Some "up" => Some "cursor up"
    | Some "down" => Some "cursor down"
    | Some "left" => Some "cursor left"
    | Some "right" => Some "cursor right"
    | Some "page up" => Some "cursor page up"
    | Some "page down" => Some "cursor page down"
    | _ => None
    end%string;
  has_mouse_event w := true;
  w_mouse_event w size event button col row focus := Some (w_selectable w);
  w_keypress w size key := Some key;
  has_get_pref_col w := true;
  w_get_pref_col w size := Some 2;
  has_move_cursor_to_coords w := true;
  w_move_cursor_to_coords w size col row := bool_decide (row = 0);
  w_pack_fixed w focus := (10, 3);
  calculate_left_right_padding maxcol _ _ _ _ _ _ _ :=
    (maxcol `div` 4, maxcol - maxcol `div` 4 - maxcol `div` 2);
  calculate_top_bottom_filler maxrow _ _ _ _ _ _ _ :=
    (maxrow `div` 4, maxrow - maxrow `div` 4 - maxrow `div` 2)
|}.

(** A column of width 3 and a weighted one, a separator of one
    screen column between them, the focus on the first. *)
Definition two_columns : Columns.t :=
  columns_of [(GIVEN, 3); (WEIGHT, 1)] 0 1 1.

(** The sample frame with the focus on its part [part]. *)
Definition frame_focused (part : string) : Frame.t :=
  Frame.__init__ (leaf 0 true) (Some (text 1 3)) (Some (text 2 2)) part.

(** A container of a leaf, a container of two leaves with the focus on
    the second, and an empty container; the focus on the second. *)
Definition nested : WidgetContainerMixin.widget :=
  WidgetContainerMixin.Container
    [WidgetContainerMixin.Leaf (leaf 0 true);
     WidgetContainerMixin.Container
       [WidgetContainerMixin.Leaf (leaf 1 true);
        WidgetContainerMixin.Leaf (leaf 2 true)] 1;
     WidgetContainerMixin.Container [] 0] 1.

End Samples.

(** * Properties *)

(** ** Overlay *)

(** C5.  The focus of an Overlay is fixed on the top widget: [focus]
    is [top_w], [focus_position] reads 1, writing any other position
    raises the focus error ([IndexError]) and writing 1 leaves the
    Overlay as it was. *)
Theorem Overlay_focus_fixed (self : Overlay.t) :
  Overlay.focus self = Overlay.top_w self /\
  Overlay.focus_position self = 1 /\
  (forall position : Z, position <> 1 ->
     Overlay.set_focus_position self position = Raise IndexError) /\
  Overlay.set_focus_position self 1 = Ok self.
Proof.
  repeat split.
  intros position Hne. unfold Overlay.set_focus_position.
  destruct (decide (position <> 1)); [reflexivity | contradiction].
Qed.

Lemma Overlay_focus_fixed_witness :
  0 <> 1 /\ Overlay.set_focus_position Samples.overlay 0 = Raise IndexError.
Proof.
  split; [lia |].
  apply (proj1 (proj2 (proj2 (Overlay_focus_fixed Samples.overlay)))). lia.
Defined.

Section OverlayContents.

Variables simplify_align simplify_width simplify_valign simplify_height
  : atom -> atom -> options_value.
Variables normalize_align normalize_width normalize_valign normalize_height
  : options_value -> result (atom * atom).

Let setitem := Overlay._contents__setitem__
  simplify_align simplify_width simplify_valign simplify_height
  normalize_align normalize_width normalize_valign normalize_height.

(** Writing the bottom slot with other options than the constant is
    refused. *)
Lemma Overlay_setitem_bottom_rejects (self : Overlay.t) (w : Widget)
    (options : options_value) :
  options <> Overlay._DEFAULT_BOTTOM_OPTIONS ->
  setitem self 0 (w, options) = Raise OverlayError.
Proof.
  intros Hne. unfold setitem, Overlay._contents__setitem__.
  destruct (decide (0 = 0)); [| lia].
  destruct (decide (options <> Overlay._DEFAULT_BOTTOM_OPTIONS)); [reflexivity | contradiction].
Qed.

(** The sibling path: the bottom slot stores the widget it is given. *)
Lemma Overlay_setitem_bottom_stores (self : Overlay.t) (w : Widget) :
  exists self',
    setitem self 0 (w, Overlay._DEFAULT_BOTTOM_OPTIONS) = Ok self' /\
    Overlay._contents__getitem__ self' 0 = Ok (w, Overlay._DEFAULT_BOTTOM_OPTIONS).
Proof.
  eexists. split.
  - unfold setitem, Overlay._contents__setitem__.
    destruct (decide (0 = 0)); [| lia].
    destruct (decide (Overlay._DEFAULT_BOTTOM_OPTIONS <> Overlay._DEFAULT_BOTTOM_OPTIONS));
      [contradiction | reflexivity].
  - reflexivity.
Qed.

(** C4.  Writing [contents[1]] never stores the widget of the written
    pair: whenever the write is accepted, [contents[1]] still reads the
    previous top widget.  (The claim, and the docstring of [contents],
    promise the written widget.) *)
Theorem Overlay_setitem_top_keeps_old_widget (self self' : Overlay.t)
    (w : Widget) (options : options_value) :
  setitem self 1 (w, options) = Ok self' ->
  fst <$> Overlay._contents__getitem__ self' 1 = Ok (Overlay.top_w self).
Proof.
  unfold setitem, Overlay._contents__setitem__. intros H.
  destruct (decide (1 = 0)); [lia |].
  destruct (decide (1 = 1)); [| lia].
  destruct (unpack options) as [l |]; [| discriminate].
  do 14 (destruct l as [| ? l]; [discriminate |]).
  destruct l; [| discriminate].
  destruct (normalize_align _) as [[? ?] |]; [| discriminate]. cbn in H.
  destruct (normalize_width _) as [[? ?] |]; [| discriminate]. cbn in H.
  destruct (normalize_valign _) as [[? ?] |]; [| discriminate]. cbn in H.
  destruct (normalize_height _) as [[? ?] |]; [| discriminate]. cbn in H.
  injection H as <-. reflexivity.
Qed.

End OverlayContents.

Lemma Overlay_setitem_top_keeps_old_widget_witness :
  Samples.overlay_setitem Samples.overlay 1 (Samples.leaf 7 true, Samples.top_options)
    = Ok (Overlay.mk (Samples.leaf 1 true) (Samples.leaf 0 false)
            (AStr "left") ANone (AStr "given") (AInt 20) ANone (AInt 0) (AInt 0)
            (AStr "top") ANone (AStr "given") (AInt 5) ANone (AInt 0) (AInt 0)) /\
  fst <$> Overlay._contents__getitem__
            (Overlay.mk (Samples.leaf 1 true) (Samples.leaf 0 false)
               (AStr "left") ANone (AStr "given") (AInt 20) ANone (AInt 0) (AInt 0)
               (AStr "top") ANone (AStr "given") (AInt 5) ANone (AInt 0) (AInt 0)) 1
    = Ok (Overlay.top_w Samples.overlay).
Proof.
  split; [reflexivity |].
  apply (Overlay_setitem_top_keeps_old_widget
           Samples.simplify Samples.simplify Samples.simplify Samples.simplify
           (Samples.normalize ["left"; "center"; "right"])
           (Samples.normalize ["clip"; "pack"])
           (Samples.normalize ["top"; "middle"; "bottom"])
           (Samples.normalize ["flow"; "pack"])
           Samples.overlay _ (Samples.leaf 7 true) Samples.top_options).
  reflexivity.
Defined.

(** The widget read back is not the one that was written. *)
Lemma Overlay_written_top_widget_lost :
  exists self',
    Samples.overlay_setitem Samples.overlay 1 (Samples.leaf 7 true, Samples.top_options)
      = Ok self' /\
    fst <$> Overlay._contents__getitem__ self' 1 = Ok (Samples.leaf 1 true) /\
    Samples.leaf 1 true <> Samples.leaf 7 true.
Proof.
  eexists. split; [reflexivity |]. split; [reflexivity |].
  intros H. discriminate (f_equal w_id H).
Qed.

(** ** Frame *)

(** Decide every test [bool_decide P] in sight. *)
Ltac decide_tests :=
  repeat match goal with
  | |- context [@bool_decide ?P ?d] => destruct (@bool_decide_reflect P d)
  | H : context [@bool_decide ?P ?d] |- _ => destruct (@bool_decide_reflect P d)
  end.

(** Membership in a list written out. *)
Ltac list_mem :=
  rewrite ?elem_of_cons, ?elem_of_nil in *;
  intuition (try congruence; try discriminate).

Ltac frame_cases := decide_tests; simplify_eq /=; try done; try list_mem.

(** The three setters keep a Frame well focused. *)
Lemma Frame_set_header_focus (self : Frame.t) (h : option Widget) :
  Frame.well_focused self -> Frame.well_focused (Frame.set_header self h).
Proof.
  destruct self as [h0 b ft part]. intros [Hb [w Hw]]. cbn in Hb.
  destruct b as [b |]; [| done].
  unfold Frame.well_focused, Frame.focus_exists, Frame.focus, Frame.set_header in *.
  cbn in *. destruct h as [h |]; frame_cases; eauto.
Qed.

Lemma Frame_set_footer_focus (self : Frame.t) (ft : option Widget) :
  Frame.well_focused self -> Frame.well_focused (Frame.set_footer self ft).
Proof.
  destruct self as [h0 b ft0 part]. intros [Hb [w Hw]]. cbn in Hb.
  destruct b as [b |]; [| done].
  unfold Frame.well_focused, Frame.focus_exists, Frame.focus, Frame.set_footer in *.
  cbn in *. destruct ft as [ft |]; frame_cases; eauto.
Qed.

Lemma Frame_set_body_focus (self : Frame.t) (b : Widget) :
  Frame.well_focused self -> Frame.well_focused (Frame.set_body self (Some b)).
Proof.
  destruct self as [h0 b0 ft0 part]. intros [Hb [w Hw]].
  unfold Frame.well_focused, Frame.focus_exists, Frame.focus, Frame.set_body in *.
  cbn in *. frame_cases; eauto.
Qed.

Lemma Frame_delitem_header (self : Frame.t) :
  Frame._header self <> None ->
  Frame._contents__delitem__ self "header" = Ok (Frame.set_header self None).
Proof.
  intros Hh. unfold Frame._contents__delitem__. frame_cases.
Qed.

Lemma Frame_delitem_footer (self : Frame.t) :
  Frame._footer self <> None ->
  Frame._contents__delitem__ self "footer" = Ok (Frame.set_footer self None).
Proof.
  intros Hh. unfold Frame._contents__delitem__. frame_cases.
Qed.

(** A deletion that is accepted went through one of the two setters. *)
Lemma Frame_delitem_inv (self self' : Frame.t) (key : string) :
  Frame._contents__delitem__ self key = Ok self' ->
  (key = "header" /\ Frame._header self <> None /\ self' = Frame.set_header self None) \/
  (key = "footer" /\ Frame._footer self <> None /\ self' = Frame.set_footer self None).
Proof.
  unfold Frame._contents__delitem__. intros H.
  destruct (decide (key = "header")) as [-> | Hh].
  - left. frame_cases.
  - right. destruct (decide (key = "footer")) as [-> | Hf]; frame_cases.
Qed.

(** C8.  Deleting ['header'] from the contents of a Frame that has a
    header succeeds and leaves [contents.keys()] without ['header'] and
    with ['body']; on a Frame without header, setting [focus_position]
    to ['header'] raises [IndexError] (and so changes nothing). *)
Theorem Frame_header_removal :
  (forall self : Frame.t, Frame._header self <> None ->
     exists self', Frame._contents__delitem__ self "header" = Ok self' /\
       ("header" ∉ Frame._contents_keys self') /\
       ("body" ∈ Frame._contents_keys self')) /\
  (forall self : Frame.t, Frame._header self = None ->
     Frame.set_focus_position self "header" = Raise IndexError).
Proof.
  split.
  - intros self Hh. exists (Frame.set_header self None).
    split; [by apply Frame_delitem_header |].
    destruct self as [h b ft part].
    unfold Frame.set_header, Frame._contents_keys. cbn.
    destruct (bool_decide (part = "header")); cbn; destruct (truthy_opt ft); cbn; list_mem.
  - intros [h b ft part] Hh. cbn in Hh. subst h.
    unfold Frame.set_focus_position. cbn. frame_cases.
Qed.

Lemma Frame_header_removal_witness :
  (exists self', Frame._contents__delitem__ Samples.frame "header" = Ok self' /\
     ("header" ∉ Frame._contents_keys self') /\
     ("body" ∈ Frame._contents_keys self')) /\
  Frame.set_focus_position Samples.bare_frame "header" = Raise IndexError.
Proof.
  split.
  - apply (proj1 Frame_header_removal Samples.frame). discriminate.
  - apply (proj2 Frame_header_removal Samples.bare_frame). reflexivity.
Defined.

(** C9, as stated: after any accepted contents mutation the focus
    refers to a part that exists.  A Frame built with
    [focus_part='header'] and no header refutes it: replacing its body
    is accepted and the focus still reads [None]. *)
Lemma Frame_focus_dangles_from_construction :
  ~ (forall (m : Frame.mutation) (self' : Frame.t),
       Frame.mutate Samples.dangling_frame m = Ok self' -> Frame.focus_exists self').
Proof.
  intros H.
  destruct (H (Frame.SetBody (Some (Samples.leaf 5 true)) (OAtom ANone)) _ eq_refl)
    as [w Hw].
  discriminate Hw.
Qed.

(** A second way to refute it, on a Frame that starts with its three
    parts and the focus on the body: [contents['body'] = (None, None)]
    is accepted, and the focus then reads [None]. *)
Lemma Frame_focus_dangles_after_body_none :
  Frame.well_focused Samples.frame /\
  Frame.mutate Samples.frame (Frame.SetBody None (OAtom ANone))
  = Ok (Frame.set_body Samples.frame None) /\
  Frame.focus (Frame.set_body Samples.frame None) = Ok None /\
  ~ Frame.focus_exists (Frame.set_body Samples.frame None).
Proof.
  split; [split; [discriminate | by exists (Samples.leaf 0 true)] |].
  split; [reflexivity |]. split; [reflexivity |].
  intros [w Hw]. discriminate Hw.
Qed.

(** C9, amended.  Setting the header to [None], directly or by
    deleting ['header'], while the focus is on the header moves the
    focus to ['body'], and the same holds for the footer.  When a
    Frame with a body has a focus that refers to an existing part, it
    still has both after every accepted contents mutation that does
    not write [None] as the body.  Writing [None] as the body is
    accepted too: the focus stays where it is, so it reads [None]
    when it is on the body and still refers to its part when it is on
    the header or the footer. *)
Theorem Frame_focus_never_dangles :
  (forall self : Frame.t, Frame.focus_part self = "header" ->
     Frame.focus_position (Frame.set_header self None) = "body") /\
  (forall self self' : Frame.t, Frame.focus_part self = "header" ->
     Frame._contents__delitem__ self "header" = Ok self' ->
     Frame.focus_position self' = "body") /\
  (forall self : Frame.t, Frame.focus_part self = "footer" ->
     Frame.focus_position (Frame.set_footer self None) = "body") /\
  (forall self self' : Frame.t, Frame.focus_part self = "footer" ->
     Frame._contents__delitem__ self "footer" = Ok self' ->
     Frame.focus_position self' = "body") /\
  (forall (self self' : Frame.t) (m : Frame.mutation),
     Frame.well_focused self -> Frame.mutate self m = Ok self' ->
     (forall options : options_value, m <> Frame.SetBody None options) ->
     Frame.well_focused self') /\
  (forall (self self' : Frame.t) (options : options_value),
     Frame.mutate self (Frame.SetBody None options) = Ok self' ->
     self' = Frame.set_body self None /\
     Frame.focus_position self' = Frame.focus_position self /\
     (Frame.focus_part self = "body" -> Frame.focus self' = Ok None) /\
     (Frame.focus_part self <> "body" -> Frame.focus self' = Frame.focus self)) /\
  (forall self : Frame.t,
     Frame.mutate self (Frame.SetBody None (OAtom ANone))
     = Ok (Frame.set_body self None)).
Proof.
  assert (Hh : forall self : Frame.t, Frame.focus_part self = "header" ->
            Frame.focus_position (Frame.set_header self None) = "body").
  { intros [h b ft part] Hp. cbn in Hp. by subst. }
  assert (Hf : forall self : Frame.t, Frame.focus_part self = "footer" ->
            Frame.focus_position (Frame.set_footer self None) = "body").
  { intros [h b ft part] Hp. cbn in Hp. by subst. }
  split; [exact Hh |]. split.
  { intros self self' Hp Hd.
    apply Frame_delitem_inv in Hd as [(_ & _ & ->) | (? & _)]; [by apply Hh | done]. }
  split; [exact Hf |]. split.
  { intros self self' Hp Hd.
    apply Frame_delitem_inv in Hd as [(? & _) | (_ & _ & ->)]; [done | by apply Hf]. }
  split; [| split].
  - intros self self' m Hw Hm Hbody. destruct m as [w o | w o | w o | key]; cbn in Hm.
    + destruct w as [w |]; [| by destruct (Hbody o)].
      unfold Frame._contents__setitem__ in Hm. frame_cases.
      by apply Frame_set_body_focus.
    + unfold Frame._contents__setitem__ in Hm. frame_cases.
      by apply Frame_set_header_focus.
    + unfold Frame._contents__setitem__ in Hm. frame_cases.
      by apply Frame_set_footer_focus.
    + apply Frame_delitem_inv in Hm as [(_ & _ & ->) | (_ & _ & ->)].
      * by apply Frame_set_header_focus.
      * by apply Frame_set_footer_focus.
  - intros self self' o Hm. cbn in Hm.
    unfold Frame._contents__setitem__ in Hm.
    assert (self' = Frame.set_body self None) as -> by frame_cases.
    split; [done |]. split; [done |].
    destruct self as [h b ft part]. unfold Frame.focus, Frame.set_body. cbn.
    split; intros Hp; frame_cases.
  - intros self. reflexivity.
Qed.

Lemma Frame_focus_never_dangles_witness :
  Frame.focus_position (Frame.set_header Samples.header_focused_frame None) = "body" /\
  Frame.well_focused (Frame.set_header Samples.header_focused_frame None) /\
  Frame.focus (Frame.set_body Samples.frame None) = Ok None.
Proof.
  destruct Frame_focus_never_dangles as (Hh & _ & _ & _ & Hkeep & Hnone & Hacc).
  split; [| split].
  - apply (Hh Samples.header_focused_frame). reflexivity.
  - apply (Hkeep Samples.header_focused_frame _ (Frame.DelItem "header")).
    + split; [discriminate | by exists (Samples.leaf 1 true)].
    + reflexivity.
    + discriminate.
  - destruct (Hnone Samples.frame _ (OAtom ANone) (Hacc Samples.frame))
      as (_ & _ & Hb & _).
    apply Hb. reflexivity.
Defined.




(** ** Focus of an empty container *)

Lemma MonitoredFocusList_append_first {A : Type}
    (validate : list A -> result unit) (l : MonitoredFocusList.t A) (item : A) :
  MonitoredFocusList.items l = [] -> validate [item] = Ok tt ->
  MonitoredFocusList.append validate l item
    = Ok (MonitoredFocusList.mk [item] 0%nat).
Proof.
  intros Hl Hv. unfold MonitoredFocusList.append. rewrite Hv, Hl. cbn.
  by rewrite Nat.min_0_r.
Qed.

(** C6.  Reading [focus_position] of an empty Pile, Columns or
    GridFlow raises [IndexError]; appending one entry (for a GridFlow,
    a ['given'] one, the only kind it accepts) to the empty container
    succeeds and [focus_position] then reads 0. *)
Theorem empty_container_focus_position :
  (forall p : Pile.t, MonitoredFocusList.items (Pile.contents p) = [] ->
     Pile.focus_position p = Raise IndexError /\
     forall item : Pile.entry, exists p',
       Pile.append p item = Ok p' /\ Pile.focus_position p' = Ok 0%nat) /\
  (forall c : Columns.t, MonitoredFocusList.items (Columns.contents c) = [] ->
     Columns.focus_position c = Raise IndexError /\
     forall item : Columns.entry, exists c',
       Columns.append c item = Ok c' /\ Columns.focus_position c' = Ok 0%nat) /\
  (forall g : GridFlow.t, MonitoredFocusList.items (GridFlow.contents g) = [] ->
     GridFlow.focus_position g = Raise IndexError /\
     forall (w : Widget) (n : Z), exists g',
       GridFlow.append g (w, (GIVEN, n)) = Ok g' /\
       GridFlow.focus_position g' = Ok 0%nat).
Proof.
  split; [| split].
  - intros p Hp. split.
    + unfold Pile.focus_position, MonitoredFocusList.focus. by rewrite Hp.
    + intros item. eexists. split.
      * unfold Pile.append.
        rewrite (MonitoredFocusList_append_first _ _ _ Hp); [reflexivity |].
        destruct item as [w [[] n]]; reflexivity.
      * reflexivity.
  - intros c Hc. split.
    + unfold Columns.focus_position. by rewrite Hc.
    + intros item. eexists. split.
      * unfold Columns.append.
        rewrite (MonitoredFocusList_append_first _ _ _ Hc); [reflexivity |].
        destruct item as [w [[[] n] b]]; reflexivity.
      * reflexivity.
  - intros g Hg. split.
    + unfold GridFlow.focus_position, MonitoredFocusList.focus. by rewrite Hg.
    + intros w n. eexists. split.
      * unfold GridFlow.append.
        rewrite (MonitoredFocusList_append_first _ _ _ Hg); reflexivity.
      * reflexivity.
Qed.

Lemma empty_container_focus_position_witness :
  (Pile.focus_position Samples.empty_pile = Raise IndexError /\
   exists p', Pile.append Samples.empty_pile (Samples.leaf 0 true, (WEIGHT, 1)) = Ok p' /\
     Pile.focus_position p' = Ok 0%nat) /\
  (Columns.focus_position Samples.empty_columns = Raise IndexError /\
   exists c', Columns.append Samples.empty_columns
                (Samples.leaf 0 true, (WEIGHT, 1, false)) = Ok c' /\
     Columns.focus_position c' = Ok 0%nat) /\
  (GridFlow.focus_position Samples.empty_gridflow = Raise IndexError /\
   exists g', GridFlow.append Samples.empty_gridflow (Samples.leaf 0 true, (GIVEN, 4)) = Ok g' /\
     GridFlow.focus_position g' = Ok 0%nat).
Proof.
  destruct empty_container_focus_position as (HP & HC & HG).
  destruct (HP Samples.empty_pile eq_refl) as [HP1 HP2].
  destruct (HC Samples.empty_columns eq_refl) as [HC1 HC2].
  destruct (HG Samples.empty_gridflow eq_refl) as [HG1 HG2].
  split; [split; [exact HP1 | apply HP2] |].
  split; [split; [exact HC1 | apply HC2] |].
  split; [exact HG1 | apply HG2].
Defined.

(** ** The box solver of Pile *)

Lemma sumZ_app (l1 l2 : list Z) : sumZ (l1 ++ l2) = sumZ l1 + sumZ l2.
Proof. induction l1 as [| x l1 IH]; cbn; lia. Qed.

Lemma pair3_eq {A B C : Type} (a a' : A) (b b' : B) (c c' : C) :
  a = a' -> b = b' -> c = c' -> (a, b, c) = (a', b', c').
Proof. by intros -> -> ->. Qed.

(** [round_share] on a non-negative amount and a positive weight that
    is part of the total. *)
Lemma round_share_spec (r h wt : Z) :
  0 <= r -> 0 <= h <= wt -> 0 < wt ->
  exists rows, round_share r h wt = Ok rows /\
    0 <= rows <= r /\ nearest rows (r * h) wt /\ (wt = h -> rows = r).
Proof.
  intros Hr Hh Hpos. unfold round_share.
  destruct (bool_decide_reflect (wt = 0)) as [-> | Hwt]; [lia |].
  eexists. split; [reflexivity |].
  rewrite Z.quot_div_nonneg by nia.
  set (q := (2 * r * h + wt) `div` (2 * wt)).
  assert (Hq : 2 * wt * q <= 2 * r * h + wt < 2 * wt * q + 2 * wt).
  { pose proof (Z.mul_div_le (2 * r * h + wt) (2 * wt)).
    pose proof (Z.mul_succ_div_gt (2 * r * h + wt) (2 * wt)).
    fold q in H, H0. lia. }
  unfold nearest. repeat split; try nia.
Qed.

Section PileBox.

Variable self : Pile.t.
Variable maxcol : Z.
Variable focus : bool.

(** The first pass writes one slot per entry, deducts the fixed extents
    and adds up the weights. *)
Lemma Pile_reserve_spec (cs : list Pile.entry) (l : list (option Z)) (r wt : Z) :
  Pile.reserve self maxcol focus cs l r wt
  = (l ++ map (PileSolver.slot self maxcol focus) cs,
     r - sumZ (map (PileSolver.fixed_of self maxcol focus) cs),
     wt + sumZ (map PileSolver.weight_of cs)).
Proof.
  revert l r wt. induction cs as [| [w [f height]] cs IH]; intros l r wt.
  - cbn. rewrite app_nil_r. apply pair3_eq; [done | lia | lia].
  - cbn [Pile.reserve]. destruct f.
    + rewrite !bool_decide_eq_true_2 by done. rewrite IH.
      rewrite <- app_assoc. cbn. apply pair3_eq; [done | lia | lia].
    + rewrite bool_decide_eq_false_2 by done.
      rewrite !bool_decide_eq_true_2 by done. rewrite IH.
      rewrite <- app_assoc. cbn. apply pair3_eq; [done | lia | lia].
    + rewrite !bool_decide_eq_false_2 by done.
      destruct (bool_decide_reflect (height <> 0)) as [Hh | Hh].
      * rewrite IH. rewrite <- app_assoc. cbn.
        unfold PileSolver.slot at 2. cbn.
        rewrite bool_decide_eq_false_2 by done.
        apply pair3_eq; [done | lia | lia].
      * assert (height = 0) as -> by lia. rewrite IH.
        rewrite <- app_assoc. cbn. apply pair3_eq; [done | lia | lia].
Qed.

End PileBox.

Lemma Pile_share_from_nil (cs : list Pile.entry) (r wt : Z) :
  PileSolver.share_from cs [] r wt = Ok [].
Proof. by destruct cs as [| [w [f h]] cs]. Qed.

(** The loop over indices is the recursion over the two lists. *)
Lemma Pile_share_share_from (cs : list Pile.entry) :
  forall (i : nat) (l : list (option Z)) (r wt : Z),
    Pile.share i cs l r wt
    = (fun out => take i l ++ out) <$> PileSolver.share_from cs (drop i l) r wt.
Proof.
  induction cs as [| [w [f height]] cs IH]; intros i l r wt.
  - cbn. by rewrite take_drop.
  - cbn [Pile.share]. destruct (l !! i) as [[x |] |] eqn:Hi.
    + rewrite IH. rewrite (drop_S _ _ _ Hi). cbn.
      rewrite (take_S_r _ _ _ Hi).
      destruct (PileSolver.share_from cs _ r wt); cbn; [| done].
      by rewrite <- app_assoc.
    + rewrite (drop_S _ _ _ Hi). cbn.
      destruct (round_share r height wt) as [rows |]; cbn; [| done].
      rewrite IH.
      assert (Hlt : (i < length l)%nat) by (eapply lookup_lt_Some; eauto).
      rewrite drop_insert_lt by lia.
      rewrite (take_S_r (<[i:=Some rows]> l) i (Some rows))
        by (by apply list_lookup_insert_eq).
      rewrite take_insert_ge by lia.
      destruct (PileSolver.share_from cs _ _ _); cbn; [| done].
      by rewrite <- app_assoc.
    + rewrite IH. apply lookup_ge_None in Hi.
      rewrite !drop_ge by lia. rewrite !take_ge by lia.
      by rewrite !Pile_share_from_nil.
Qed.

Lemma Pile_weights_nonneg (cs : list Pile.entry) :
  Forall (fun item => 0 <= PileSolver.weight_of item) cs ->
  0 <= sumZ (map PileSolver.weight_of cs).
Proof. induction 1; cbn; lia. Qed.

(** The second pass on the slots of the first: every entry gets an
    integer, the weighted ones share exactly what was left, each taking
    the rounded proportion of what is unassigned at its turn. *)
Lemma Pile_share_from_ok (self : Pile.t) (maxcol : Z) (focus : bool)
    (cs : list Pile.entry) :
  forall r wt : Z,
    Forall (fun item => 0 <= PileSolver.weight_of item) cs ->
    wt = sumZ (map PileSolver.weight_of cs) -> 0 <= r ->
    exists out : list Z,
      PileSolver.share_from cs (map (PileSolver.slot self maxcol focus) cs) r wt
        = Ok (Some <$> out) /\
      length out = length cs /\
      sumZ out = sumZ (map (PileSolver.fixed_of self maxcol focus) cs)
                 + (if bool_decide (wt = 0) then 0 else r) /\
      (forall (i : nat) (item : Pile.entry),
         cs !! i = Some item -> PileSolver.weight_of item = 0 ->
         out !! i = Some (PileSolver.fixed_of self maxcol focus item)) /\
      (forall (i : nat) (item : Pile.entry) (x : Z),
         cs !! i = Some item -> PileSolver.weight_of item <> 0 ->
         out !! i = Some x ->
         nearest x ((r - PileSolver.taken cs out i) * PileSolver.weight_of item)
           (PileSolver.weight_left cs i)).
Proof.
  induction cs as [| item cs IH]; intros r wt Hw Hwt Hr.
  - exists []. cbn in *. subst wt. repeat split; try done.
  - apply Forall_cons in Hw as [Hw0 Hw].
    pose proof (Pile_weights_nonneg cs Hw) as Hrest.
    cbn [map sumZ] in Hwt.
    destruct (decide (PileSolver.weight_of item = 0)) as [Hz | Hnz].
    + (* settled by the first pass *)
      destruct (IH r wt Hw ltac:(lia) Hr) as (out & Hs & Hlen & Hsum & Hfix & Hshare).
      exists (PileSolver.fixed_of self maxcol focus item :: out).
      split; [| split; [| split; [| split]]].
      * destruct item as [w [f h]]. cbn [map PileSolver.share_from].
        unfold PileSolver.slot at 1. rewrite bool_decide_eq_true_2 by done.
        rewrite Hs. reflexivity.
      * cbn. lia.
      * cbn. lia.
      * intros [| i] it Hi Hit; cbn in Hi; [by simplify_eq | by apply Hfix].
      * intros [| i] it x Hi Hit Hx; cbn in Hi, Hx; [by simplify_eq |].
        cbn [PileSolver.taken]. rewrite bool_decide_eq_true_2 by done.
        unfold PileSolver.weight_left. cbn [drop].
        rewrite Z.add_0_l. by apply Hshare.
    + (* a weighted entry takes its share *)
      destruct item as [w [f h]].
      assert (f = WEIGHT) as -> by (destruct f; cbn in Hnz; done).
      cbn in Hnz, Hw0, Hwt.
      destruct (round_share_spec r h wt Hr ltac:(lia) ltac:(lia))
        as (rows & Hrs & Hrows & Hnear & Hlast).
      destruct (IH (r - rows) (wt - h) Hw ltac:(lia) ltac:(lia))
        as (out & Hs & Hlen & Hsum & Hfix & Hshare).
      exists (rows :: out).
      split; [| split; [| split; [| split]]].
      * cbn [map PileSolver.share_from].
        unfold PileSolver.slot at 1. cbn [PileSolver.weight_of].
        rewrite bool_decide_eq_false_2 by done.
        rewrite Hrs. cbn. rewrite Hs. reflexivity.
      * cbn. lia.
      * cbn [sumZ map PileSolver.fixed_of]. rewrite Hsum.
        rewrite (bool_decide_eq_false_2 (wt = 0)) by lia.
        destruct (bool_decide_reflect (wt - h = 0)); [| lia].
        rewrite Hlast by lia. lia.
      * intros [| i] it Hi Hit; cbn in Hi; [by simplify_eq | by apply Hfix].
      * intros [| i] it x Hi Hit Hx; cbn in Hi, Hx.
        -- simplify_eq. cbn [PileSolver.taken PileSolver.weight_of].
           unfold PileSolver.weight_left. cbn [drop map sumZ PileSolver.weight_of].
           by rewrite Z.sub_0_r.
        -- cbn [PileSolver.taken PileSolver.weight_of].
           rewrite bool_decide_eq_false_2 by done.
           unfold PileSolver.weight_left. cbn [drop].
           replace (r - (rows + PileSolver.taken cs out i))
             with (r - rows - PileSolver.taken cs out i) by lia.
           by apply Hshare.
Qed.

(** The box branch of [get_item_rows]: with non-negative weights, a
    positive one among them, and room for the fixed extents, the rows
    add up to the available rows. *)
Lemma Pile_box_rows (self : Pile.t) (maxcol maxrow : Z) (focus : bool) :
  let cs := MonitoredFocusList.items (Pile.contents self) in
  Forall (fun item => 0 <= PileSolver.weight_of item) cs ->
  0 < sumZ (map PileSolver.weight_of cs) ->
  sumZ (map (PileSolver.fixed_of self maxcol focus) cs) <= maxrow ->
  exists out : list Z,
    Pile.get_item_rows self (maxcol, Some maxrow) focus = Ok (Some <$> out) /\
    length out = length cs /\
    sumZ out = maxrow /\
    (forall (i : nat) (item : Pile.entry),
       cs !! i = Some item -> PileSolver.weight_of item = 0 ->
       out !! i = Some (PileSolver.fixed_of self maxcol focus item)) /\
    (forall (i : nat) (item : Pile.entry) (x : Z),
       cs !! i = Some item -> PileSolver.weight_of item <> 0 ->
       out !! i = Some x ->
       nearest x
         ((maxrow - sumZ (map (PileSolver.fixed_of self maxcol focus) cs)
           - PileSolver.taken cs out i) * PileSolver.weight_of item)
         (PileSolver.weight_left cs i)).
Proof.
  intros cs Hw Hpos Hfit.
  set (fixed := sumZ (map (PileSolver.fixed_of self maxcol focus) cs)) in *.
  destruct (Pile_share_from_ok self maxcol focus cs (maxrow - fixed)
              (sumZ (map PileSolver.weight_of cs)) Hw eq_refl ltac:(lia))
    as (out & Hs & Hlen & Hsum & Hfix & Hshare).
  exists out. split; [| split; [| split; [| split]]]; try done.
  - unfold Pile.get_item_rows. cbn [fst snd]. fold cs.
    rewrite Pile_reserve_spec. cbn [app]. fold fixed.
    rewrite Z.add_0_l.
    rewrite bool_decide_eq_false_2 by lia.
    rewrite bool_decide_eq_false_2 by lia.
    rewrite Pile_share_share_from. rewrite drop_0, take_0.
    rewrite Hs. reflexivity.
  - rewrite Hsum. rewrite bool_decide_eq_false_2 by lia. lia.
Qed.

(** ** The width solver of Columns *)

Section ColumnsWidths.

Variable self : Columns.t.
Variable maxcol : Z.
Variable focus : bool.

Abbreviation d := (Columns.dividechars self).
Abbreviation m := (Columns.min_width self).
Abbreviation focus_pos := (MonitoredFocusList._focus (Columns.contents self)).
Abbreviation statics := (ColumnsSolver.statics self maxcol focus).
Abbreviation weights_from := ColumnsSolver.weights_from.
Abbreviation cost := (ColumnsSolver.cost (Columns.dividechars self)).

Lemma Columns_cost_app (l1 l2 : list Z) : cost (l1 ++ l2) = cost l1 + cost l2.
Proof. unfold ColumnsSolver.cost. by rewrite map_app, sumZ_app. Qed.

Lemma Columns_cost_cons (x : Z) (l : list Z) : cost (x :: l) = x + d + cost l.
Proof. reflexivity. Qed.

Lemma Columns_cost_nil : cost [] = 0.
Proof. reflexivity. Qed.

(** The first loop keeps a prefix of the entries: it stops at the
    first column right of the focus that does not fit, and at no
    other. *)
Lemma Columns_claim_spec (cs : list Columns.entry) :
  forall (i : nat) (widths : list Z) (weighted : list (Z * nat)) (shared : Z),
  exists k : nat, (k <= length cs)%nat /\
    Columns.claim self maxcol focus i cs widths weighted shared
    = (widths ++ statics i (take k cs),
       weighted ++ weights_from i (take k cs),
       shared - cost (statics i (take k cs))) /\
    (forall item, cs !! k = Some item ->
       (focus_pos < i + k)%nat /\
       shared - cost (statics i (take k cs))
         < Columns.static_w self maxcol focus (i + k) item + d) /\
    (forall (t : nat) item, (t < k)%nat -> cs !! t = Some item ->
       (i + t <= focus_pos)%nat \/
       Columns.static_w self maxcol focus (i + t) item + d
         <= shared - cost (statics i (take t cs))).
Proof.
  induction cs as [| item cs IH]; intros i widths weighted shared.
  - exists 0%nat. cbn [take ColumnsSolver.statics ColumnsSolver.weights_from Columns.claim length].
    rewrite !app_nil_r. split; [lia |]. split; [| split; [done | intros; lia]].
    apply pair3_eq; [done | done | rewrite Columns_cost_nil; lia].
  - cbn [Columns.claim].
    destruct (bool_decide_reflect
                (shared < Columns.static_w self maxcol focus i item + d)) as [Hs | Hs];
      cbn [andb].
    + destruct (bool_decide_reflect (focus_pos < i)%nat) as [Hf | Hf].
      * exists 0%nat. cbn [take ColumnsSolver.statics ColumnsSolver.weights_from Columns.claim length].
        rewrite !app_nil_r. split; [lia |]. split; [| split].
        -- apply pair3_eq; [done | done | rewrite Columns_cost_nil; lia].
        -- intros it [= <-]. rewrite Nat.add_0_r.
           rewrite Columns_cost_nil. split; [done | lia].
        -- intros; lia.
      * destruct (IH (S i) (widths ++ [Columns.static_w self maxcol focus i item])
                    (if bool_decide (item.2.1.1 ∉ [GIVEN; PACK])
                     then weighted ++ [(item.2.1.2, i)] else weighted)
                    (shared - (Columns.static_w self maxcol focus i item + d)))
          as (k & Hk & Heq & Hcut & Hkept).
        exists (S k). split; [cbn; lia |]. split; [| split].
        -- rewrite Heq. cbn [take ColumnsSolver.statics ColumnsSolver.weights_from].
           apply pair3_eq.
           ++ by rewrite <- app_assoc.
           ++ destruct (bool_decide (item.2.1.1 ∉ [GIVEN; PACK])); [| done].
              by rewrite <- app_assoc.
           ++ rewrite Columns_cost_cons. lia.
        -- intros it Hit. cbn in Hit. destruct (Hcut it Hit) as [H1 H2].
           split; [lia |].
           cbn [take ColumnsSolver.statics].
           replace (i + S k)%nat with (S i + k)%nat by lia.
           rewrite Columns_cost_cons. lia.
        -- intros [| t] it Ht Hit.
           ++ left. lia.
           ++ cbn in Hit. destruct (Hkept t it ltac:(lia) Hit) as [H1 | H1].
              ** left. lia.
              ** right. cbn [take ColumnsSolver.statics].
                 replace (i + S t)%nat with (S i + t)%nat by lia.
                 rewrite Columns_cost_cons. lia.
    + destruct (IH (S i) (widths ++ [Columns.static_w self maxcol focus i item])
                  (if bool_decide (item.2.1.1 ∉ [GIVEN; PACK])
                   then weighted ++ [(item.2.1.2, i)] else weighted)
                  (shared - (Columns.static_w self maxcol focus i item + d)))
        as (k & Hk & Heq & Hcut & Hkept).
      exists (S k). split; [cbn; lia |]. split; [| split].
      * rewrite Heq. cbn [take ColumnsSolver.statics ColumnsSolver.weights_from].
        apply pair3_eq.
        -- by rewrite <- app_assoc.
        -- destruct (bool_decide (item.2.1.1 ∉ [GIVEN; PACK])); [| done].
           by rewrite <- app_assoc.
        -- rewrite Columns_cost_cons. lia.
      * intros it Hit. cbn in Hit. destruct (Hcut it Hit) as [H1 H2].
        split; [lia |].
        cbn [take ColumnsSolver.statics].
        replace (i + S k)%nat with (S i + k)%nat by lia.
        rewrite Columns_cost_cons. lia.
      * intros [| t] it Ht Hit.
        -- right. cbn in Hit. injection Hit as <-.
           cbn [take ColumnsSolver.statics]. rewrite Nat.add_0_r, Columns_cost_nil. lia.
        -- cbn in Hit. destruct (Hkept t it ltac:(lia) Hit) as [H1 | H1].
           ++ left. lia.
           ++ right. cbn [take ColumnsSolver.statics].
              replace (i + S t)%nat with (S i + t)%nat by lia.
              rewrite Columns_cost_cons. lia.
Qed.

(** When every column fits, the first loop keeps them all. *)
Lemma Columns_claim_all (cs : list Columns.entry) :
  forall (i : nat) (widths : list Z) (weighted : list (Z * nat)) (shared : Z),
    Forall (fun s => 0 <= s + d) (statics i cs) ->
    cost (statics i cs) <= shared ->
    Columns.claim self maxcol focus i cs widths weighted shared
    = (widths ++ statics i cs, weighted ++ weights_from i cs,
       shared - cost (statics i cs)).
Proof.
  induction cs as [| item cs IH]; intros i widths weighted shared Hpos Hfit.
  - cbn [take ColumnsSolver.statics ColumnsSolver.weights_from Columns.claim length].
    rewrite !app_nil_r.
    apply pair3_eq; [done | done | rewrite Columns_cost_nil; lia].
  - cbn [ColumnsSolver.statics] in Hpos, Hfit.
    apply Forall_cons in Hpos as [Hpos0 Hpos].
    assert (0 <= cost (statics (S i) cs)).
    { clear -Hpos. induction Hpos; [done |]. rewrite Columns_cost_cons. lia. }
    rewrite Columns_cost_cons in Hfit.
    cbn [Columns.claim].
    rewrite (bool_decide_eq_false_2 (shared < _)) by lia. cbn [andb].
    rewrite IH; [| done | lia].
    cbn [ColumnsSolver.statics ColumnsSolver.weights_from].
    apply pair3_eq.
    + by rewrite <- app_assoc.
    + destruct (bool_decide (item.2.1.1 ∉ [GIVEN; PACK])); [| done].
      by rewrite <- app_assoc.
    + rewrite Columns_cost_cons. lia.
Qed.

End ColumnsWidths.

Section ColumnsEviction.

Variable self : Columns.t.
Variable maxcol : Z.
Variable focus : bool.

Abbreviation d := (Columns.dividechars self).
Abbreviation m := (Columns.min_width self).
Abbreviation statics := (ColumnsSolver.statics self maxcol focus).
Abbreviation weights_from := ColumnsSolver.weights_from.
Abbreviation cost := (ColumnsSolver.cost (Columns.dividechars self)).
Abbreviation evict := (ColumnsSolver.evict (Columns.dividechars self)).
Abbreviation idx_lt := ColumnsSolver.idx_lt.

Lemma Columns_statics_length (cs : list Columns.entry) (i : nat) :
  length (statics i cs) = length cs.
Proof. revert i. induction cs as [| item cs IH]; intros i; cbn; [done | by rewrite IH]. Qed.

Lemma Columns_statics_lookup (cs : list Columns.entry) (i t : nat) :
  statics i cs !! t = Columns.static_w self maxcol focus (i + t) <$> cs !! t.
Proof.
  revert i t. induction cs as [| item cs IH]; intros i [| t]; cbn; try done.
  - by rewrite Nat.add_0_r.
  - rewrite IH. by replace (S i + t)%nat with (i + S t)%nat by lia.
Qed.

(** A weighted pair points at a ['weight'] entry, whose static extent
    is [min_width]. *)
Lemma Columns_weights_from_elem (cs : list Columns.entry) (i : nat) (p : Z * nat) :
  p ∈ weights_from i cs ->
  (i <= p.2)%nat /\
  exists item : Columns.entry, cs !! (p.2 - i)%nat = Some item /\
    p.1 = item.2.1.2 /\ item.2.1.1 = WEIGHT.
Proof.
  revert i. induction cs as [| item cs IH]; intros i Hp; cbn in Hp.
  - by apply elem_of_nil in Hp.
  - destruct (bool_decide_reflect (item.2.1.1 ∉ [GIVEN; PACK])) as [Hw | Hw].
    + apply elem_of_cons in Hp as [-> | Hp].
      * cbn. split; [lia |]. rewrite Nat.sub_diag. exists item.
        repeat split. destruct item as [w [[[] n] b]]; cbn in *; try done.
        all: exfalso; apply Hw; list_mem.
      * destruct (IH _ Hp) as (Hi & it & Hit & H1 & H2).
        split; [lia |]. exists it.
        replace (p.2 - i)%nat with (S (p.2 - S i)) by lia. by cbn.
    + destruct (IH _ Hp) as (Hi & it & Hit & H1 & H2).
      split; [lia |]. exists it.
      replace (p.2 - i)%nat with (S (p.2 - S i)) by lia. by cbn.
Qed.

Lemma Columns_weights_from_intro (cs : list Columns.entry) (i t : nat)
    (item : Columns.entry) :
  cs !! t = Some item -> item.2.1.1 = WEIGHT ->
  (item.2.1.2, (i + t)%nat) ∈ weights_from i cs.
Proof.
  revert i t. induction cs as [| it cs IH]; intros i [| t] Hit Hty; cbn in Hit; try done.
  - simplify_eq. cbn. rewrite Hty.
    rewrite bool_decide_eq_true_2 by list_mem.
    rewrite Nat.add_0_r. apply elem_of_cons. by left.
  - cbn. replace (i + S t)%nat with (S i + t)%nat by lia.
    destruct (bool_decide (it.2.1.1 ∉ [GIVEN; PACK])).
    + apply elem_of_cons. right. by apply IH.
    + by apply IH.
Qed.

Lemma Columns_weights_from_sorted (cs : list Columns.entry) (i : nat) :
  StronglySorted idx_lt (weights_from i cs).
Proof.
  revert i. induction cs as [| item cs IH]; intros i; cbn; [constructor |].
  destruct (bool_decide (item.2.1.1 ∉ [GIVEN; PACK])); [| apply IH].
  constructor; [apply IH |].
  apply Forall_forall. intros p Hp.
  apply Columns_weights_from_elem in Hp as [Hi _].
  unfold ColumnsSolver.idx_lt. cbn. lia.
Qed.

Lemma Columns_skip_below_id (n : nat) (weighted : list (Z * nat)) :
  Forall (fun p => (n <= p.2)%nat) weighted ->
  ColumnsSolver.skip_below n weighted = weighted.
Proof.
  destruct 1 as [| [w k] rest Hk _]; cbn; [done |].
  cbn in Hk. by rewrite bool_decide_eq_false_2 by lia.
Qed.

(** What is left of [weighted] points at or beyond [n]. *)
Lemma Columns_skip_below_ge (n : nat) (weighted : list (Z * nat)) :
  StronglySorted idx_lt weighted ->
  Forall (fun p => (n <= p.2)%nat) (ColumnsSolver.skip_below n weighted).
Proof.
  induction 1 as [| [w k] rest Hs IH Hall]; cbn; [constructor |].
  destruct (bool_decide_reflect (k < n)%nat) as [Hk | Hk]; [done |].
  constructor; [cbn; lia |].
  eapply Forall_impl; [exact Hall |].
  unfold ColumnsSolver.idx_lt. cbn. intros p. lia.
Qed.

Lemma Columns_skip_below_sub (n : nat) (weighted : list (Z * nat)) (p : Z * nat) :
  p ∈ ColumnsSolver.skip_below n weighted -> p ∈ weighted.
Proof.
  induction weighted as [| [w k] rest IH]; cbn; [done |].
  destruct (bool_decide (k < n)%nat); [| done].
  intros Hp. apply elem_of_cons. right. by apply IH.
Qed.

(** The second loop zeroes the first [evict] columns and forgets the
    weighted pairs among them. *)
Lemma Columns_drop_left_spec (todo : list Z) :
  forall (i : nat) (ws : list Z) (weighted : list (Z * nat)) (shared : Z),
    (i + length todo = length ws)%nat ->
    StronglySorted idx_lt weighted ->
    Forall (fun p => (i <= p.2)%nat) weighted ->
    let j := evict shared (drop i ws) in
    Columns.drop_left self i todo ws weighted shared
    = (take i ws ++ replicate j 0 ++ drop (i + j) ws,
       ColumnsSolver.skip_below (i + j) weighted,
       shared + cost (take j (drop i ws))).
Proof.
  induction todo as [| x todo IH]; intros i ws weighted shared Hlen Hs Hge.
  - cbn in Hlen. rewrite drop_ge by lia. cbn.
    rewrite Nat.add_0_r, drop_ge, app_nil_r, take_ge by lia.
    rewrite Columns_skip_below_id by done.
    apply pair3_eq; [done | done | unfold ColumnsSolver.cost; cbn; lia].
  - cbn in Hlen.
    destruct (lookup_lt_is_Some_2 ws i ltac:(lia)) as [wi Hwi].
    rewrite (drop_S _ _ _ Hwi). cbn [ColumnsSolver.evict Columns.drop_left].
    destruct (bool_decide_reflect (shared >= 0)) as [Hsh | Hsh].
    + cbn. rewrite Nat.add_0_r, take_drop.
      rewrite Columns_skip_below_id by done.
      apply pair3_eq; [done | done | lia].
    + rewrite Hwi. cbn [default from_option id].
      set (weighted1 := match weighted with
                        | [] => weighted
                        | (_, j) :: rest => if bool_decide (j = i) then rest else weighted
                        end).
      assert (Hw1 : StronglySorted idx_lt weighted1
                    /\ Forall (fun p => (S i <= p.2)%nat) weighted1
                    /\ forall n, (i < n)%nat ->
                         ColumnsSolver.skip_below n weighted1
                         = ColumnsSolver.skip_below n weighted).
      { subst weighted1. destruct weighted as [| [w k] rest]; [done |].
        apply StronglySorted_inv in Hs as [Hs Hall].
        apply Forall_cons in Hge as [Hk Hge]. cbn in Hk.
        destruct (bool_decide_reflect (k = i)) as [-> | Hne].
        - split; [done |]. split.
          + eapply Forall_impl; [exact Hall |].
            unfold ColumnsSolver.idx_lt. cbn. intros p. lia.
          + intros n Hn. cbn. by rewrite bool_decide_eq_true_2 by lia.
        - split; [by constructor |]. split; [| done].
          constructor; [cbn; lia |].
          eapply Forall_impl; [exact Hall |].
          unfold ColumnsSolver.idx_lt. cbn. intros p. lia. }
      destruct Hw1 as (Hs1 & Hge1 & Hskip).
      rewrite IH; [| by rewrite length_insert; lia | done | done].
      rewrite drop_insert_lt by lia.
      rewrite Hskip by lia.
      rewrite (take_S_r (<[i:=0]> ws) i 0)
        by (apply list_lookup_insert_eq; lia).
      rewrite take_insert_ge by lia.
      replace (S i + evict (shared + wi + d) (drop (S i) ws))%nat
        with (i + S (evict (shared + wi + d) (drop (S i) ws)))%nat by lia.
      rewrite drop_insert_lt by lia.
      apply pair3_eq; [| done |].
      * by rewrite <- app_assoc.
      * cbn [take]. unfold ColumnsSolver.cost. cbn [map sumZ]. lia.
Qed.

(** Hiding goes on only while the remainder is negative and stops as
    soon as it is not. *)
Lemma Columns_evict_spec (ws : list Z) :
  forall shared : Z,
    let j := evict shared ws in
    (j <= length ws)%nat /\
    (forall j' : nat, (j' < j)%nat -> shared + cost (take j' ws) < 0) /\
    ((j < length ws)%nat -> 0 <= shared + cost (take j ws)).
Proof.
  induction ws as [| w ws IH]; intros shared; cbn.
  - repeat split; lia.
  - destruct (bool_decide_reflect (shared >= 0)) as [Hsh | Hsh].
    + repeat split; try lia. unfold ColumnsSolver.cost. cbn. lia.
    + destruct (IH (shared + w + d)) as (H1 & H2 & H3).
      repeat split.
      * lia.
      * intros [| j'] Hj; [unfold ColumnsSolver.cost; cbn; lia |].
        specialize (H2 j' ltac:(lia)).
        unfold ColumnsSolver.cost in *. cbn. lia.
      * intros Hj. specialize (H3 ltac:(lia)).
        unfold ColumnsSolver.cost in *. cbn. lia.
Qed.

Lemma Columns_evict_nonneg (ws : list Z) (shared : Z) :
  0 <= shared -> evict shared ws = 0%nat.
Proof. intros H. destruct ws; cbn; [done |]. by rewrite bool_decide_eq_true_2 by lia. Qed.

End ColumnsEviction.

#[global] Instance weighted_le_trans : Transitive weighted_le.
Proof. intros [a i] [b j] [c k]. unfold weighted_le. cbn. lia. Qed.

#[global] Instance weighted_le_total : Total weighted_le.
Proof. intros [a i] [b j]. unfold weighted_le. cbn. lia. Qed.

Lemma map_fmap {A B : Type} (f : A -> B) (l : list A) : map f l = f <$> l.
Proof. induction l as [| x l IH]; cbn; [done | by rewrite IH]. Qed.

Lemma sumZ_insert (l : list Z) (i : nat) (x y : Z) :
  l !! i = Some x -> sumZ (<[i:=y]> l) = sumZ l - x + y.
Proof.
  revert i. induction l as [| z l IH]; intros [| i] Hi; simpl in *; try done.
  - simplify_eq. lia.
  - specialize (IH _ Hi). simpl in IH. lia.
Qed.

Lemma sumZ_Permutation (l1 l2 : list Z) : l1 ≡ₚ l2 -> sumZ l1 = sumZ l2.
Proof. induction 1; cbn; lia. Qed.

(** In a sorted list the first weight is the least. *)
Lemma weighted_head_least (w1 : Z) (i1 : nat) (rest : list (Z * nat)) :
  StronglySorted weighted_le ((w1, i1) :: rest) ->
  Z.of_nat (length rest) * w1 <= sumZ (map fst rest).
Proof.
  intros Hs. apply StronglySorted_inv in Hs as [_ Hall].
  induction Hall as [| [w i] rest Hle _ IH]; cbn [length map sumZ fst]; [lia |].
  unfold weighted_le in Hle. cbn in Hle. lia.
Qed.

Lemma weights_sum_nonneg (weighted : list (Z * nat)) :
  Forall (fun p => 0 <= p.1) weighted -> 0 <= sumZ (map fst weighted).
Proof. induction 1; cbn; lia. Qed.

Section ColumnsGrow.

Variable self : Columns.t.

Abbreviation m := (Columns.min_width self).

(** The third loop writes the positions of [weighted] only, and never
    less than [min_width]. *)
Lemma Columns_grow_weighted_frame (weighted : list (Z * nat)) :
  forall (widths widths' : list Z) (grow wt : Z),
    Columns.grow_weighted self weighted widths grow wt = Ok widths' ->
    length widths' = length widths /\
    (forall t : nat, t ∉ map snd weighted -> widths' !! t = widths !! t) /\
    (forall t : nat, t ∈ map snd weighted -> (t < length widths)%nat ->
       exists x, widths' !! t = Some x /\ m <= x).
Proof.
  induction weighted as [| [w i] rest IH]; intros widths widths' grow wt H.
  - cbn in H. simplify_eq. split; [done |]. split; [done |].
    intros t Ht. by apply elem_of_nil in Ht.
  - cbn [Columns.grow_weighted] in H.
    destruct (round_share grow w wt) as [width |]; [| done]. cbn in H.
    destruct (IH _ _ _ _ H) as (Hlen & Hout & Hin).
    rewrite length_insert in Hlen. split; [done |]. split.
    + intros t Ht. cbn in Ht. rewrite not_elem_of_cons in Ht. destruct Ht as [Hne Ht].
      rewrite (Hout t Ht). by rewrite list_lookup_insert_ne.
    + intros t Ht Hlt. destruct (decide (t ∈ map snd rest)) as [Hr | Hr].
      * apply Hin; [done | by rewrite length_insert].
      * cbn in Ht. apply elem_of_cons in Ht as [-> | Ht]; [| done].
        rewrite (Hout _ Hr). rewrite list_lookup_insert_eq by done.
        eexists. split; [done | lia].
Qed.

(** On weights in ascending order, with room for [min_width] in every
    weighted column, the third loop hands out exactly [grow]. *)
Lemma Columns_grow_weighted_sum (weighted : list (Z * nat)) :
  forall (widths : list Z) (grow wt : Z),
    StronglySorted weighted_le weighted ->
    NoDup (map snd weighted) ->
    Forall (fun p => 0 <= p.1) weighted ->
    Forall (fun p => widths !! p.2 = Some m) weighted ->
    wt = sumZ (map fst weighted) ->
    (weighted <> [] -> 0 < wt) ->
    0 <= m ->
    Z.of_nat (length weighted) * m <= grow ->
    exists widths',
      Columns.grow_weighted self weighted widths grow wt = Ok widths' /\
      sumZ widths'
      = sumZ widths - Z.of_nat (length weighted) * m
        + (match weighted with [] => 0 | _ => grow end).
Proof.
  induction weighted as [| [w1 i1] rest IH];
    intros widths grow wt Hs Hnd Hw Hm Hwt Hpos Hm0 Hgrow.
  - exists widths. cbn. split; [done | lia].
  - pose proof (weighted_head_least _ _ _ Hs) as Hleast.
    apply StronglySorted_inv in Hs as [Hs Hall].
    cbn [map snd] in Hnd. apply NoDup_cons in Hnd as [Hi1 Hnd].
    apply Forall_cons in Hw as [Hw1 Hw]. cbn in Hw1.
    apply Forall_cons in Hm as [Hm1 Hm]. cbn in Hm1.
    cbn [map sumZ fst] in Hwt.
    pose proof (weights_sum_nonneg rest Hw) as Hrest.
    specialize (Hpos ltac:(done)).
    cbn [length] in Hgrow. rewrite Nat2Z.inj_succ in Hgrow.
    set (K := Z.of_nat (length rest)) in *.
    assert (HK : 0 <= K) by lia.
    destruct (round_share_spec grow w1 wt ltac:(nia) ltac:(lia) Hpos)
      as (width0 & Hrs & Hw0 & Hnear & Hlast).
    unfold nearest in Hnear.
    (* what the later columns need is left over *)
    assert (Hleft : K * m <= grow - Z.max m width0).
    { destruct (Z.max_spec m width0) as [[Hlt ->] | [Hge ->]]; [| nia].
      destruct (decide (K = 0)) as [HK0 | HK0]; [rewrite HK0; lia |].
      set (t := grow - K * m).
      destruct (decide (width0 <= t)) as [Hok | Hbad]; [lia |].
      exfalso.
      assert (H1 : K * ((K + 1) * m) <= K * grow) by nia.
      assert (H2 : grow <= (K + 1) * t) by (unfold t; nia).
      assert (H3 : 0 <= t) by (unfold t; nia).
      assert (H4 : t * ((K + 1) * w1) <= t * wt) by nia.
      assert (H5 : grow * w1 <= (K + 1) * t * w1) by nia.
      assert (H6 : (t + 1) * wt <= width0 * wt) by nia.
      nia. }
    (* the last column takes all that remains *)
    assert (Hall_last : rest = [] -> Z.max m width0 = grow).
    { intros ->. cbn in Hwt, K. rewrite Hlast by lia. lia. }
    destruct (IH (<[i1 := Z.max m width0]> widths)
                (grow - Z.max m width0) (wt - w1)) as (widths' & Hg & Hsum);
      try done.
    + apply Forall_forall. intros p Hp.
      rewrite Forall_forall in Hm.
      rewrite list_lookup_insert_ne; [by apply Hm |].
      intros ->. apply Hi1. rewrite map_fmap. by apply list_elem_of_fmap_2.
    + lia.
    + intros Hne. destruct rest as [| [w2 i2] rest']; [done |].
      apply Forall_cons in Hall as [Hle _].
      unfold weighted_le in Hle. cbn in Hle, Hrest, Hwt.
      apply Forall_cons in Hw as [Hw2 Hw']. cbn in Hw2.
      pose proof (weights_sum_nonneg rest' Hw'). lia.
    + exists widths'. split.
      * cbn [Columns.grow_weighted]. rewrite Hrs. cbn. exact Hg.
      * rewrite Hsum. rewrite (sumZ_insert _ _ _ _ Hm1).
        cbn [length]. rewrite Nat2Z.inj_succ. fold K.
        destruct rest; [rewrite Hall_last by done; cbn in K; lia | lia].
Qed.

(** On weights in ascending order, with room for [min_width] in every
    weighted column, the third loop gives each column in its turn the
    larger of [min_width] and the rounding of its share, by weight
    among the columns still to serve, of what has not been handed
    out. *)
Lemma Columns_grow_weighted_share (weighted : list (Z * nat)) :
  forall (widths widths' : list Z) (grow wt : Z),
    StronglySorted weighted_le weighted ->
    NoDup (map snd weighted) ->
    Forall (fun p => 0 <= p.1) weighted ->
    Forall (fun p => (p.2 < length widths)%nat) weighted ->
    wt = sumZ (map fst weighted) ->
    (weighted <> [] -> 0 < wt) ->
    0 <= m ->
    Z.of_nat (length weighted) * m <= grow ->
    Columns.grow_weighted self weighted widths grow wt = Ok widths' ->
    forall (n : nat) (w : Z) (t : nat),
      weighted !! n = Some (w, t) ->
      exists x : Z,
        widths' !! t = Some (Z.max m x) /\
        nearest x ((grow - ColumnsSolver.handed weighted widths' n) * w)
          (ColumnsSolver.weight_left weighted n).
Proof.
  induction weighted as [| [w1 i1] rest IH];
    intros widths widths' grow wt Hs Hnd Hw Hlt Hwt Hpos Hm0 Hgrow Hg n w t Hn.
  - done.
  - pose proof (weighted_head_least _ _ _ Hs) as Hleast.
    apply StronglySorted_inv in Hs as [Hs Hall].
    cbn [map snd] in Hnd. apply NoDup_cons in Hnd as [Hi1 Hnd].
    apply Forall_cons in Hw as [Hw1 Hw]. cbn in Hw1.
    apply Forall_cons in Hlt as [Hlt1 Hlt]. cbn in Hlt1.
    cbn [map sumZ fst] in Hwt.
    pose proof (weights_sum_nonneg rest Hw) as Hrest.
    specialize (Hpos ltac:(done)).
    cbn [length] in Hgrow. rewrite Nat2Z.inj_succ in Hgrow.
    set (K := Z.of_nat (length rest)) in *.
    assert (HK : 0 <= K) by lia.
    destruct (round_share_spec grow w1 wt ltac:(nia) ltac:(lia) Hpos)
      as (width0 & Hrs & Hw0 & Hnear & Hlast).
    cbn [Columns.grow_weighted] in Hg. rewrite Hrs in Hg.
    cbn [mbind result_bind] in Hg.
    (* what the later columns need is left over *)
    assert (Hleft : K * m <= grow - Z.max m width0).
    { unfold nearest in Hnear.
      destruct (Z.max_spec m width0) as [[Hlt' ->] | [Hge ->]]; [| nia].
      destruct (decide (K = 0)) as [HK0 | HK0]; [rewrite HK0; lia |].
      set (r := grow - K * m).
      destruct (decide (width0 <= r)) as [Hok | Hbad]; [lia |].
      exfalso.
      assert (H1 : K * ((K + 1) * m) <= K * grow) by nia.
      assert (H2 : grow <= (K + 1) * r) by (unfold r; nia).
      assert (H3 : 0 <= r) by (unfold r; nia).
      assert (H4 : r * ((K + 1) * w1) <= r * wt) by nia.
      assert (H5 : grow * w1 <= (K + 1) * r * w1) by nia.
      assert (H6 : (r + 1) * wt <= width0 * wt) by nia.
      nia. }
    destruct (Columns_grow_weighted_frame _ _ _ _ _ Hg) as (_ & Hout & _).
    assert (Hi1' : i1 ∉ map snd rest) by done.
    assert (Hat : widths' !! i1 = Some (Z.max m width0)).
    { rewrite (Hout i1 Hi1'). by rewrite list_lookup_insert_eq. }
    destruct n as [| n].
    + cbn in Hn. injection Hn as <- <-. exists width0. split; [done |].
      unfold ColumnsSolver.handed, ColumnsSolver.weight_left.
      cbn [take map sumZ drop fst]. rewrite Z.sub_0_r. by rewrite <- Hwt.
    + cbn in Hn.
      destruct (IH (<[i1 := Z.max m width0]> widths) widths'
                  (grow - Z.max m width0) (wt - w1)) with (n := n) (w := w) (t := t)
        as (x & Hx & Hnx); try done.
      * apply Forall_forall. intros p Hp. rewrite length_insert.
        rewrite Forall_forall in Hlt. by apply Hlt.
      * lia.
      * intros Hne. destruct rest as [| [w2 i2] rest']; [done |].
        apply Forall_cons in Hall as [Hle _].
        unfold weighted_le in Hle. cbn in Hle, Hrest, Hwt.
        apply Forall_cons in Hw as [Hw2 Hw']. cbn in Hw2.
        pose proof (weights_sum_nonneg rest' Hw'). lia.
      * exists x. split; [done |].
        unfold ColumnsSolver.handed, ColumnsSolver.weight_left in *.
        cbn [take map sumZ drop snd]. rewrite Hat. cbn [default].
        replace (grow - (Z.max m width0 + sumZ (map (fun p : Z * nat => default 0 (widths' !! p.2)) (take n rest))))
          with (grow - Z.max m width0 - sumZ (map (fun p : Z * nat => default 0 (widths' !! p.2)) (take n rest)))
          by lia.
        exact Hnx.
Qed.

End ColumnsGrow.

Section ColumnsCompute.

Variable self : Columns.t.
Variable maxcol : Z.
Variable focus : bool.

Abbreviation cs := (MonitoredFocusList.items (Columns.contents self)).
Abbreviation d := (Columns.dividechars self).
Abbreviation m := (Columns.min_width self).
Abbreviation focus_pos := (MonitoredFocusList._focus (Columns.contents self)).
Abbreviation statics := (ColumnsSolver.statics self maxcol focus).
Abbreviation weights_from := ColumnsSolver.weights_from.
Abbreviation cost := (ColumnsSolver.cost (Columns.dividechars self)).
Abbreviation evict := (ColumnsSolver.evict (Columns.dividechars self)).

(** The three loops of [compute_widths], once the number of entries
    the first one keeps is known. *)
Lemma Columns_compute_widths_of_claim (k : nat) :
  Columns.claim self maxcol focus 0 cs [] [] (maxcol + d)
  = (statics 0 (take k cs), weights_from 0 (take k cs),
     maxcol + d - cost (statics 0 (take k cs))) ->
  Columns.compute_widths self maxcol focus
  = ColumnsSolver.widths_after self maxcol focus k.
Proof.
  intros Hc. unfold Columns.compute_widths, ColumnsSolver.widths_after.
  rewrite Hc.
  rewrite Columns_drop_left_spec.
  - cbn zeta. rewrite drop_0, take_0. cbn [app Nat.add]. reflexivity.
  - done.
  - apply Columns_weights_from_sorted.
  - apply Forall_forall. intros p _. lia.
Qed.

(** The cache is not consulted when it holds nothing. *)
Lemma Columns_column_widths_fresh (size2 : option Z) :
  Columns._cache_maxcol self = None ->
  Columns.column_widths self (maxcol, size2) focus
  = (widths ← Columns.compute_widths self maxcol focus;
     Ok (widths,
         Columns.mk (Columns.contents self) d m (Columns.pref_col self)
           (Columns._selectable self) (Some maxcol) widths)).
Proof.
  intros Hc. unfold Columns.column_widths. cbn [fst]. rewrite Hc.
  by rewrite bool_decide_eq_false_2 by done.
Qed.

End ColumnsCompute.

(** The static extent of a ['weight'] entry is [min_width]. *)
Lemma Columns_static_w_weight (self : Columns.t) (maxcol : Z) (focus : bool)
    (i : nat) (item : Columns.entry) :
  item.2.1.1 = WEIGHT ->
  Columns.static_w self maxcol focus i item = Columns.min_width self.
Proof. destruct item as [w [[t n] b]]. cbn. by intros ->. Qed.




Lemma cost_sum (d : Z) (ws : list Z) :
  ColumnsSolver.cost d ws = sumZ ws + Z.of_nat (length ws) * d.
Proof.
  unfold ColumnsSolver.cost. induction ws as [| w ws IH]; [done |].
  cbn [map sumZ length]. rewrite IH. lia.
Qed.

Lemma idx_lt_NoDup (weighted : list (Z * nat)) :
  StronglySorted ColumnsSolver.idx_lt weighted -> NoDup (map snd weighted).
Proof.
  induction 1 as [| p rest Hs IH Hall]; cbn; [constructor |].
  constructor; [| done].
  rewrite map_fmap. intros Hin.
  apply list_elem_of_fmap_1 in Hin as (q & Hq & Hin).
  rewrite Forall_forall in Hall. specialize (Hall q Hin).
  unfold ColumnsSolver.idx_lt in Hall. lia.
Qed.

(** Without eviction: when the width covers every static extent and
    separator, and the weights are non-negative with a positive one,
    the widths and separators fill the width exactly. *)
Lemma Columns_widths_fill (self : Columns.t) (maxcol : Z) (focus : bool) :
  let cs := MonitoredFocusList.items (Columns.contents self) in
  let d := Columns.dividechars self in
  let m := Columns.min_width self in
  Forall ColumnsSolver.plain cs -> 0 <= d -> 0 <= m ->
  0 < sumZ (map fst (ColumnsSolver.weights_from 0 cs)) ->
  ColumnsSolver.cost d (ColumnsSolver.statics self maxcol focus 0 cs) <= maxcol + d ->
  exists widths : list Z,
    Columns.compute_widths self maxcol focus = Ok widths /\
    length widths = length cs /\
    sumZ widths + d * (Z.of_nat (length cs) - 1) = maxcol /\
    (forall (t : nat) (item : Columns.entry),
       cs !! t = Some item -> item.2.1.1 = GIVEN -> widths !! t = Some item.2.1.2) /\
    (forall (t : nat) (item : Columns.entry),
       cs !! t = Some item -> item.2.1.1 = WEIGHT ->
       exists x, widths !! t = Some x /\ m <= x) /\
    (forall (t : nat) (item : Columns.entry),
       cs !! t = Some item -> item.2.1.1 = WEIGHT ->
       let spare :=
         maxcol + d - ColumnsSolver.cost d (ColumnsSolver.statics self maxcol focus 0 cs) in
       (spare = 0 -> widths !! t = Some m) /\
       (spare <> 0 ->
        exists (n : nat) (x : Z),
          ColumnsSolver.service cs !! n = Some (item.2.1.2, t) /\
          widths !! t = Some (Z.max m x) /\
          nearest x
            ((spare + Z.of_nat (length (ColumnsSolver.service cs)) * m
              - ColumnsSolver.handed (ColumnsSolver.service cs) widths n) * item.2.1.2)
            (ColumnsSolver.weight_left (ColumnsSolver.service cs) n))).
Proof.
  intros cs d m Hplain Hd Hm Hpos Hfit. subst d m.
  set (ss := ColumnsSolver.statics self maxcol focus 0 cs) in *.
  set (wf := ColumnsSolver.weights_from 0 cs) in *.
  assert (Hss : forall (t : nat) (item : Columns.entry), cs !! t = Some item ->
            ss !! t = Some (Columns.static_w self maxcol focus t item)).
  { intros t item Hit. unfold ss. by rewrite Columns_statics_lookup, Hit. }
  assert (Hnonneg : Forall (fun s => 0 <= s + Columns.dividechars self) ss).
  { apply Forall_forall. intros s Hs. apply list_elem_of_lookup in Hs as [t Ht].
    unfold ss in Ht. rewrite Columns_statics_lookup in Ht.
    destruct (cs !! t) as [item |] eqn:Hit; [| done]. cbn in Ht. simplify_eq.
    rewrite Forall_forall in Hplain.
    destruct (Hplain item) as [Hp Hn]; [by eapply list_elem_of_lookup_2 |].
    destruct item as [w [[ty n] b]]. unfold Columns.static_w. cbn in Hp, Hn.
    decide_tests; (done || lia). }
  pose proof (Columns_claim_all self maxcol focus cs 0 [] []
                (maxcol + Columns.dividechars self) Hnonneg Hfit) as Hclaim.
  cbn [app] in Hclaim. fold ss wf in Hclaim.
  rewrite (Columns_compute_widths_of_claim self maxcol focus (length cs))
    by (fold cs; by rewrite take_ge by lia).
  unfold ColumnsSolver.widths_after. cbn zeta. fold cs.
  rewrite take_ge by lia. fold ss wf.
  set (shared := maxcol + Columns.dividechars self
                 - ColumnsSolver.cost (Columns.dividechars self) ss) in *.
  rewrite Columns_evict_nonneg by lia.
  cbn [take replicate app ColumnsSolver.skip_below]. rewrite drop_0.
  rewrite Columns_skip_below_id by (apply Forall_forall; intros; lia).
  assert (Hlen : length ss = length cs) by apply Columns_statics_length.
  rewrite take_0.
  assert (Hcost0 : ColumnsSolver.cost (Columns.dividechars self) [] = 0) by done.
  rewrite Hcost0, Z.add_0_r.
  (* the weighted pairs point at ['weight'] entries *)
  assert (Hwf : forall p : Z * nat, p ∈ wf ->
            0 <= p.1 /\ ss !! p.2 = Some (Columns.min_width self) /\
            exists item : Columns.entry,
              cs !! p.2 = Some item /\ item.2.1.1 = WEIGHT).
  { intros p Hp. apply Columns_weights_from_elem in Hp as (_ & item & Hit & Hw & Hty).
    rewrite Nat.sub_0_r in Hit. split; [| split].
    - rewrite Forall_forall in Hplain.
      destruct (Hplain item) as [_ Hn]; [by eapply list_elem_of_lookup_2 |].
      by rewrite Hw.
    - rewrite (Hss _ _ Hit). by rewrite Columns_static_w_weight.
    - by exists item. }
  assert (Hgiven : forall (t : nat) (item : Columns.entry),
            cs !! t = Some item -> item.2.1.1 = GIVEN ->
            (t ∉ map snd (merge_sort weighted_le wf)) /\ ss !! t = Some item.2.1.2).
  { intros t item Hit Hty. split.
    - rewrite map_fmap, merge_sort_Permutation. intros Hin.
      apply list_elem_of_fmap_1 in Hin as (p & -> & Hp).
      destruct (Hwf p Hp) as (_ & _ & item' & Hit' & Hty').
      rewrite Hit in Hit'. simplify_eq. by rewrite Hty in Hty'.
    - rewrite (Hss _ _ Hit). destruct item as [w [[ty n] b]]. cbn in *. by subst. }
  destruct (bool_decide_reflect (shared <> 0)) as [Hsh | Hsh].
  - (* space to divide among the weighted columns *)
    set (sorted := merge_sort weighted_le wf).
    assert (Hperm : sorted ≡ₚ wf) by apply merge_sort_Permutation.
    destruct (Columns_grow_weighted_sum self sorted ss
                (shared + Z.of_nat (length sorted) * Columns.min_width self)
                (sumZ (map fst sorted))) as (widths & Hg & Hsum).
    + apply StronglySorted_merge_sort; apply _.
    + rewrite map_fmap, Hperm, <- map_fmap.
      apply idx_lt_NoDup, Columns_weights_from_sorted.
    + apply Forall_forall. intros p Hp. rewrite Hperm in Hp. by apply Hwf.
    + apply Forall_forall. intros p Hp. rewrite Hperm in Hp. by apply Hwf.
    + done.
    + intros _. rewrite (sumZ_Permutation (map fst sorted) (map fst wf)); [done |].
      rewrite !map_fmap. by rewrite Hperm.
    + done.
    + lia.
    + exists widths. split; [done |].
      apply Columns_grow_weighted_frame in Hg as Hframe.
      destruct Hframe as (Hlenw & Hout & Hin).
      split; [lia |]. split; [| split; [| split]].
      * rewrite Hsum.
        assert (sorted <> []) as Hne.
        { intros Hnil. rewrite Hnil in Hperm. apply Permutation_nil_l in Hperm.
          rewrite <- Hperm in Hpos. cbn in Hpos. lia. }
        destruct sorted as [| p sorted']; [done |].
        unfold shared. rewrite cost_sum, Hlen. lia.
      * intros t item Hit Hty. destruct (Hgiven t item Hit Hty) as [Hnot Hs].
        by rewrite (Hout t Hnot).
      * intros t item Hit Hty.
        apply Hin; [| rewrite Hlen; by eapply lookup_lt_Some].
        rewrite map_fmap, Hperm, <- map_fmap.
        pose proof (Columns_weights_from_intro cs 0 t item Hit Hty) as Hp.
        rewrite map_fmap. by apply (list_elem_of_fmap_2 snd _ _ Hp).
      * intros t item Hit Hty. split; [intros Hl; by destruct Hsh |].
        intros _.
        pose proof (Columns_weights_from_intro cs 0 t item Hit Hty) as Hp.
        cbn [Nat.add] in Hp. fold wf in Hp. rewrite <- Hperm in Hp.
        apply list_elem_of_lookup in Hp as [n Hn].
        destruct (Columns_grow_weighted_share self sorted ss widths
                    (shared + Z.of_nat (length sorted) * Columns.min_width self)
                    (sumZ (map fst sorted))) with (n := n) (w := item.2.1.2) (t := t)
          as (x & Hx & Hnx); try done.
        -- apply StronglySorted_merge_sort; apply _.
        -- rewrite map_fmap, Hperm, <- map_fmap.
           apply idx_lt_NoDup, Columns_weights_from_sorted.
        -- apply Forall_forall. intros p Hp. rewrite Hperm in Hp. by apply Hwf.
        -- apply Forall_forall. intros p Hp. rewrite Hperm in Hp.
           destruct (Hwf p Hp) as (_ & Hs & _). by eapply lookup_lt_Some.
        -- intros _. rewrite (sumZ_Permutation (map fst sorted) (map fst wf)); [done |].
           rewrite !map_fmap. by rewrite Hperm.
        -- lia.
        -- exists n, x. split; [exact Hn |]. split; [exact Hx |]. exact Hnx.
  - exists ss. assert (shared = 0) as Hz by lia.
    split; [done |]. split; [done |]. split; [| split; [| split]].
    + unfold shared in Hz. rewrite cost_sum, Hlen in Hz. lia.
    + intros t item Hit Hty. by destruct (Hgiven t item Hit Hty).
    + intros t item Hit Hty. exists (Columns.min_width self).
      rewrite (Hss _ _ Hit). rewrite Columns_static_w_weight by done.
      split; [done | lia].
    + intros t item Hit Hty. split; [| intros Hl; by destruct Hl].
      intros _. rewrite (Hss _ _ Hit). by rewrite Columns_static_w_weight.
Qed.

(** ** The box-model solver *)


(** The same for Columns.  Four columns of weights 1, 1, 1 and 8 that
    touch, in 4 screen columns: with [min_width] 0 the widths are 0,
    0, 0 and 4, with [min_width] 1 they are 1 each, and the share of
    the last column is 32/11 in both, more than 1 away. *)
Lemma Columns_share_off_by_more_than_one :
  fst <$> Columns.column_widths (Samples.lopsided_columns 0) (4, None) false
  = Ok [0; 0; 0; 4] /\
  ~ ColumnsSolver.shares_within_one (Samples.lopsided_columns 0) 4 false /\
  fst <$> Columns.column_widths (Samples.lopsided_columns 1) (4, None) false
  = Ok [1; 1; 1; 1] /\
  ~ ColumnsSolver.shares_within_one (Samples.lopsided_columns 1) 4 false.
Proof.
  split; [reflexivity |]. split; [| split; [reflexivity |]].
  - intros H.
    specialize (H [0; 0; 0; 4] _ eq_refl 3%nat
                  (Samples.leaf 3 true, (WEIGHT, 8, false)) 4 eq_refl eq_refl eq_refl).
    vm_compute in H. by apply H.
  - intros H.
    specialize (H [1; 1; 1; 1] _ eq_refl 3%nat
                  (Samples.leaf 3 true, (WEIGHT, 8, false)) 1 eq_refl eq_refl eq_refl).
    vm_compute in H. by apply H.
Qed.

(** Without a weighted entry there is nothing to absorb the leftover:
    a box Pile raises, a Columns leaves the space unused. *)
Lemma Pile_box_without_weight_raises :
  Pile.get_item_rows (Samples.pile_of [(GIVEN, 2)]) (80, Some 5) false
  = Raise PileError.
Proof. reflexivity. Qed.

Lemma Columns_without_weight_leaves_space :
  fst <$> Columns.column_widths (Samples.columns_of [(GIVEN, 2)] 0 0 1) (5, None) false
  = Ok [2].
Proof. reflexivity. Qed.

(** Columns spends the separators: three equal weights one column
    apart share 8 of 10 columns. *)
Lemma Columns_separators_are_spent :
  fst <$> Columns.column_widths
            (Samples.columns_of [(WEIGHT, 1); (WEIGHT, 1); (WEIGHT, 1)] 0 1 1)
            (10, None) false
  = Ok [3; 3; 2].
Proof. reflexivity. Qed.



(** ** The display widget of GridFlow *)

Lemma MonitoredFocusList_append_ok {A : Type}
    (validate : list A -> result unit) (l : MonitoredFocusList.t A) (item : A) :
  validate [item] = Ok tt ->
  exists l', MonitoredFocusList.append validate l item = Ok l' /\
    MonitoredFocusList.items l' = MonitoredFocusList.items l ++ [item].
Proof.
  intros Hv. unfold MonitoredFocusList.append. rewrite Hv. cbn.
  eexists. split; reflexivity.
Qed.

Lemma MonitoredFocusList_set_focus_last {A : Type} (l : MonitoredFocusList.t A) :
  MonitoredFocusList.items l <> [] ->
  exists l',
    MonitoredFocusList.set_focus l
      (Z.of_nat (length (MonitoredFocusList.items l)) - 1) = Ok l' /\
    MonitoredFocusList.items l' = MonitoredFocusList.items l.
Proof.
  intros Hne. unfold MonitoredFocusList.set_focus.
  destruct (MonitoredFocusList.items l) as [| x xs] eqn:Hl; [done |].
  rewrite bool_decide_eq_false_2 by (cbn [length]; lia).
  rewrite bool_decide_eq_false_2 by (cbn [length]; lia).
  cbn [orb]. eexists. split; [reflexivity | done].
Qed.

(** Appending a ['given'] cell to a row. *)
Lemma Columns_append_given (c : Columns.t) (w : Widget) (n : Z) :
  exists c', Columns.append c (w, Columns.options GIVEN n false) = Ok c' /\
    MonitoredFocusList.items (Columns.contents c')
    = MonitoredFocusList.items (Columns.contents c) ++ [(w, (GIVEN, n, false))].
Proof.
  unfold Columns.append.
  destruct (MonitoredFocusList_append_ok Columns._validate_contents_modified
              (Columns.contents c) (w, Columns.options GIVEN n false) eq_refl)
    as (l' & -> & Hl').
  cbn. eexists. split; [reflexivity | done].
Qed.

Lemma Columns_set_focus_last (c : Columns.t) :
  MonitoredFocusList.items (Columns.contents c) <> [] ->
  exists c',
    Columns.set_focus_position c
      (Z.of_nat (length (MonitoredFocusList.items (Columns.contents c))) - 1) = Ok c' /\
    MonitoredFocusList.items (Columns.contents c')
    = MonitoredFocusList.items (Columns.contents c).
Proof.
  intros Hne. unfold Columns.set_focus_position.
  destruct (MonitoredFocusList_set_focus_last _ Hne) as (l' & Hs & Hl').
  assert (0 < length (MonitoredFocusList.items (Columns.contents c)))%nat.
  { destruct (MonitoredFocusList.items (Columns.contents c)); [done | cbn; lia]. }
  rewrite bool_decide_eq_false_2 by lia.
  rewrite bool_decide_eq_false_2 by lia.
  cbn [orb]. rewrite Hs. cbn.
  destruct (bool_decide _); eexists; (split; [reflexivity | done]).
Qed.

Lemma GridFlow_pile_append_ok (p : GridFlow.DisplayPile) (x : GridFlow.child) :
  exists p', GridFlow.pile_append p (x, Pile.options WEIGHT 1) = Ok p' /\
    MonitoredFocusList.items (GridFlow.p_contents p')
    = MonitoredFocusList.items (GridFlow.p_contents p) ++ [(x, (WEIGHT, 1))].
Proof.
  unfold GridFlow.pile_append.
  destruct (MonitoredFocusList_append_ok GridFlow.pile_validate
              (GridFlow.p_contents p) (x, Pile.options WEIGHT 1) eq_refl)
    as (l' & -> & Hl').
  cbn. eexists. split; [reflexivity | done].
Qed.

Lemma GridFlow_pile_set_focus_last (p : GridFlow.DisplayPile) :
  MonitoredFocusList.items (GridFlow.p_contents p) <> [] ->
  exists p',
    GridFlow.pile_set_focus_position p
      (Z.of_nat (length (MonitoredFocusList.items (GridFlow.p_contents p))) - 1)
    = Ok p' /\
    MonitoredFocusList.items (GridFlow.p_contents p')
    = MonitoredFocusList.items (GridFlow.p_contents p).
Proof.
  intros Hne. unfold GridFlow.pile_set_focus_position.
  destruct (MonitoredFocusList_set_focus_last _ Hne) as (l' & Hs & Hl').
  assert (0 < length (MonitoredFocusList.items (GridFlow.p_contents p)))%nat.
  { destruct (MonitoredFocusList.items (GridFlow.p_contents p)); [done | cbn; lia]. }
  rewrite bool_decide_eq_false_2 by lia.
  rewrite bool_decide_eq_false_2 by lia.
  cbn [orb]. rewrite Hs. cbn. eexists. split; [reflexivity | done].
Qed.

(** Writing the current row replaces the last entry of the layout. *)
Lemma GridFlow_store_row_layout (p : GridFlow.DisplayPile) (pad : GridFlow.Padding)
    (pre : list (Z + GridFlowLayout.row)) (last_shape : Z + GridFlowLayout.row) :
  GridFlowLayout.pile_layout p = pre ++ [last_shape] ->
  GridFlowLayout.pile_layout (GridFlow.store_row p pad)
  = pre ++ [inr (GridFlowLayout.row_cells pad)].
Proof.
  unfold GridFlowLayout.pile_layout, GridFlow.store_row. cbn.
  set (l := MonitoredFocusList.items (GridFlow.p_contents p)).
  intros Hl.
  assert (Hlen : length l = S (length pre)).
  { rewrite <- (length_map (fun x : GridFlow.child * (sizing * Z) =>
                              GridFlowLayout.child_shape x.1) l), Hl.
    rewrite length_app. cbn. lia. }
  rewrite Hlen. cbn [pred].
  rewrite !map_fmap, list_fmap_insert, <- !map_fmap, Hl. cbn.
  rewrite insert_app_r_alt by lia. rewrite Nat.sub_diag. reflexivity.
Qed.

Lemma GridFlow_preceded_snoc (v_sep sep : Z) (rows : list GridFlowLayout.row)
    (r : GridFlowLayout.row) :
  GridFlowLayout.preceded v_sep sep (rows ++ [r])
  = GridFlowLayout.preceded v_sep sep rows
    ++ (if bool_decide (v_sep <> 0) then [inl sep] else []) ++ [inr r].
Proof.
  induction rows as [| r0 rows IH]; cbn [app GridFlowLayout.preceded].
  - reflexivity.
  - rewrite IH. by rewrite <- !app_assoc.
Qed.

Section GridFlowGenerate.

Variable self : GridFlow.t.
Variable divider : GridFlow.Divider.
Variable maxcol : Z.
Variable fp : nat.
Hypothesis Hfp : GridFlow.focus_position self = Ok fp.

(** Starting a row appends a divider, when dividers are in use, and
    an empty row. *)
Lemma GridFlow_new_row_spec (i : nat) (p : GridFlow.DisplayPile) :
  exists (p' : GridFlow.DisplayPile) (pad : GridFlow.Padding),
    GridFlow.new_row self divider i p = Ok (p', pad, false) /\
    GridFlowLayout.row_cells pad = [] /\
    GridFlowLayout.pile_layout p'
    = GridFlowLayout.pile_layout p
      ++ (if bool_decide (GridFlow.v_sep self <> 0)
          then [inl (GridFlow.divider_rows divider)] else [])
      ++ [inr []].
Proof.
  unfold GridFlow.new_row.
  destruct (bool_decide (GridFlow.v_sep self <> 0)).
  - destruct (GridFlow_pile_append_ok p (GridFlow.Div divider)) as (p1 & -> & Hp1).
    cbn [mbind result_bind].
    match goal with
    | |- context [GridFlow.pile_append p1 (GridFlow.Pad ?pad, _)] =>
        destruct (GridFlow_pile_append_ok p1 (GridFlow.Pad pad)) as (p2 & -> & Hp2);
        exists p2, pad
    end.
    cbn [mbind result_bind]. split; [done |]. split; [done |].
    unfold GridFlowLayout.pile_layout. rewrite Hp2, Hp1.
    rewrite !map_app. cbn. by rewrite <- app_assoc.
  - cbn [mbind result_bind].
    match goal with
    | |- context [GridFlow.pile_append p (GridFlow.Pad ?pad, _)] =>
        destruct (GridFlow_pile_append_ok p (GridFlow.Pad pad)) as (p2 & -> & Hp2);
        exists p2, pad
    end.
    cbn [mbind result_bind]. split; [done |]. split; [done |].
    unfold GridFlowLayout.pile_layout. rewrite Hp2.
    rewrite !map_app. by cbn.
Qed.

(** Adding a cell extends the row being filled and nothing else. *)
Lemma GridFlow_fill_spec (i : nat) (item : GridFlow.entry)
    (p : GridFlow.DisplayPile) (pad : GridFlow.Padding) (column_focused : bool)
    (pre : list (Z + GridFlowLayout.row)) :
  GridFlowLayout.pile_layout p = pre ++ [inr (GridFlowLayout.row_cells pad)] ->
  exists (st' : GridFlow.gen) (pad' : GridFlow.Padding),
    GridFlow.fill self maxcol i item p pad column_focused = Ok st' /\
    GridFlow.gen_pad st' = Some pad' /\
    GridFlowLayout.row_cells pad'
    = GridFlowLayout.row_cells pad ++ [GridFlowLayout.cell_of item] /\
    GridFlow.gen_used_space st'
    = GridFlowLayout.row_used (GridFlow.h_sep self) (GridFlowLayout.row_cells pad') /\
    GridFlowLayout.pile_layout (GridFlow.gen_p st')
    = pre ++ [inr (GridFlowLayout.row_cells pad')].
Proof.
  intros Hp. destruct item as [w [width_type width_amount]].
  unfold GridFlow.fill.
  destruct (Columns_append_given (GridFlow.c pad) w width_amount) as (c1 & -> & Hc1).
  cbn [mbind result_bind]. rewrite Hfp. cbn [mbind result_bind].
  (* the focus of the row *)
  assert (Hc2 : exists (c2 : Columns.t) (cf2 : bool),
            (if bool_decide (i = fp) || (negb column_focused && w_selectable w)
             then
               c ← Columns.set_focus_position c1
                     (Z.of_nat (length (MonitoredFocusList.items (Columns.contents c1))) - 1);
               Ok (c, true)
             else Ok (c1, column_focused)) = Ok (c2, cf2) /\
            MonitoredFocusList.items (Columns.contents c2)
            = MonitoredFocusList.items (Columns.contents c1)).
  { destruct (bool_decide (i = fp) || (negb column_focused && w_selectable w)).
    - destruct (Columns_set_focus_last c1) as (c2 & -> & Hc2).
      + rewrite Hc1. intros Hnil. by apply app_eq_nil in Hnil as [_ ?].
      + by exists c2, true.
    - by exists c1, column_focused. }
  destruct Hc2 as (c2 & cf2 & -> & Hc2). cbn [mbind result_bind].
  (* the focus of the pile *)
  assert (Hp2 : exists p2 : GridFlow.DisplayPile,
            (if bool_decide (i = fp)
             then GridFlow.pile_set_focus_position p
                    (Z.of_nat (length (MonitoredFocusList.items (GridFlow.p_contents p))) - 1)
             else Ok p) = Ok p2 /\
            GridFlowLayout.pile_layout p2 = GridFlowLayout.pile_layout p).
  { destruct (bool_decide (i = fp)).
    - destruct (GridFlow_pile_set_focus_last p) as (p2 & -> & Hp2).
      + intros Hnil. unfold GridFlowLayout.pile_layout in Hp. rewrite Hnil in Hp.
        by destruct pre.
      + exists p2. split; [done |]. unfold GridFlowLayout.pile_layout. by rewrite Hp2.
    - by exists p. }
  destruct Hp2 as (p2 & -> & Hp2). cbn [mbind result_bind].
  eexists. eexists. split; [reflexivity |]. cbn [GridFlow.gen_pad].
  split; [reflexivity |].
  assert (Hrow : GridFlowLayout.row_cells
                   (GridFlow.mkPadding c2
                      (if bool_decide (width_amount > maxcol)
                       then Some w else GridFlow.original_widget pad)
                      (GridFlow.align pad)
                      (Some (GridFlow.used (GridFlow.h_sep self) c2 - GridFlow.h_sep self))
                      (GridFlow.first_position pad))
                 = GridFlowLayout.row_cells pad ++ [(w, width_amount)]).
  { unfold GridFlowLayout.row_cells. cbn [GridFlow.c].
    rewrite Hc2, Hc1, map_app. reflexivity. }
  split; [exact Hrow |]. split.
  - cbn [GridFlow.gen_used_space]. rewrite Hrow.
    unfold GridFlow.used, GridFlowLayout.row_used.
    rewrite Hc2, Hc1. rewrite !map_app, !sumZ_app, !length_app.
    unfold GridFlowLayout.row_cells. rewrite map_map, length_map. cbn. lia.
  - cbn [GridFlow.gen_p].
    apply GridFlow_store_row_layout with (last_shape := inr (GridFlowLayout.row_cells pad)).
    by rewrite Hp2.
Qed.

(** The first cell opens the first row. *)
Lemma GridFlow_place_first (st : GridFlow.gen) (i : nat) (item : GridFlow.entry) :
  GridFlow.gen_pad st = None ->
  GridFlowLayout.pile_layout (GridFlow.gen_p st) = [] ->
  exists st' : GridFlow.gen,
    GridFlow.place self divider maxcol st i item = Ok st' /\
    GridFlowLayout.building self divider st' [] [GridFlowLayout.cell_of item].
Proof.
  intros Hpad Hlay. unfold GridFlow.place. rewrite Hpad.
  destruct (GridFlow_new_row_spec i (GridFlow.gen_p st)) as (p' & pad & -> & Hrow & Hp').
  cbn [mbind result_bind].
  rewrite Hlay in Hp'. cbn [app] in Hp'. rewrite <- Hrow in Hp'.
  destruct (GridFlow_fill_spec i item p' pad false _ Hp')
    as (st' & pad' & -> & Hpad' & Hcells & Hused & Hlay').
  exists st'. split; [done |]. exists pad'.
  rewrite Hrow in Hcells. cbn [app] in Hcells.
  split; [done |]. split; [done |]. split; [by rewrite <- Hcells |].
  by rewrite Hlay', Hcells.
Qed.

(** A later cell opens a row exactly when it does not fit. *)
Lemma GridFlow_place_spec (st : GridFlow.gen) (i : nat) (item : GridFlow.entry)
    (done : list GridFlowLayout.row) (cur : GridFlowLayout.row) :
  GridFlowLayout.building self divider st done cur ->
  exists st' : GridFlow.gen,
    GridFlow.place self divider maxcol st i item = Ok st' /\
    if bool_decide (GridFlowLayout.row_used (GridFlow.h_sep self) cur + item.2.2 > maxcol)
    then GridFlowLayout.building self divider st' (done ++ [cur])
           [GridFlowLayout.cell_of item]
    else GridFlowLayout.building self divider st' done
           (cur ++ [GridFlowLayout.cell_of item]).
Proof.
  intros (pad & Hpad & Hcur & Hused & Hlay).
  unfold GridFlow.place. rewrite Hpad, Hused.
  rewrite GridFlow_preceded_snoc in Hlay.
  destruct (bool_decide_reflect
              (GridFlowLayout.row_used (GridFlow.h_sep self) cur + item.2.2 > maxcol))
    as [Hbig | Hfit].
  - rewrite bool_decide_eq_true_2 by lia.
    destruct (GridFlow_new_row_spec i (GridFlow.gen_p st))
      as (p' & pad0 & -> & Hrow & Hp').
    cbn [mbind result_bind].
    rewrite <- Hrow in Hp'. rewrite !app_assoc in Hp'.
    destruct (GridFlow_fill_spec i item p' pad0 false _ Hp')
      as (st' & pad' & -> & Hpad' & Hcells & Hused' & Hlay').
    exists st'. split; [done |]. exists pad'.
    rewrite Hrow in Hcells. cbn [app] in Hcells.
    split; [done |]. split; [done |]. split; [by rewrite <- Hcells |].
    rewrite Hlay', Hcells, Hlay.
    rewrite !GridFlow_preceded_snoc. by rewrite <- !app_assoc.
  - rewrite bool_decide_eq_false_2 by lia.
    cbn [mbind result_bind].
    rewrite <- Hcur in Hlay. rewrite app_assoc in Hlay.
    destruct (GridFlow_fill_spec i item (GridFlow.gen_p st) pad
                (GridFlow.gen_column_focused st) _ Hlay)
      as (st' & pad' & -> & Hpad' & Hcells & Hused' & Hlay').
    exists st'. split; [done |]. exists pad'.
    rewrite Hcur in Hcells.
    split; [done |]. split; [done |]. split; [by rewrite <- Hcells |].
    rewrite Hlay', Hcells.
    rewrite GridFlow_preceded_snoc. by rewrite <- !app_assoc.
Qed.

(** The loop builds the rows of the wrapping rule. *)
Lemma GridFlow_place_all_spec (items : list GridFlow.entry) :
  forall (st : GridFlow.gen) (i : nat)
         (done : list GridFlowLayout.row) (cur : GridFlowLayout.row),
    GridFlowLayout.building self divider st done cur ->
    exists (st' : GridFlow.gen) (done' : list GridFlowLayout.row)
           (cur' : GridFlowLayout.row),
      GridFlow.place_all self divider maxcol st i items = Ok st' /\
      GridFlowLayout.building self divider st' done' cur' /\
      done' ++ [cur']
      = done ++ GridFlowLayout.wrap_rows maxcol (GridFlow.h_sep self) cur
                  (map GridFlowLayout.cell_of items).
Proof.
  induction items as [| item items IH]; intros st i done cur Hb.
  - exists st, done, cur. by cbn.
  - cbn [GridFlow.place_all map GridFlowLayout.wrap_rows].
    destruct (GridFlow_place_spec st i item done cur Hb) as (st1 & -> & Hb1).
    cbn [mbind result_bind].
    change (GridFlowLayout.cell_of item).2 with item.2.2.
    destruct (bool_decide (GridFlowLayout.row_used (GridFlow.h_sep self) cur
                           + item.2.2 > maxcol)).
    + destruct (IH st1 (S i) _ _ Hb1) as (st' & done' & cur' & Hpa & Hb' & Heq).
      exists st', done', cur'. split; [done |]. split; [done |].
      rewrite Heq. by rewrite <- app_assoc.
    + destruct (IH st1 (S i) _ _ Hb1) as (st' & done' & cur' & Hpa & Hb' & Heq).
      by exists st', done', cur'.
Qed.

End GridFlowGenerate.

Lemma GridFlow_preceded_separated (v_sep sep : Z) (rows : list GridFlowLayout.row) :
  v_sep <> 0 ->
  GridFlowLayout.preceded v_sep sep rows
  = match rows with
    | [] => []
    | _ => inl sep :: GridFlowLayout.separated sep rows
    end.
Proof.
  intros Hv. induction rows as [| r rows IH]; [done |].
  cbn [GridFlowLayout.preceded]. rewrite bool_decide_eq_true_2 by done.
  rewrite IH. by destruct rows.
Qed.

Lemma GridFlow_preceded_plain (sep : Z) (rows : list GridFlowLayout.row) :
  GridFlowLayout.preceded 0 sep rows = map inr rows.
Proof. induction rows as [| r rows IH]; [done |]. cbn. by rewrite IH. Qed.

(** The generated widget is a pile whose layout is that of the loop,
    without the first divider. *)
Lemma GridFlow_generate_spec (self : GridFlow.t) (maxcol : Z) :
  MonitoredFocusList.items (GridFlow.contents self) <> [] ->
  let divider :=
    if bool_decide (GridFlow.v_sep self > 1)
    then GridFlow.mkDivider (GridFlow.v_sep self - 1) 0
    else GridFlow.mkDivider 0 0 in
  let rows :=
    GridFlowLayout.wrapped maxcol (GridFlow.h_sep self)
      (map GridFlowLayout.cell_of (MonitoredFocusList.items (GridFlow.contents self))) in
  exists p : GridFlow.DisplayPile,
    GridFlow.generate_display_widget self maxcol = Ok (GridFlow.WPile p) /\
    GridFlowLayout.pile_layout p
    = (if bool_decide (GridFlow.v_sep self <> 0)
       then drop 1 (GridFlowLayout.preceded (GridFlow.v_sep self)
                      (GridFlow.divider_rows divider) rows)
       else GridFlowLayout.preceded (GridFlow.v_sep self)
              (GridFlow.divider_rows divider) rows).
Proof.
  intros Hne divider rows. unfold GridFlow.generate_display_widget.
  destruct (MonitoredFocusList.items (GridFlow.contents self))
    as [| item items] eqn:Hitems; [done |].
  assert (Hfp : GridFlow.focus_position self
                = Ok (MonitoredFocusList._focus (GridFlow.contents self))).
  { unfold GridFlow.focus_position, MonitoredFocusList.focus. by rewrite Hitems. }
  cbn [GridFlow.bottom]. fold divider.
  cbn [GridFlow.place_all].
  destruct (GridFlow_place_first self divider maxcol _ Hfp
              (GridFlow.mkGen (GridFlow.mkPile MonitoredFocusList.empty false) None false 0)
              0 item eq_refl eq_refl) as (st1 & -> & Hb1).
  cbn [mbind result_bind].
  destruct (GridFlow_place_all_spec self divider maxcol _ Hfp items st1 1 _ _ Hb1)
    as (st' & done' & cur' & -> & (pad & _ & _ & _ & Hlay) & Heq).
  cbn [mbind result_bind app] in *.
  assert (Hrows : done' ++ [cur'] = rows) by (by rewrite Heq).
  rewrite Hrows in Hlay.
  destruct (bool_decide (GridFlow.v_sep self <> 0)).
  - eexists. split; [reflexivity |].
    unfold GridFlowLayout.pile_layout in *. cbn.
    rewrite !map_fmap, fmap_drop, <- !map_fmap. by rewrite Hlay.
  - eexists. split; [reflexivity |]. exact Hlay.
Qed.

(** C7.  The display widget generated for a non-empty GridFlow is a
    pile whose rows are those of the wrapping rule - a cell starts a
    new row exactly when it is the first cell or when the used width
    plus its width exceeds the available width - with a divider of
    [v_sep] blank rows between consecutive rows (none when [v_sep] is
    0).  With cells of width 4, [h_sep = 1] and 9 available columns
    the first row holds exactly the first two cells and the other
    cells wrap onto the rows after it. *)
Theorem GridFlow_row_wrapping :
  (forall (self : GridFlow.t) (maxcol : Z),
     let rows :=
       GridFlowLayout.wrapped maxcol (GridFlow.h_sep self)
         (map GridFlowLayout.cell_of
            (MonitoredFocusList.items (GridFlow.contents self))) in
     MonitoredFocusList.items (GridFlow.contents self) <> [] ->
     0 <= GridFlow.v_sep self ->
     exists d : GridFlow.display,
       GridFlow.generate_display_widget self maxcol = Ok d /\
       GridFlowLayout.layout d
       = (if bool_decide (GridFlow.v_sep self = 0) then map inr rows
          else GridFlowLayout.separated (GridFlow.v_sep self) rows)) /\
  (forall (w1 w2 : Widget) (cells : list (Widget * Z)),
     Forall (fun cell => cell.2 = 4) cells ->
     GridFlowLayout.wrapped 9 1 ((w1, 4) :: (w2, 4) :: cells)
     = [(w1, 4); (w2, 4)] :: GridFlowLayout.wrapped 9 1 cells).
Proof.
  split.
  - intros self maxcol rows Hne Hv.
    destruct (GridFlow_generate_spec self maxcol Hne) as (p & Hg & Hlay).
    exists (GridFlow.WPile p). split; [done |].
    cbn [GridFlowLayout.layout]. rewrite Hlay. fold rows.
    destruct (bool_decide_reflect (GridFlow.v_sep self = 0)) as [Hz | Hnz].
    + rewrite bool_decide_eq_false_2 by lia. rewrite Hz.
      apply GridFlow_preceded_plain.
    + rewrite bool_decide_eq_true_2 by done.
      rewrite GridFlow_preceded_separated by done.
      assert (Hdiv : GridFlow.divider_rows
                       (if bool_decide (GridFlow.v_sep self > 1)
                        then GridFlow.mkDivider (GridFlow.v_sep self - 1) 0
                        else GridFlow.mkDivider 0 0) = GridFlow.v_sep self).
      { unfold GridFlow.divider_rows.
        destruct (bool_decide_reflect (GridFlow.v_sep self > 1)); cbn; lia. }
      rewrite Hdiv. by destruct rows.
  - intros w1 w2 cells Hcells. unfold GridFlowLayout.wrapped.
    cbn [GridFlowLayout.wrap_rows].
    rewrite bool_decide_eq_false_2 by (unfold GridFlowLayout.row_used; cbn; lia).
    cbn [app]. destruct Hcells as [| cell cells Hc Hcells]; [done |].
    cbn [GridFlowLayout.wrap_rows].
    rewrite bool_decide_eq_true_2 by (unfold GridFlowLayout.row_used; cbn; lia).
    reflexivity.
Qed.

Lemma GridFlow_row_wrapping_witness :
  (exists d : GridFlow.display,
     GridFlow.generate_display_widget Samples.gridflow 9 = Ok d /\
     GridFlowLayout.layout d
     = [inr [(Samples.leaf 0 true, 4); (Samples.leaf 1 true, 4)]; inl 2;
        inr [(Samples.leaf 2 true, 4); (Samples.leaf 3 true, 4)]; inl 2;
        inr [(Samples.leaf 4 true, 4)]]) /\
  GridFlowLayout.wrapped 9 1
    [(Samples.leaf 0 true, 4); (Samples.leaf 1 true, 4); (Samples.leaf 2 true, 4)]
  = [[(Samples.leaf 0 true, 4); (Samples.leaf 1 true, 4)]; [(Samples.leaf 2 true, 4)]].
Proof.
  split.
  - apply (proj1 GridFlow_row_wrapping Samples.gridflow 9); [discriminate | by vm_compute].
  - apply (proj2 GridFlow_row_wrapping (Samples.leaf 0 true) (Samples.leaf 1 true)
             [(Samples.leaf 2 true, 4)]).
    repeat constructor.
Defined.

(** [get_display_widget] always yields a display widget, and the
    GridFlow then holds it. *)
Lemma GridFlow_get_display_widget_ok (invalidating : bool) (self : GridFlow.t)
    (size : Z) :
  exists (d : GridFlow.display) (self' : GridFlow.t),
    GridFlow.get_display_widget invalidating self size = Ok (d, self') /\
    GridFlow._w self' = d /\
    GridFlow.contents self' = GridFlow.contents self.
Proof.
  unfold GridFlow.get_display_widget.
  destruct (bool_decide (GridFlow._cache_maxcol self = Some size)).
  - by exists (GridFlow._w self), self.
  - set (self1 := GridFlow.mk _ _ _ _ _ (Some size) _).
    destruct (MonitoredFocusList.items (GridFlow.contents self1)) as [| x l] eqn:Hl.
    + unfold GridFlow.generate_display_widget. rewrite Hl. cbn.
      eexists. eexists. split; [reflexivity |]. by destruct invalidating.
    + destruct (GridFlow_generate_spec self1 size) as (p & -> & _).
      { by rewrite Hl. }
      cbn. eexists. eexists. split; [reflexivity |]. by destruct invalidating.
Qed.

Section GridFlowMouse.

Variable invalidating : bool.

Variable display_mouse_event :
  GridFlow.display -> Z -> string -> Z -> Z -> Z -> bool ->
  result (GridFlow.display * bool).

(** Whatever [GridFlow.mouse_event] returns is [True].  The display
    widget is always obtained; and whenever the display widget's own
    handler returns - handled or not - and the focus is read back from
    it, the result is [True]. *)
Lemma GridFlow_mouse_event_returns_true (self : GridFlow.t) (size : Z)
    (event : string) (button col row : Z) (focus : bool) :
  (forall (self' : GridFlow.t) (r : bool),
     GridFlow.mouse_event invalidating display_mouse_event self size event button
       col row focus
       = Ok (self', r) ->
     r = true) /\
  (exists (d : GridFlow.display) (self1 : GridFlow.t),
     GridFlow.get_display_widget invalidating self size = Ok (d, self1) /\
     forall (w : GridFlow.display) (handled : bool) (self2 : GridFlow.t),
       display_mouse_event (GridFlow._w self1) size event button col row focus
         = Ok (w, handled) ->
       GridFlow._set_focus_from_display_widget (GridFlow.with_display self1 w)
         = Ok self2 ->
       GridFlow.mouse_event invalidating display_mouse_event self size event button
         col row focus
         = Ok (self2, true)).
Proof.
  split.
  - intros self' r. unfold GridFlow.mouse_event.
    destruct (GridFlow.get_display_widget invalidating self size)
      as [[d self1] |]; [| done].
    cbn [mbind result_bind].
    destruct (display_mouse_event _ _ _ _ _ _ _) as [[w handled] |]; [| done].
    cbn [mbind result_bind].
    destruct (GridFlow._set_focus_from_display_widget _) as [self2 |]; [| done].
    cbn. by intros [= _ <-].
  - destruct (GridFlow_get_display_widget_ok invalidating self size)
      as (d & self1 & Hg & _).
    exists d, self1. split; [done |].
    intros w handled self2 Hh Hs. unfold GridFlow.mouse_event.
    rewrite Hg. cbn [mbind result_bind]. rewrite Hh. cbn [mbind result_bind].
    rewrite Hs. reflexivity.
Qed.

End GridFlowMouse.

(** C10.  [GridFlow.mouse_event] is declared to return [True] for
    every event, and says of itself that at a minimum the focus was
    adjusted.  It does return [True] on the five-cell sample, handled
    or not.  But on a GridFlow of one cell of width 20, the cell a
    container with the focus on its second child, a mouse event at
    width 10 raises [IndexError]: the display built for a width the
    cell does not fit puts the cell itself in the place of its row of
    columns, and [_set_focus_from_display_widget], written for rows of
    columns, adds the focus position of the cell, 1, to the position
    of the first cell of the row, 0, which is no position of a
    GridFlow of one cell.  This holds whether or not the [_w] setter
    invalidates, and the constructor accepts the GridFlow. *)
Theorem GridFlow_mouse_event_index_error (invalidating : bool) :
  (exists self' : GridFlow.t,
     GridFlow.mouse_event invalidating Samples.ignore_mouse_event Samples.gridflow 9
       "mouse press" 1 0 0 true = Ok (self', true)) /\
  exists self : GridFlow.t,
    GridFlow.__init__ invalidating [Samples.focused_pair 0] 20 0 0
      (OAtom (AStr "left")) = Ok self /\
    GridFlow.focus_position self = Ok 0%nat /\
    (exists (p : GridFlow.DisplayPile) (pad : GridFlow.Padding),
       GridFlow.generate_display_widget self 10 = Ok (GridFlow.WPile p) /\
       GridFlow.pile_focus p = Some (GridFlow.Pad pad) /\
       GridFlow.original_widget pad = Some (Samples.focused_pair 0) /\
       GridFlow.first_position pad = 0%nat) /\
    GridFlow.mouse_event invalidating Samples.ignore_mouse_event self 10
      "mouse press" 1 0 0 true = Raise IndexError.
Proof.
  split.
  - destruct invalidating; eexists; vm_compute; reflexivity.
  - destruct invalidating; eexists; (split; [vm_compute; reflexivity |]);
      (split; [vm_compute; reflexivity |]); (split; [| vm_compute; reflexivity]);
      eexists; eexists; (split; [vm_compute; reflexivity |]);
      (split; [vm_compute; reflexivity |]); split; reflexivity.
Qed.

(** * Further properties

    Properties of the methods around the ones above: events, keys,
    construction, positions and caches. *)

(** ** Frame: trims, positions, events *)



Lemma truthy_opt_Some (x : option Widget) : truthy_opt x = true -> x <> None.
Proof. by destruct x. Qed.

(** X2.  The positions a Frame enumerates: bottom to top is the
    reverse of top to bottom; they are the keys of [contents], each
    once; and each of them can be read through [contents] and given
    the focus, after which [focus_position] reads it back. *)
Theorem Frame_positions (self : Frame.t) :
  Frame.__reversed__ self = reverse (Frame.__iter__ self) /\
  Frame.__iter__ self ≡ₚ Frame._contents_keys self /\
  NoDup (Frame.__iter__ self) /\
  forall k : string, k ∈ Frame.__iter__ self ->
    (exists v, Frame._contents__getitem__ self k = Ok v) /\
    exists self', Frame.set_focus_position self k = Ok self' /\
      Frame.focus_position self' = k.
Proof.
  unfold Frame.__iter__, Frame.__reversed__, Frame._contents_keys.
  destruct (truthy_opt (Frame._header self)) eqn:Hh;
    destruct (truthy_opt (Frame._footer self)) eqn:Hf; cbn.
  all: split; [reflexivity |].
  all: split; [try done; try apply Permutation_swap;
               try (etrans; [apply Permutation_swap |]; apply perm_skip, Permutation_swap) |].
  all: split; [repeat constructor; list_mem |].
  all: intros k Hk.
  all: unfold Frame._contents__getitem__, Frame.set_focus_position.
  all: try apply truthy_opt_Some in Hh as Hh'; try apply truthy_opt_Some in Hf as Hf'.
  all: rewrite ?Hh, ?Hf.
  all: repeat (apply elem_of_cons in Hk as [-> | Hk]); try (by apply elem_of_nil in Hk).
  all: cbn; split; [eexists; reflexivity |].
  all: frame_cases; eexists; split; try reflexivity; done.
Qed.

(** Rows are trimmed off a part that exists. *)
Lemma Frame_trim_part (self : Frame.t) (size : Z * Z) (focus : bool)
    (htrim ftrim hrows frows : Z) :
  Frame.frame_top_bottom self size focus = ((htrim, ftrim), (hrows, frows)) ->
  (0 < htrim -> exists h, Frame._header self = Some h /\ truthy h = true) /\
  (0 < ftrim -> exists f, Frame._footer self = Some f /\ truthy f = true).
Proof.
  destruct size as [maxcol maxrow]. unfold Frame.frame_top_bottom, Frame.header, Frame.footer.
  destruct (Frame._header self) as [h |], (Frame._footer self) as [f |];
    try destruct (truthy h) eqn:Hth; try destruct (truthy f) eqn:Htf; intros Hftb.
  all: repeat match type of Hftb with
  | context [@bool_decide ?P ?d] => destruct (@bool_decide_reflect P d)
  end; simplify_eq; split; intros; eauto; lia.
Qed.

Section FrameEvents.
Context `{Toolkit}.

Lemma Frame_deliver_spec (self : Frame.t) (w : Widget) (position : string)
    (tsize : list Z) (event : string) (button col row : Z) (focus : bool) :
  (position = "header" /\ Frame._header self = Some w) \/
  (position = "footer" /\ Frame._footer self = Some w) \/
  (position = "body" /\ Frame._body self = Some w) ->
  exists self' : Frame.t,
    Frame.deliver self (Some w) position tsize event button col row focus
      = Ok (if has_mouse_event w
            then w_mouse_event w tsize event button col row focus
            else Some false, self') /\
    Frame._header self' = Frame._header self /\
    Frame._body self' = Frame._body self /\
    Frame._footer self' = Frame._footer self /\
    Frame.focus_part self'
      = (if is_mouse_press event && bool_decide (button = 1) && w_selectable w
         then position else Frame.focus_part self).
Proof.
  intros Hpos. unfold Frame.deliver.
  destruct (is_mouse_press event && bool_decide (button = 1)) eqn:Hpress;
    [destruct (w_selectable w) eqn:Hsel |]; cbn.
  - assert (Hset : Frame.set_focus_position self position
                   = Ok (Frame.mk (Frame._header self) (Frame._body self)
                           (Frame._footer self) position)).
    { unfold Frame.set_focus_position.
      destruct Hpos as [[-> Hw] | [[-> Hw] | [-> Hw]]]; rewrite ?Hw; frame_cases. }
    rewrite Hset. cbn. destruct (has_mouse_event w); cbn; eauto 10.
  - destruct (has_mouse_event w); cbn; eauto 10.
  - destruct (has_mouse_event w); cbn; eauto 10.
Qed.

(** X3.  A mouse event on a row inside a frame that has its body
    never fails.  It goes to the part the row falls in - a part the
    frame has, as [contents] lists it - in that part's own rows and
    size: with [htrim] and [ftrim] the rows [frame_top_bottom] leaves
    the header and the footer, the header gets [(maxcol,)] and the
    row as it is, the footer [(maxcol,)] and [row - maxrow + ftrim],
    the body [(maxcol, maxrow - htrim - ftrim)] and [row - htrim].
    The child widgets stay the same; the focus moves to that part
    exactly when the event is a press of button 1 and the part is
    selectable, and is unchanged otherwise; a frame whose focus
    existed keeps an existing focus. *)
Theorem Frame_mouse_event_focus (self : Frame.t) (maxcol maxrow : Z)
    (event : string) (button col row : Z) (focus : bool) :
  Frame._body self <> None -> 0 <= row < maxrow ->
  let part := Frame.part_at self (maxcol, maxrow) focus row in
  let htrim := (Frame.frame_top_bottom self (maxcol, maxrow) focus).1.1 in
  let ftrim := (Frame.frame_top_bottom self (maxcol, maxrow) focus).1.2 in
  let tsize :=
    if bool_decide (part = "body") then [maxcol; maxrow - htrim - ftrim]
    else [maxcol] in
  let row' :=
    if bool_decide (part = "header") then row
    else if bool_decide (part = "footer") then row - maxrow + ftrim
    else row - htrim in
  exists (self' : Frame.t) (w : Widget),
    Frame.mouse_event self (maxcol, maxrow) event button col row focus
      = Ok (if has_mouse_event w
            then w_mouse_event w tsize event button col row'
                   (focus && bool_decide (Frame.focus_part self = part))
            else Some false, self') /\
    Frame._contents__getitem__ self part = Ok (Some w, ANone) /\
    Frame._header self' = Frame._header self /\
    Frame._body self' = Frame._body self /\
    Frame._footer self' = Frame._footer self /\
    Frame.focus_part self'
      = (if is_mouse_press event && bool_decide (button = 1) && w_selectable w
         then part else Frame.focus_part self) /\
    (Frame.well_focused self -> Frame.well_focused self').
Proof.
  intros Hbody Hrow part htrim0 ftrim0 tsize row'.
  subst part htrim0 ftrim0 tsize row'. unfold Frame.part_at, Frame.mouse_event.
  destruct (Frame.frame_top_bottom self (maxcol, maxrow) focus)
    as [[htrim ftrim] [hrows frows]] eqn:Hftb.
  destruct (Frame_trim_part _ _ _ _ _ _ _ Hftb) as [Hh Hf].
  cbn [fst snd].
  assert (Hwf : forall (self' : Frame.t) (w : Widget) (part : string),
    Frame._header self' = Frame._header self ->
    Frame._body self' = Frame._body self ->
    Frame._footer self' = Frame._footer self ->
    Frame.focus_part self'
      = (if is_mouse_press event && bool_decide (button = 1) && w_selectable w
         then part else Frame.focus_part self) ->
    Frame.focus (Frame.mk (Frame._header self) (Frame._body self)
                   (Frame._footer self) part) = Ok (Some w) ->
    Frame.well_focused self -> Frame.well_focused self').
  { intros self' w part H1 H2 H3 H4 Hw [Hb [w0 Hw0]].
    split; [by rewrite H2 |]. unfold Frame.focus_exists, Frame.focus in *.
    rewrite H1, H2, H3, H4. cbn in Hw.
    destruct (is_mouse_press event && bool_decide (button = 1) && w_selectable w); eauto. }
  destruct (bool_decide_reflect (row < htrim)) as [Hlt | Hge];
    [| destruct (bool_decide_reflect (row >= maxrow - ftrim)) as [Hft | Hbd]].
  - destruct Hh as (h & Hhd & Hth); [lia |].
    unfold Frame.header. rewrite Hhd.
    destruct (Frame_deliver_spec self h "header" [maxcol] event button col row
                (focus && bool_decide (Frame.focus_part self = "header")))
      as (self' & Hd & H1 & H2 & H3 & H4); [by left |].
    exists self', h. rewrite Hd.
    split; [done |]. split.
    { unfold Frame._contents__getitem__. rewrite Hhd. cbn. by rewrite Hth. }
    do 4 (split; [congruence |]).
    apply (Hwf self' h "header"); try done. by rewrite <- Hhd.
  - destruct Hf as (f & Hfd & Htf); [lia |].
    unfold Frame.footer. rewrite Hfd.
    destruct (Frame_deliver_spec self f "footer" [maxcol] event button col
                (row - maxrow + ftrim)
                (focus && bool_decide (Frame.focus_part self = "footer")))
      as (self' & Hd & H1 & H2 & H3 & H4); [by right; left |].
    exists self', f. rewrite Hd.
    split; [done |]. split.
    { unfold Frame._contents__getitem__. rewrite Hfd. cbn. by rewrite Htf. }
    do 4 (split; [congruence |]).
    apply (Hwf self' f "footer"); try done. by rewrite <- Hfd.
  - destruct (Frame._body self) as [b |] eqn:Hb; [| done].
    unfold Frame.body. rewrite Hb.
    destruct (Frame_deliver_spec self b "body" [maxcol; maxrow - htrim - ftrim]
                event button col (row - htrim)
                (focus && bool_decide (Frame.focus_part self = "body")))
      as (self' & Hd & H1 & H2 & H3 & H4); [by right; right |].
    exists self', b. rewrite Hd.
    split; [done |]. split.
    { unfold Frame._contents__getitem__. by rewrite Hb. }
    do 4 (split; [congruence |]).
    apply (Hwf self' b "body"); try done. by rewrite <- Hb.
Qed.

End FrameEvents.

Lemma Frame_mouse_event_focus_witness :
  exists (self' : Frame.t) (handled : option bool),
    @Frame.mouse_event Samples.toolkit Samples.frame (80, 10)
      "mouse press" 1 5 0 true = Ok (handled, self') /\
    Frame.focus_part self' = "body".
Proof.
  destruct (@Frame_mouse_event_focus Samples.toolkit Samples.frame 80 10
              "mouse press" 1 5 0 true ltac:(done) ltac:(lia))
    as (self' & w & Hm & Hw & _ & _ & _ & Hf & _).
  exists self'. eexists. split; [exact Hm |].
  rewrite Hf. vm_compute in Hw. simplify_eq. reflexivity.
Defined.

Section FrameKeys.
Context `{Toolkit}.

(** X4.  [keypress] on a frame that has its body never fails, also
    when the focus names a part the frame does not have.  The key
    either comes back unchanged or is answered by the widget in
    focus, and that widget is selectable. *)
Theorem Frame_keypress_routing (self : Frame.t) (maxcol maxrow : Z) (key : string) :
  Frame._body self <> None ->
  exists answer : option string,
    Frame.keypress self (maxcol, maxrow) key = Ok answer /\
    (answer = Some key \/
     exists (w : Widget) (tsize : list Z),
       Frame.focus self = Ok (Some w) /\ w_selectable w = true /\
       answer = w_keypress w tsize key).
Proof.
  intros Hbody. unfold Frame.keypress, Frame.focus, Frame.header, Frame.footer, Frame.body.
  destruct (Frame._body self) as [b |]; [| done].
  destruct (bool_decide_reflect (Frame.focus_part self = "header")) as [Hh | Hh].
  { destruct (Frame._header self) as [h |] eqn:Hhd.
    - destruct (w_selectable h) eqn:Hsel; cbn; eauto 10.
    - rewrite Hh. cbn. eauto. }
  destruct (bool_decide_reflect (Frame.focus_part self = "footer")) as [Hf | Hf].
  { destruct (Frame._footer self) as [f |] eqn:Hfd.
    - destruct (w_selectable f) eqn:Hsel; cbn; eauto 10.
    - rewrite Hf. cbn. eauto. }
  destruct (bool_decide_reflect (Frame.focus_part self <> "body")) as [Hb | Hb]; [eauto |].
  assert (Hbd : Frame.focus_part self = "body")
    by (destruct (decide (Frame.focus_part self = "body")); [done | contradiction]).
  rewrite (bool_decide_eq_true_2 _ Hbd).
  match goal with |- context [bool_decide (?r <= 0)] =>
    destruct (bool_decide_reflect (r <= 0)); [eauto |] end.
  destruct (w_selectable b) eqn:Hsel; cbn; eauto 10.
Qed.

End FrameKeys.

Lemma Frame_keypress_routing_witness :
  Frame._body Samples.dangling_frame <> None /\
  exists answer : option string,
    @Frame.keypress Samples.toolkit Samples.dangling_frame (80, 10) "a" = Ok answer /\
    (answer = Some "a"%string \/
     exists (w : Widget) (tsize : list Z),
       Frame.focus Samples.dangling_frame = Ok (Some w) /\ w_selectable w = true /\
       answer = @w_keypress Samples.toolkit w tsize "a").
Proof.
  split; [done |].
  apply (@Frame_keypress_routing Samples.toolkit Samples.dangling_frame 80 10 "a").
  done.
Defined.

(** ** Pile: rows, events, construction *)

Lemma Builtins_sum_ints (out : list Z) :
  Builtins.sum (Some <$> out) = Returns (sumZ out).
Proof. induction out as [| x out IH]; [done |]. cbn. by rewrite IH. Qed.

(** Every row a successful [get_item_rows] lists is an integer: the
    second pass fills every slot the first left pending. *)
Lemma Pile_share_from_ints (cs : list Pile.entry) :
  forall (ls l : list (option Z)) (r wt : Z),
    length ls = length cs ->
    PileSolver.share_from cs ls r wt = Ok l ->
    exists out : list Z, l = Some <$> out /\ length out = length cs.
Proof.
  induction cs as [| [w [f height]] cs IH]; intros ls l r wt Hlen Hs.
  - destruct ls; [| done]. cbn in Hs. simplify_eq. by exists [].
  - destruct ls as [| [x |] ls]; [done | |]; cbn in Hlen, Hs.
    + destruct (PileSolver.share_from cs ls r wt) as [l' |] eqn:Hl'; [| done].
      cbn in Hs. simplify_eq.
      destruct (IH ls l' r wt ltac:(lia) Hl') as (out & -> & Hout).
      exists (x :: out). split; [done | cbn; lia].
    + destruct (round_share r height wt) as [rows |]; [| done]. cbn in Hs.
      destruct (PileSolver.share_from cs ls _ _) as [l' |] eqn:Hl'; [| done].
      cbn in Hs. simplify_eq.
      apply IH in Hl' as (out & -> & Hout); [| lia].
      exists (rows :: out). split; [done | cbn; lia].
Qed.

Lemma Pile_flow_rows_map (self : Pile.t) (maxcol : Z) (focus : bool)
    (cs : list Pile.entry) :
  map (fun item : Pile.entry =>
         let '(w, (f, height)) := item in
         if bool_decide (f = GIVEN) then Some height
         else Some (w_rows w maxcol (focus && Pile.focus_is self w))) cs
  = Some <$> map (PileLayout.flow_rows self maxcol focus) cs.
Proof.
  induction cs as [| [w [f height]] cs IH]; [done |].
  cbn. rewrite IH. unfold PileLayout.flow_rows at 2. cbn.
  by destruct (bool_decide (f = GIVEN)).
Qed.

Lemma Pile_item_rows_ints (self : Pile.t) (size : Z * option Z) (focus : bool)
    (l : list (option Z)) :
  Pile.get_item_rows self size focus = Ok l ->
  exists out : list Z,
    l = Some <$> out /\
    length out = length (MonitoredFocusList.items (Pile.contents self)).
Proof.
  unfold Pile.get_item_rows. destruct size as [maxcol [maxrow |]]; cbn [fst snd].
  - rewrite Pile_reserve_spec. cbn [app].
    destruct (bool_decide _); [done |].
    rewrite Pile_share_share_from. rewrite drop_0, take_0. cbn [app].
    intros Hs.
    destruct (PileSolver.share_from _ _ _ _) as [l' |] eqn:Hl'; [| done].
    cbn in Hs. simplify_eq.
    eapply Pile_share_from_ints; [| exact Hl']. by rewrite length_map.
  - intros Hs. simplify_eq.
    exists (map (PileLayout.flow_rows self maxcol focus)
              (MonitoredFocusList.items (Pile.contents self))).
    split; [apply Pile_flow_rows_map | by rewrite length_map].
Qed.



Lemma sumZ_nonneg (l : list Z) : Forall (fun x => 0 <= x) l -> 0 <= sumZ l.
Proof. induction 1; cbn; lia. Qed.

(** The search for the item a screen row falls in: it ends at the
    item whose rows contain [row]. *)
Lemma Pile_row_at_spec (out : list Z) :
  forall (ws : list Widget) (row wrow : Z) (i : nat),
    length out = length ws -> Forall (fun r => 0 <= r) out -> wrow <= row ->
    (wrow + sumZ out <= row ->
       Pile.row_at row wrow i (zip (Some <$> out) ws) = Returns None) /\
    (row < wrow + sumZ out ->
       exists (k : nat) (r : Z) (w : Widget),
         out !! k = Some r /\ ws !! k = Some w /\
         wrow + sumZ (take k out) <= row < wrow + sumZ (take k out) + r /\
         Pile.row_at row wrow i (zip (Some <$> out) ws)
           = Returns (Some ((i + k)%nat, wrow + sumZ (take k out), w))).
Proof.
  induction out as [| r out IH]; intros ws row wrow i Hlen Hnn Hle.
  - cbn. split; [done | lia].
  - destruct ws as [| w ws]; [done |]. cbn in Hlen.
    apply Forall_cons in Hnn as [Hr Hnn].
    pose proof (sumZ_nonneg _ Hnn) as Hsum.
    cbn [fmap list_fmap zip zip_with Pile.row_at sumZ].
    destruct (bool_decide_reflect (wrow + r > row)) as [Hgt | Hngt].
    + split; [lia |]. intros _. exists 0%nat, r, w. cbn.
      rewrite Nat.add_0_r, Z.add_0_r. repeat split; try done; lia.
    + destruct (IH ws row (wrow + r) (S i) ltac:(lia) Hnn ltac:(lia)) as [IH1 IH2].
      split.
      * intros Hge. apply IH1. lia.
      * intros Hlt. destruct IH2 as (k & r' & w' & Hk & Hw & Hin & Hat); [lia |].
        exists (S k), r', w'. cbn [lookup list_lookup take sumZ].
        replace (i + S k)%nat with (S i + k)%nat by lia.
        replace (wrow + (r + sumZ (take k out))) with (wrow + r + sumZ (take k out)) by lia.
        repeat split; try done; lia.
Qed.

Lemma Pile_set_focus_position_ok (self : Pile.t) (i : nat) :
  (i < length (MonitoredFocusList.items (Pile.contents self)))%nat ->
  Pile.set_focus_position self (Z.of_nat i)
  = Ok (Pile.mk (MonitoredFocusList.mk (MonitoredFocusList.items (Pile.contents self)) i)
          (Pile._selectable self) (Pile.pref_col self)).
Proof.
  intros Hi. unfold Pile.set_focus_position, MonitoredFocusList.set_focus.
  rewrite !bool_decide_eq_false_2 by lia. cbn [orb].
  destruct (MonitoredFocusList.items (Pile.contents self)) eqn:Hl; [cbn in Hi; lia |].
  cbn. by rewrite Nat2Z.id.
Qed.

Section PileEvents.
Context `{Toolkit}.

(** X6.  Where a mouse event on a Pile goes.  With the rows
    [get_item_rows] assigns (none negative) and a row [row >= 0]: an
    event below the last item is refused and changes nothing;
    otherwise the event goes to the one item whose rows contain
    [row], with the row counted from the top of that item and the
    size that item is rendered in; the focus moves to that item
    exactly when the event is a press of button 1 and the item is
    selectable, and the contents stay the same. *)
Theorem Pile_mouse_event_target (self : Pile.t) (size : Z * option Z)
    (event : string) (button col row : Z) (focus : bool) (out : list Z) :
  let cs := MonitoredFocusList.items (Pile.contents self) in
  Pile.get_item_rows self size focus = Ok (Some <$> out) ->
  Forall (fun r => 0 <= r) out -> 0 <= row ->
  (sumZ out <= row ->
     Pile.mouse_event self size event button col row focus
       = Returns (Some false, self)) /\
  (row < sumZ out ->
     exists (i : nat) (r : Z) (item : Pile.entry) (self' : Pile.t) (tsize : list Z),
       cs !! i = Some item /\ out !! i = Some r /\
       sumZ (take i out) <= row < sumZ (take i out) + r /\
       Pile.mouse_event self size event button col row focus
         = Returns
             (if has_mouse_event item.1
              then w_mouse_event item.1 tsize event button col
                     (row - sumZ (take i out)) (focus && Pile.focus_is self item.1)
              else Some false, self') /\
       tsize = (if bool_decide (item.2.1 = GIVEN) then [size.1; item.2.2]
                else if bool_decide (item.2.1 = WEIGHT) && bool_decide (is_Some size.2)
                then [size.1; r] else [size.1]) /\
       MonitoredFocusList.items (Pile.contents self') = cs /\
       Pile.focus_position self'
         = (if is_mouse_press event && bool_decide (button = 1) && w_selectable item.1
            then Ok i else Pile.focus_position self)).
Proof.
  intros cs Hrows Hnn Hrow.
  destruct (Pile_item_rows_ints _ _ _ _ Hrows) as (out' & Heq & Hlen).
  apply (inj (fmap Some)) in Heq. subst out'. fold cs in Hlen.
  destruct (Pile_row_at_spec out (map fst cs) row 0 0
              ltac:(by rewrite length_map) Hnn Hrow) as [Hnone Hsome].
  rewrite !Z.add_0_l in *.
  unfold Pile.mouse_event. rewrite Hrows. cbn [lift mbind outcome_bind]. fold cs.
  split.
  - intros Hge. by rewrite Hnone.
  - intros Hlt. destruct Hsome as (i & r & w & Hi & Hw & Hin & Hat); [done |].
    rewrite Hat. cbn [mbind outcome_bind Nat.add].
    rewrite map_fmap, list_lookup_fmap in Hw.
    apply fmap_Some in Hw as ([w' [f height]] & Hci & ->). cbn [fst].
    rename w' into w.
    rewrite !Z.add_0_l in *.
    assert (Hilt : (i < length cs)%nat) by (eapply lookup_lt_Some; eauto).
    assert (Hsize : forall self' : Pile.t,
      MonitoredFocusList.items (Pile.contents self') = cs ->
      Pile.get_item_size self' size i (focus && Pile.focus_is self w)
        (Some (Some <$> out))
      = Returns (if bool_decide (f = GIVEN) then [size.1; height]
                 else if bool_decide (f = WEIGHT) && bool_decide (is_Some size.2)
                 then [size.1; r] else [size.1])).
    { intros self' Hitems. unfold Pile.get_item_size, Pile.entry in *.
      rewrite Hitems, Hci.
      destruct (bool_decide (f = GIVEN)); [done |].
      destruct (bool_decide (f = WEIGHT) && bool_decide (is_Some size.2)); [| done].
      assert (Hne : exists r0 l0, Some <$> out = r0 :: l0)
        by (destruct out; [done | cbn; eauto]).
      destruct Hne as (r0 & l0 & Hne). rewrite Hne. cbn [mbind outcome_bind].
      rewrite <- Hne, list_lookup_fmap, Hi. done. }
    exists i, r, (w, (f, height)).
    destruct (is_mouse_press event && bool_decide (button = 1)) eqn:Hpress;
      [destruct (w_selectable w) eqn:Hsel |]; cbn [fst snd andb].
    + rewrite Pile_set_focus_position_ok by done. cbn [lift mbind outcome_bind].
      eexists _, _. split; [done |]. split; [done |]. split; [done |].
      split; [| split; [reflexivity | split]].
      * destruct (has_mouse_event w); cbn [negb]; [| reflexivity].
        rewrite Hsize by done. reflexivity.
      * done.
      * unfold Pile.focus_position, MonitoredFocusList.focus. cbn.
        rewrite Hsel. fold cs. destruct cs; [cbn in Hilt; lia | done].
    + cbn [mbind outcome_bind]. rewrite ?Hsel.
      eexists _, _. split; [done |]. split; [done |]. split; [done |].
      split; [| split; [reflexivity | split]]; try done.
      destruct (has_mouse_event w); cbn [negb]; [| reflexivity].
      rewrite Hsize by done. reflexivity.
    + cbn [mbind outcome_bind].
      eexists _, _. split; [done |]. split; [done |]. split; [done |].
      split; [| split; [reflexivity | split]]; try done.
      destruct (has_mouse_event w); cbn [negb]; [| reflexivity].
      rewrite Hsize by done. reflexivity.
Qed.

End PileEvents.

Lemma Pile_mouse_event_target_witness :
  exists self' : Pile.t,
    @Pile.mouse_event Samples.toolkit
      (Samples.pile_of [(GIVEN, 2); (WEIGHT, 1)]) (80, Some 5)
      "mouse press" 1 0 3 true = Returns (Some true, self') /\
    Pile.focus_position self' = Ok 1%nat.
Proof.
  destruct (@Pile_mouse_event_target Samples.toolkit
              (Samples.pile_of [(GIVEN, 2); (WEIGHT, 1)]) (80, Some 5)
              "mouse press" 1 0 3 true [2; 3] eq_refl
              ltac:(repeat constructor; lia) ltac:(lia)) as [_ Hin].
  destruct Hin as (i & r & item & self' & tsize & Hi & Hr & Hrow & Hm & _ & _ & Hfp);
    [by vm_compute |].
  destruct i as [| [| i]]; cbn in Hi, Hr, Hrow; simplify_eq; try lia.
  exists self'. split; [exact Hm | exact Hfp].
Defined.

Lemma list_find_snoc {A : Type} (P : A -> Prop) `{forall x, Decision (P x)}
    (l : list A) (e : A) :
  list_find P (l ++ [e])
  = match list_find P l with
    | Some x => Some x
    | None => if decide (P e) then Some (length l, e) else None
    end.
Proof.
  induction l as [| x l IH]; cbn.
  - by destruct (decide (P e)).
  - destruct (decide (P x)); [done |]. rewrite IH.
    destruct (list_find P l) as [[i y] |]; [done |].
    by destruct (decide (P e)).
Qed.

Lemma Pile_validate_any (item : Pile.entry) :
  Pile._validate_contents_modified [item] = Ok tt.
Proof.
  destruct item as [w [[] n]]; unfold Pile._validate_contents_modified; cbn;
    rewrite bool_decide_eq_true_2; try done; list_mem; tauto.
Qed.

Lemma existsb_snoc {A : Type} (f : A -> bool) (l : list A) (x : A) :
  existsb f (l ++ [x]) = existsb f l || f x.
Proof. rewrite existsb_app. cbn. by rewrite orb_false_r. Qed.

(** Appending keeps a cursor that is on the first entry. *)
Lemma Pile_append_spec (self : Pile.t) (item : Pile.entry) :
  MonitoredFocusList._focus (Pile.contents self) = 0%nat ->
  exists self' : Pile.t,
    Pile.append self item = Ok self' /\
    MonitoredFocusList.items (Pile.contents self')
      = MonitoredFocusList.items (Pile.contents self) ++ [item] /\
    MonitoredFocusList._focus (Pile.contents self') = 0%nat /\
    Pile._selectable self'
      = existsb (fun item : Pile.entry => w_selectable item.1)
          (MonitoredFocusList.items (Pile.contents self) ++ [item]) /\
    Pile.pref_col self' = Pile.pref_col self.
Proof.
  intros Hf. unfold Pile.append, MonitoredFocusList.append.
  rewrite Pile_validate_any. cbn. rewrite Hf.
  eexists. split; [reflexivity |]. cbn. repeat split.
  destruct (bool_decide_reflect
              (length (MonitoredFocusList.items (Pile.contents self)) <= 0)%nat); lia.
Qed.

Lemma Pile_init_items_spec (widget_list : list Pile.init_item) :
  forall (entries : list Pile.entry) (self : Pile.t) (focus_item : option (Z + Widget)),
    Forall2 (fun original item => Pile.init_entry original = Returns item)
      widget_list entries ->
    MonitoredFocusList._focus (Pile.contents self) = 0%nat ->
    let done := MonitoredFocusList.items (Pile.contents self) in
    Pile._selectable self
      = existsb (fun item : Pile.entry => w_selectable item.1) done ->
    focus_item = (fun p : nat * Pile.entry => inl (Z.of_nat p.1))
                   <$> list_find PileLayout.selectable done ->
    exists self' : Pile.t,
      Pile.init_items self focus_item (length done) widget_list
        = Returns (self', (fun p : nat * Pile.entry => inl (Z.of_nat p.1))
                            <$> list_find PileLayout.selectable (done ++ entries)) /\
      MonitoredFocusList.items (Pile.contents self') = done ++ entries /\
      MonitoredFocusList._focus (Pile.contents self') = 0%nat /\
      Pile._selectable self'
        = existsb (fun item : Pile.entry => w_selectable item.1) (done ++ entries) /\
      Pile.pref_col self' = Pile.pref_col self.
Proof.
  induction widget_list as [| original widget_list IH];
    intros entries self focus_item Hall Hf done Hsel Hfi.
  - apply Forall2_nil_inv_l in Hall as ->. cbn. rewrite app_nil_r.
    exists self. by rewrite Hfi.
  - apply Forall2_cons_inv_l in Hall as (item & entries' & Hitem & Hall & ->).
    cbn [Pile.init_items]. rewrite Hitem. cbn [mbind outcome_bind].
    destruct (Pile_append_spec self item Hf) as (self1 & Happ & Hitems1 & Hf1 & Hsel1 & Hp1).
    rewrite Happ. cbn [lift mbind outcome_bind].
    fold done in Hitems1, Hsel1.
    specialize (IH entries' self1
      (match focus_item with
       | Some _ => focus_item
       | None => if w_selectable item.1 then Some (inl (Z.of_nat (length done))) else None
       end) Hall Hf1).
    cbn zeta in IH. rewrite Hitems1 in IH.
    destruct IH as (self' & Hinit & Hitems' & Hf' & Hsel' & Hp'); [done | |].
    + rewrite Hfi, list_find_snoc.
      destruct (list_find PileLayout.selectable done) as [[i y] |]; [done |]. cbn.
      destruct (decide (PileLayout.selectable item)) as [Hs | Hs];
        unfold PileLayout.selectable in Hs.
      * by rewrite Hs.
      * by destruct (w_selectable item.1).
    + rewrite length_app in Hinit. cbn [length] in Hinit.
      replace (length done + 1)%nat with (S (length done)) in Hinit by lia.
      rewrite <- app_assoc in Hinit, Hitems', Hsel'. cbn [app] in *.
      exists self'. rewrite Hinit. repeat split; try done. congruence.
Qed.

(** X7.  [Pile(widget_list)] built from valid items, without a
    [focus_item]: the contents are the entries of the items in order,
    the Pile is selectable exactly when one of its widgets is, and the
    focus is on the first selectable widget - on the first widget when
    none is selectable. *)
Theorem Pile_init_focus (widget_list : list Pile.init_item)
    (entries : list Pile.entry) :
  Forall2 (fun original item => Pile.init_entry original = Returns item)
    widget_list entries ->
  exists self : Pile.t,
    Pile.__init__ widget_list None = Returns self /\
    MonitoredFocusList.items (Pile.contents self) = entries /\
    Pile._selectable self
      = existsb (fun item : Pile.entry => w_selectable item.1) entries /\
    Pile.pref_col self = 0 /\
    (entries <> [] ->
     Pile.focus_position self
       = Ok (default 0%nat (fst <$> list_find PileLayout.selectable entries))).
Proof.
  intros Hall. unfold Pile.__init__.
  destruct (Pile_init_items_spec widget_list entries
              (Pile.mk MonitoredFocusList.empty false 0) None Hall eq_refl
              eq_refl eq_refl) as (self' & Hinit & Hitems & Hf & Hsel & Hp).
  cbn in Hinit, Hitems, Hsel. rewrite Hinit. cbn [mbind outcome_bind].
  rewrite Hitems.
  destruct entries as [| e entries].
  { cbn. eexists. repeat split; try done. }
  destruct (list_find PileLayout.selectable (e :: entries)) as [[i y] |] eqn:Hfind.
  - cbn [fmap option_fmap option_map fst Pile.set_focus default].
    apply list_find_Some in Hfind as (Hi & _ & _).
    apply lookup_lt_Some in Hi.
    rewrite Pile_set_focus_position_ok by (by rewrite Hitems).
    cbn [lift mbind outcome_bind]. eexists. split; [reflexivity |].
    cbn. rewrite Hitems. repeat split; done.
  - cbn [fmap option_fmap option_map mbind outcome_bind default].
    eexists. split; [reflexivity |]. cbn. repeat split; try done.
    intros _. unfold Pile.focus_position, MonitoredFocusList.focus. cbn.
    by rewrite Hitems, Hf.
Qed.

Lemma Pile_init_focus_witness :
  exists self : Pile.t,
    Pile.__init__ [Pile.Bare (Samples.text 0 1); Pile.Given 2 (Samples.leaf 1 true);
                   Pile.Tagged "weight" 3 (Samples.leaf 2 true)] None
      = Returns self /\
    Pile.focus_position self = Ok 1%nat.
Proof.
  destruct (Pile_init_focus
              [Pile.Bare (Samples.text 0 1); Pile.Given 2 (Samples.leaf 1 true);
               Pile.Tagged "weight" 3 (Samples.leaf 2 true)]
              [(Samples.text 0 1, (WEIGHT, 1)); (Samples.leaf 1 true, (GIVEN, 2));
               (Samples.leaf 2 true, (WEIGHT, 3))])
    as (self & Hinit & _ & _ & _ & Hfp).
  - repeat constructor.
  - exists self. split; [exact Hinit |]. by apply Hfp.
Defined.

(** X8.  [pile.focus = w] for a widget [w]: when no entry holds [w]
    the assignment raises [ValueError]; otherwise it succeeds, the
    contents stay the same, the focus is on the first entry that
    holds [w], and [pile.focus] then reads a widget equal to [w]. *)
Theorem Pile_set_focus_widget (self : Pile.t) (w : Widget) :
  let cs := MonitoredFocusList.items (Pile.contents self) in
  ((forall item : Pile.entry, item ∈ cs -> w_id item.1 <> w_id w) ->
     Pile.set_focus self (inr w) = Raises ValueError) /\
  (forall (i : nat) (item : Pile.entry),
     cs !! i = Some item -> w_id item.1 = w_id w ->
     (forall (j : nat) (other : Pile.entry),
        (j < i)%nat -> cs !! j = Some other -> w_id other.1 <> w_id w) ->
     exists self' : Pile.t,
       Pile.set_focus self (inr w) = Returns self' /\
       MonitoredFocusList.items (Pile.contents self') = cs /\
       Pile.focus_position self' = Ok i /\
       Pile.focus self' = Some item.1 /\
       Pile.focus_is self' w = true).
Proof.
  intros cs. unfold Pile.set_focus. fold cs. split.
  - intros Hnone.
    destruct (list_find _ cs) as [[i item] |] eqn:Hfind; [| done].
    apply list_find_Some in Hfind as (Hi & Hw & _).
    exfalso. apply (Hnone item); [| done]. by eapply list_elem_of_lookup_2.
  - intros i item Hi Hw Hfirst.
    assert (Hfind : list_find (fun e : Pile.entry => w_id w = w_id e.1) cs
                    = Some (i, item)).
    { apply list_find_Some. repeat split; try done.
      intros j other Hj Hlt Heq. by apply (Hfirst j other). }
    rewrite Hfind.
    assert (Hlt : (i < length cs)%nat) by (by eapply lookup_lt_Some).
    rewrite Pile_set_focus_position_ok by done. cbn [lift].
    eexists. split; [reflexivity |].
    unfold Pile.focus_position, Pile.focus_is, Pile.focus, MonitoredFocusList.focus.
    cbn. fold cs. unfold Pile.entry in *.
    destruct cs as [| c cs'] eqn:Hcs; [cbn in Hlt; lia |].
    rewrite Hi. cbn. repeat split. by rewrite bool_decide_eq_true_2.
Qed.

Lemma Pile_set_focus_widget_witness :
  exists self' : Pile.t,
    Pile.set_focus (Samples.pile_of [(WEIGHT, 1); (GIVEN, 2); (WEIGHT, 3)])
      (inr (Samples.leaf 1 true)) = Returns self' /\
    Pile.focus_position self' = Ok 1%nat.
Proof.
  destruct (Pile_set_focus_widget
              (Samples.pile_of [(WEIGHT, 1); (GIVEN, 2); (WEIGHT, 3)])
              (Samples.leaf 1 true)) as [_ Hset].
  destruct (Hset 1%nat (Samples.leaf 1 true, (GIVEN, 2)) eq_refl eq_refl)
    as (self' & Hs & _ & Hfp & _).
  - intros j other Hj Hother. destruct j as [| j]; [| lia].
    cbn in Hother. by simplify_eq.
  - by exists self'.
Defined.

(** ** Columns: the width cache *)

Lemma Columns_static_w_layout (a b : Columns.t) (maxcol : Z) (focus : bool)
    (i : nat) (item : Columns.entry) :
  ColumnsCache.same_layout a b ->
  Columns.static_w a maxcol focus i item = Columns.static_w b maxcol focus i item.
Proof.
  intros (Hc & Hd & Hm). unfold Columns.static_w.
  destruct item as [w [[t n] bx]]. by rewrite Hc, Hm.
Qed.

Lemma Columns_claim_layout (a b : Columns.t) (maxcol : Z) (focus : bool)
    (cs : list Columns.entry) :
  ColumnsCache.same_layout a b ->
  forall (i : nat) (widths : list Z) (weighted : list (Z * nat)) (shared : Z),
    Columns.claim a maxcol focus i cs widths weighted shared
    = Columns.claim b maxcol focus i cs widths weighted shared.
Proof.
  intros Hab. pose proof Hab as (Hc & Hd & Hm).
  induction cs as [| item cs IH]; intros i widths weighted shared; [done |].
  cbn [Columns.claim].
  rewrite (Columns_static_w_layout a b) by done. rewrite Hc, Hd.
  destruct (_ && _); [done |]. apply IH.
Qed.

Lemma Columns_drop_left_layout (a b : Columns.t) (todo : list Z) :
  ColumnsCache.same_layout a b ->
  forall (i : nat) (widths : list Z) (weighted : list (Z * nat)) (shared : Z),
    Columns.drop_left a i todo widths weighted shared
    = Columns.drop_left b i todo widths weighted shared.
Proof.
  intros (Hc & Hd & Hm).
  induction todo as [| x todo IH]; intros i widths weighted shared; [done |].
  cbn [Columns.drop_left]. rewrite Hd.
  destruct (bool_decide (shared >= 0)); [done |]. apply IH.
Qed.

Lemma Columns_grow_weighted_layout (a b : Columns.t) (weighted : list (Z * nat)) :
  ColumnsCache.same_layout a b ->
  forall (widths : list Z) (grow wtotal : Z),
    Columns.grow_weighted a weighted widths grow wtotal
    = Columns.grow_weighted b weighted widths grow wtotal.
Proof.
  intros (Hc & Hd & Hm).
  induction weighted as [| [weight i] weighted IH]; intros widths grow wtotal; [done |].
  cbn [Columns.grow_weighted]. rewrite Hm.
  destruct (round_share grow weight wtotal); cbn; [apply IH | done].
Qed.

Lemma Columns_compute_widths_layout (a b : Columns.t) (maxcol : Z) (focus : bool) :
  ColumnsCache.same_layout a b ->
  Columns.compute_widths a maxcol focus = Columns.compute_widths b maxcol focus.
Proof.
  intros Hab. pose proof Hab as (Hc & Hd & Hm). unfold Columns.compute_widths.
  rewrite (Columns_claim_layout a b) by done. rewrite Hc, Hd.
  destruct (Columns.claim b _ _ _ _ _ _ _) as [[widths weighted] shared].
  rewrite (Columns_drop_left_layout a b) by done.
  destruct (Columns.drop_left b _ _ _ _ _) as [[widths' weighted'] shared'].
  rewrite Hm. destruct (bool_decide (shared' <> 0)); [| done].
  by apply Columns_grow_weighted_layout.
Qed.

(** Without a ['pack'] column the flag [focus] is not read. *)
Lemma Columns_claim_unpacked (self : Columns.t) (maxcol : Z) (focus : bool)
    (cs : list Columns.entry) :
  existsb (fun item : Columns.entry => bool_decide (item.2.1.1 = PACK)) cs = false ->
  forall (i : nat) (widths : list Z) (weighted : list (Z * nat)) (shared : Z),
    Columns.claim self maxcol focus i cs widths weighted shared
    = Columns.claim self maxcol false i cs widths weighted shared.
Proof.
  induction cs as [| item cs IH]; intros Hnp i widths weighted shared; [done |].
  cbn [existsb] in Hnp. apply orb_false_elim in Hnp as [Hitem Hnp].
  cbn [Columns.claim].
  assert (Hs : Columns.static_w self maxcol focus i item
               = Columns.static_w self maxcol false i item).
  { unfold Columns.static_w. destruct item as [w [[t n] bx]]. cbn in Hitem.
    rewrite Hitem. by destruct (bool_decide (t = GIVEN)). }
  rewrite Hs. destruct (_ && _); [done |]. by apply IH.
Qed.

Lemma Columns_compute_widths_unpacked (self : Columns.t) (maxcol : Z) (focus : bool) :
  ColumnsCache.unpacked self ->
  Columns.compute_widths self maxcol focus = Columns.compute_widths self maxcol false.
Proof.
  intros Hnp. unfold Columns.compute_widths.
  by rewrite (Columns_claim_unpacked self maxcol focus).
Qed.



(** ** Columns: rows, events, keys *)

(** [column_widths] touches the cache only. *)
Lemma Columns_column_widths_layout (self self' : Columns.t) (size : Z * option Z)
    (focus : bool) (widths : list Z) :
  Columns.column_widths self size focus = Ok (widths, self') ->
  Columns.contents self' = Columns.contents self /\
  Columns.dividechars self' = Columns.dividechars self /\
  Columns.min_width self' = Columns.min_width self /\
  Columns.pref_col self' = Columns.pref_col self /\
  Columns._selectable self' = Columns._selectable self.
Proof.
  unfold Columns.column_widths. destruct (_ && _).
  - intros. by simplify_eq.
  - destruct (Columns.compute_widths _ _ _); [| done]. cbn. intros. by simplify_eq.
Qed.

Lemma Columns_max_rows_spec (self : Columns.t) (focus : bool)
    (zipped : list (Z * Columns.entry)) :
  forall (i : nat) (rows : Z),
    let r := Columns.max_rows self focus i zipped rows in
    rows <= r /\
    (forall (k : nat) (mc : Z) (item : Columns.entry),
       zipped !! k = Some (mc, item) -> item.2.2 = false ->
       w_rows item.1 mc
         (focus && bool_decide (MonitoredFocusList._focus (Columns.contents self)
                                = (i + k)%nat)) <= r) /\
    (r = rows \/
     exists (k : nat) (mc : Z) (item : Columns.entry),
       zipped !! k = Some (mc, item) /\ item.2.2 = false /\
       r = w_rows item.1 mc
             (focus && bool_decide (MonitoredFocusList._focus (Columns.contents self)
                                    = (i + k)%nat))).
Proof.
  induction zipped as [| [mc [w [[t n] b]]] zipped IH]; intros i rows r.
  - subst r. cbn. split; [lia |]. split; [done | by left].
  - subst r. cbn [Columns.max_rows]. destruct b.
    + destruct (IH (S i) rows) as (H1 & H2 & H3). split; [done |]. split.
      * intros [| k] mc' item Hk Hb; cbn in Hk; [by simplify_eq |].
        replace (i + S k)%nat with (S i + k)%nat by lia. by apply H2.
      * destruct H3 as [H3 | (k & mc' & item & Hk & Hb & H3)]; [by left |].
        right. exists (S k), mc', item.
        replace (i + S k)%nat with (S i + k)%nat by lia. done.
    + set (x := w_rows w mc
                  (focus && bool_decide (MonitoredFocusList._focus (Columns.contents self) = i))).
      destruct (IH (S i) (Z.max rows x)) as (H1 & H2 & H3). split; [lia |]. split.
      * intros [| k] mc' item Hk Hb; cbn in Hk.
        -- simplify_eq. cbn. rewrite Nat.add_0_r. fold x. lia.
        -- replace (i + S k)%nat with (S i + k)%nat by lia. by apply H2.
      * destruct H3 as [H3 | (k & mc' & item & Hk & Hb & H3)].
        -- destruct (Z.max_spec rows x) as [[_ Hm] | [_ Hm]]; rewrite Hm in H3 |- *.
           ++ right. exists 0%nat, mc, (w, (t, n, false)). cbn.
              rewrite Nat.add_0_r. done.
           ++ by left.
        -- right. exists (S k), mc', item.
           replace (i + S k)%nat with (S i + k)%nat by lia. done.
Qed.

Lemma lookup_zip_Some {A B : Type} (l1 : list A) (l2 : list B) (k : nat) (a : A) (b : B) :
  zip l1 l2 !! k = Some (a, b) <-> l1 !! k = Some a /\ l2 !! k = Some b.
Proof.
  rewrite lookup_zip_with_Some. split.
  - intros (x & y & Heq & H1 & H2). by simplify_eq.
  - intros [H1 H2]. by exists a, b.
Qed.

(** X10.  The rows a Columns reports: at least 1; at least the rows
    of every column that has a width and is not a box column, at the
    width it has; and no more than that - it is 1 or the rows of one
    of these columns.  Columns cut off the list of widths do not
    count. *)
Theorem Columns_rows_largest (self self' : Columns.t) (size : Z * option Z)
    (focus : bool) (r : Z) :
  Columns.rows self size focus = Ok (r, self') ->
  let cs := MonitoredFocusList.items (Columns.contents self) in
  let rows_of (k : nat) (mc : Z) (item : Columns.entry) :=
    w_rows item.1 mc
      (focus && bool_decide (MonitoredFocusList._focus (Columns.contents self) = k)) in
  exists widths : list Z,
    Columns.column_widths self size focus = Ok (widths, self') /\
    1 <= r /\
    (forall (k : nat) (mc : Z) (item : Columns.entry),
       widths !! k = Some mc -> cs !! k = Some item -> item.2.2 = false ->
       rows_of k mc item <= r) /\
    (r = 1 \/
     exists (k : nat) (mc : Z) (item : Columns.entry),
       widths !! k = Some mc /\ cs !! k = Some item /\ item.2.2 = false /\
       r = rows_of k mc item).
Proof.
  intros Hrows cs rows_of. unfold Columns.rows in Hrows.
  destruct (Columns.column_widths self size focus) as [[widths self1] |] eqn:Hcw; [| done].
  cbn in Hrows. simplify_eq.
  destruct (Columns_column_widths_layout _ _ _ _ _ Hcw) as (Hc & _).
  exists widths. split; [done |]. rewrite Hc. fold cs.
  destruct (Columns_max_rows_spec self' focus (zip widths cs) 0 1) as (H1 & H2 & H3).
  rewrite Hc in H2, H3. split; [done |]. split.
  - intros k mc item Hk Hi Hb. apply (H2 k mc item); [| done].
    by apply lookup_zip_Some.
  - destruct H3 as [H3 | (k & mc & item & Hk & Hb & H3)]; [by left |].
    right. exists k, mc, item. apply lookup_zip_Some in Hk as [Hk Hi]. done.
Qed.

Lemma Columns_rows_largest_witness :
  exists widths : list Z,
    Columns.column_widths (Samples.columns_of [(GIVEN, 3); (WEIGHT, 1)] 0 1 1)
      (10, None) true
    = Ok (widths, Columns.mk
            (Columns.contents (Samples.columns_of [(GIVEN, 3); (WEIGHT, 1)] 0 1 1))
            1 1 None true (Some 10) [3; 6]) /\
    1 <= 1.
Proof.
  destruct (Columns_rows_largest
              (Samples.columns_of [(GIVEN, 3); (WEIGHT, 1)] 0 1 1) _ (10, None) true 1
              eq_refl) as (widths & Hcw & Hr & _).
  by exists widths.
Defined.

Lemma Columns_cost_nonneg (d : Z) (ws : list Z) :
  0 <= d -> Forall (fun w => 0 <= w) ws -> 0 <= ColumnsSolver.cost d ws.
Proof. intros Hd. induction 1; cbn; [lia |]. unfold ColumnsSolver.cost in *. lia. Qed.

(** The search for the column a screen column falls in ends at the
    column whose span contains it. *)
Lemma Columns_column_at_hit (self : Columns.t) (col : Z)
    (zipped : list (Z * Columns.entry)) :
  let d := Columns.dividechars self in
  0 <= d -> Forall (fun w => 0 <= w) (map fst zipped) ->
  forall (x : Z) (i k : nat) (mc : Z) (item : Columns.entry),
    zipped !! k = Some (mc, item) ->
    let edge := x + ColumnsSolver.cost d (take k (map fst zipped)) in
    x <= col -> edge <= col < edge + mc ->
    Columns.column_at self col x i zipped = Some ((i + k)%nat, edge, edge + mc, item).
Proof.
  intros d Hd. induction zipped as [| [w0 it0] zipped IH]; intros Hnn x i k mc item Hk edge Hx Hin.
  - done.
  - cbn [map fst] in Hnn. apply Forall_cons in Hnn as [Hw0 Hnn].
    cbn [Columns.column_at]. rewrite bool_decide_eq_false_2 by lia.
    destruct k as [| k]; cbn in Hk.
    + simplify_eq. subst edge. cbn in Hin |- *.
      unfold ColumnsSolver.cost in *. cbn in Hin |- *.
      rewrite bool_decide_eq_false_2 by lia.
      rewrite Nat.add_0_r, Z.add_0_r. done.
    + subst edge. cbn [map fst take] in Hin |- *.
      unfold ColumnsSolver.cost in Hin |- *. cbn [map sumZ] in Hin |- *.
      fold (ColumnsSolver.cost d (take k (map fst zipped))) in Hin |- *.
      pose proof (Columns_cost_nonneg d (take k (map fst zipped)) Hd
                    ltac:(by apply Forall_take)) as Hc.
      rewrite bool_decide_eq_true_2 by lia. fold d.
      rewrite (IH Hnn (x + w0 + d) (S i) k mc item Hk) by lia.
      replace (S i + k)%nat with (i + S k)%nat by lia.
      by rewrite !Z.add_assoc.
Qed.

Lemma Columns_column_at_miss (self : Columns.t) (col : Z)
    (zipped : list (Z * Columns.entry)) :
  let d := Columns.dividechars self in
  forall (x : Z) (i : nat),
    (forall (k : nat) (mc : Z) (item : Columns.entry),
       zipped !! k = Some (mc, item) ->
       let edge := x + ColumnsSolver.cost d (take k (map fst zipped)) in
       ~ (edge <= col < edge + mc)) ->
    Columns.column_at self col x i zipped = None.
Proof.
  intros d. induction zipped as [| [w0 it0] zipped IH]; intros x i Hmiss; [done |].
  cbn [Columns.column_at].
  destruct (bool_decide_reflect (col < x)) as [Hlt | Hge]; [done |].
  destruct (bool_decide_reflect (col >= x + w0)) as [Hend | Hin].
  - apply IH. intros k mc item Hk edge. subst edge.
    specialize (Hmiss (S k) mc item Hk). cbn [map fst take] in Hmiss.
    unfold ColumnsSolver.cost in Hmiss |- *. cbn [map sumZ] in Hmiss.
    fold d in Hmiss. lia.
  - exfalso. apply (Hmiss 0%nat w0 it0 eq_refl). cbn.
    unfold ColumnsSolver.cost. cbn. lia.
Qed.

Lemma Columns_set_focus_position_ok (self : Columns.t) (k : nat) :
  (k < length (MonitoredFocusList.items (Columns.contents self)))%nat ->
  exists self' : Columns.t,
    Columns.set_focus_position self (Z.of_nat k) = Ok self' /\
    MonitoredFocusList.items (Columns.contents self')
      = MonitoredFocusList.items (Columns.contents self) /\
    MonitoredFocusList._focus (Columns.contents self') = k /\
    Columns.dividechars self' = Columns.dividechars self /\
    Columns.min_width self' = Columns.min_width self /\
    Columns.pref_col self' = Columns.pref_col self.
Proof.
  intros Hk. unfold Columns.set_focus_position, MonitoredFocusList.set_focus.
  rewrite !bool_decide_eq_false_2 by lia. cbn [orb].
  destruct (MonitoredFocusList.items (Columns.contents self)) eqn:Hl; [cbn in Hk; lia |].
  cbn [mbind result_bind]. rewrite Nat2Z.id.
  destruct (bool_decide _); eexists; (split; [reflexivity |]); cbn; by rewrite ?Hl.
Qed.

Lemma take_fst_zip {A B : Type} (l1 : list A) (l2 : list B) :
  forall k : nat, (k <= length (zip l1 l2))%nat ->
    take k (map fst (zip l1 l2)) = take k l1.
Proof.
  revert l2. induction l1 as [| a l1 IH]; intros [| b l2] [| k] Hk; cbn in *;
    try done; try lia.
  f_equal. apply IH. lia.
Qed.

Section ColumnsEvents.
Context `{Toolkit}.

(** X11.  Where a mouse event on a Columns goes.  With the widths
    [column_widths] returns (none negative) and separators of
    [dividechars >= 0] columns, column [k] spans the screen columns
    from [edge k] - the widths and separators of the columns before
    it - to [edge k + width - 1].  An event on a screen column that
    no span contains (a separator, a hidden column of width 0, the
    space right of the last column) is refused.  An event inside the
    span of column [k] goes to that column with the screen column
    counted from its left edge; the focus moves to column [k] exactly
    when the event is a press of button 1 and the column is
    selectable.  (Box columns of a flow Columns, which are sized by a
    second pass, are left out.) *)
Theorem Columns_mouse_event_target (self self1 : Columns.t) (size : Z * option Z)
    (event : string) (button col row : Z) (focus : bool) (widths : list Z) :
  let cs := MonitoredFocusList.items (Columns.contents self) in
  let d := Columns.dividechars self in
  let edge (k : nat) := ColumnsSolver.cost d (take k widths) in
  Columns.column_widths self size false = Ok (widths, self1) ->
  0 <= d -> Forall (fun w => 0 <= w) widths -> 0 <= col ->
  ((forall (k : nat) (mc : Z) (item : Columns.entry),
      widths !! k = Some mc -> cs !! k = Some item ->
      ~ (edge k <= col < edge k + mc)) ->
   Columns.mouse_event self size event button col row focus = Ok (Some false, self1)) /\
  (forall (k : nat) (mc : Z) (item : Columns.entry),
     widths !! k = Some mc -> cs !! k = Some item ->
     edge k <= col < edge k + mc ->
     size.2 <> None \/ item.2.2 = false ->
     exists self' : Columns.t,
       Columns.mouse_event self size event button col row focus
         = Ok (if has_mouse_event item.1
               then w_mouse_event item.1 (mc :: Columns.size_tail size) event button
                      (col - edge k) row
                      (focus && bool_decide
                                  (MonitoredFocusList._focus (Columns.contents self) = k))
               else Some false, self') /\
       MonitoredFocusList.items (Columns.contents self') = cs /\
       MonitoredFocusList._focus (Columns.contents self')
         = (if is_mouse_press event && bool_decide (button = 1) && w_selectable item.1
            then k else MonitoredFocusList._focus (Columns.contents self))).
Proof.
  intros cs d edge Hcw Hd Hnn Hcol.
  destruct (Columns_column_widths_layout _ _ _ _ _ Hcw) as (Hc & Hd1 & _).
  unfold Columns.mouse_event. rewrite Hcw. cbn [mbind result_bind].
  rewrite Hc. fold cs.
  assert (Hzip : forall (k : nat) (mc : Z) (item : Columns.entry),
            zip widths cs !! k = Some (mc, item) ->
            take k (map fst (zip widths cs)) = take k widths).
  { intros k mc item Hk. apply lookup_lt_Some in Hk. apply take_fst_zip. lia. }
  assert (Hnnz : Forall (fun w => 0 <= w) (map fst (zip widths cs))).
  { rewrite Forall_forall in Hnn. apply Forall_forall. intros w Hw.
    rewrite map_fmap in Hw. apply list_elem_of_fmap in Hw as ([mc item] & -> & Hin).
    apply list_elem_of_lookup in Hin as (k & Hk).
    apply lookup_zip_Some in Hk as [Hk _]. apply Hnn.
    by eapply list_elem_of_lookup_2. }
  split.
  - intros Hmiss. rewrite Columns_column_at_miss; [done |].
    intros k mc item Hk edge'. subst edge'. rewrite Hd1.
    rewrite (Hzip k mc item Hk). rewrite Z.add_0_l.
    apply lookup_zip_Some in Hk as [Hk Hi]. by apply (Hmiss k mc item).
  - intros k mc [w [[t n] b]] Hk Hi Hin Hflow.
    assert (Hz : zip widths cs !! k = Some (mc, (w, (t, n, b))))
      by (by apply lookup_zip_Some).
    rewrite (Columns_column_at_hit self1 col (zip widths cs)
               ltac:(by rewrite Hd1) Hnnz 0 0%nat k mc _ Hz Hcol);
      rewrite Hd1, (Hzip k mc _ Hz), !Z.add_0_l; [| done].
    cbn [Nat.add fst snd].
    fold d. fold (edge k).
    replace (edge k + mc - edge k) with mc by lia.
    assert (Hlt : (k < length (MonitoredFocusList.items (Columns.contents self1)))%nat).
    { rewrite Hc. by eapply lookup_lt_Some. }
    destruct (Columns_set_focus_position_ok self1 k Hlt)
      as (self2 & Hset & Hitems2 & Hf2 & _).
    assert (Hbox : bool_decide (size.2 = None) && b = false).
    { destruct Hflow as [Hs | Hb]; cbn in *.
      - by rewrite bool_decide_eq_false_2.
      - rewrite Hb. apply andb_false_r. }
    rewrite Hbox.
    destruct (is_mouse_press event && bool_decide (button = 1) && w_selectable w).
    + rewrite Hset. cbn [mbind result_bind]. exists self2.
      rewrite Hitems2, Hf2, Hc. split; [| done].
      by destruct (has_mouse_event w).
    + cbn [mbind result_bind]. exists self1. rewrite Hc. split; [| done].
      by destruct (has_mouse_event w).
Qed.

End ColumnsEvents.

Lemma Columns_mouse_event_target_witness :
  exists self' : Columns.t,
    @Columns.mouse_event Samples.toolkit Samples.two_columns (10, Some 5)
      "mouse press" 1 5 0 true = Ok (Some true, self') /\
    MonitoredFocusList._focus (Columns.contents self') = 1%nat.
Proof.
  destruct (@Columns_mouse_event_target Samples.toolkit Samples.two_columns _ (10, Some 5)
              "mouse press" 1 5 0 true [3; 6] eq_refl ltac:(by vm_compute)
              ltac:(repeat constructor; lia) ltac:(lia)) as [_ Hhit].
  destruct (Hhit 1%nat 6 (Samples.leaf 1 true, (WEIGHT, 1, false)) eq_refl eq_refl
              ltac:(by vm_compute) ltac:(by left)) as (self' & Hm & _ & Hf).
  exists self'. split; [exact Hm | exact Hf].
Defined.

Lemma Builtins_range_lookup (start stop : Z) (k : nat) :
  Builtins.range start stop !! k
  = if bool_decide (start + Z.of_nat k < stop) then Some (start + Z.of_nat k) else None.
Proof.
  unfold Builtins.range. rewrite list_lookup_fmap.
  destruct (bool_decide_reflect (start + Z.of_nat k < stop)) as [Hlt | Hge].
  - rewrite lookup_seq_lt by lia. done.
  - rewrite lookup_seq_ge by lia. done.
Qed.

Lemma Builtins_range_down_lookup (start stop : Z) (k : nat) :
  Builtins.range_down start stop !! k
  = if bool_decide (stop < start - Z.of_nat k) then Some (start - Z.of_nat k) else None.
Proof.
  unfold Builtins.range_down. rewrite list_lookup_fmap.
  destruct (bool_decide_reflect (stop < start - Z.of_nat k)) as [Hlt | Hge].
  - rewrite lookup_seq_lt by lia. done.
  - rewrite lookup_seq_ge by lia. done.
Qed.

Lemma Builtins_item_nat {A : Type} (l : list A) (k : nat) :
  Builtins.item l (Z.of_nat k)
  = match l !! k with Some x => Ok x | None => Raise IndexError end.
Proof.
  unfold Builtins.item. cbn zeta.
  rewrite (bool_decide_eq_false_2 (Z.of_nat k < 0)) by lia.
  rewrite (bool_decide_eq_false_2 (Z.of_nat k < 0)) by lia.
  by rewrite Nat2Z.id.
Qed.

Section ColumnsKeys.
Context `{Toolkit}.

(** The focus goes to the first selectable candidate; the candidates
    before it are not selectable. *)
Lemma Columns_move_focus_spec (self : Columns.t) (key : option string)
    (candidates : list Z) :
  let cs := MonitoredFocusList.items (Columns.contents self) in
  (forall j : Z, j ∈ candidates -> 0 <= j < Z.of_nat (length cs)) ->
  (exists (n : nat) (j : Z) (item : Columns.entry) (self' : Columns.t),
     candidates !! n = Some j /\ cs !! Z.to_nat j = Some item /\
     w_selectable item.1 = true /\
     (forall (m : nat) (k : Z) (other : Columns.entry),
        (m < n)%nat -> candidates !! m = Some k -> cs !! Z.to_nat k = Some other ->
        w_selectable other.1 = false) /\
     Columns.move_focus self key candidates = Ok (None, self') /\
     MonitoredFocusList.items (Columns.contents self') = cs /\
     MonitoredFocusList._focus (Columns.contents self') = Z.to_nat j) \/
  ((forall (m : nat) (k : Z) (other : Columns.entry),
      candidates !! m = Some k -> cs !! Z.to_nat k = Some other ->
      w_selectable other.1 = false) /\
   Columns.move_focus self key candidates = Ok (key, self)).
Proof.
  intros cs. induction candidates as [| j candidates IH]; intros Hrange.
  - right. split; [done | reflexivity].
  - assert (Hj : 0 <= j < Z.of_nat (length cs)) by (apply Hrange; left).
    assert (Hrest : forall j' : Z, j' ∈ candidates -> 0 <= j' < Z.of_nat (length cs))
      by (intros j' Hj'; apply Hrange; by right).
    destruct (lookup_lt_is_Some_2 cs (Z.to_nat j) ltac:(lia)) as [item Hitem].
    assert (Hit : Builtins.item cs j = Ok item).
    { pose proof (Builtins_item_nat cs (Z.to_nat j)) as Hn.
      rewrite Z2Nat.id in Hn by lia. by rewrite Hn, Hitem. }
    cbn [Columns.move_focus]. fold cs. rewrite Hit. cbn [mbind result_bind].
    destruct (w_selectable item.1) eqn:Hsel; cbn [negb].
    + left.
      destruct (Columns_set_focus_position_ok self (Z.to_nat j) ltac:(fold cs; lia))
        as (self' & Hset & Hitems & Hf & _).
      rewrite Z2Nat.id in Hset by lia. rewrite Hset. cbn [mbind result_bind].
      exists 0%nat, j, item, self'. repeat split; try done. intros; lia.
    + destruct (IH Hrest) as [(n & j' & item' & self' & Hn & Hi' & Hs' & Hbefore & Hm & Hits & Hf)
                              | [Hnone Hm]].
      * left. exists (S n), j', item', self'. repeat split; try done.
        intros [| m] k other Hlt Hk Hother; cbn in Hk.
        -- by simplify_eq.
        -- apply (Hbefore m k other); [lia | done | done].
      * right. split; [| done].
        intros [| m] k other Hk Hother; cbn in Hk.
        -- by simplify_eq.
        -- by apply (Hnone m k other).
Qed.

End ColumnsKeys.

Lemma Columns_rows_layout (self self' : Columns.t) (size : Z * option Z)
    (focus : bool) (r : Z) :
  Columns.rows self size focus = Ok (r, self') ->
  Columns.contents self' = Columns.contents self.
Proof.
  unfold Columns.rows.
  destruct (Columns.column_widths self size focus) as [[widths self1] |] eqn:Hcw; [| done].
  cbn. intros. simplify_eq. by destruct (Columns_column_widths_layout _ _ _ _ _ Hcw).
Qed.

Lemma Builtins_range_elem (start stop j : Z) :
  j ∈ Builtins.range start stop -> start <= j < stop.
Proof.
  intros Hj. apply list_elem_of_lookup in Hj as (k & Hk).
  rewrite Builtins_range_lookup in Hk.
  destruct (bool_decide_reflect (start + Z.of_nat k < stop)); simplify_eq. lia.
Qed.

Lemma Builtins_range_down_elem (start stop j : Z) :
  j ∈ Builtins.range_down start stop -> stop < j <= start.
Proof.
  intros Hj. apply list_elem_of_lookup in Hj as (k & Hk).
  rewrite Builtins_range_down_lookup in Hk.
  destruct (bool_decide_reflect (stop < start - Z.of_nat k)); simplify_eq. lia.
Qed.

Section ColumnsKeypress.
Context `{Toolkit}.

(** X12.  Arrow keys in a Columns.  When [keypress] returns, the
    contents are the same and the focus either stays or has moved to a
    selectable column with no selectable column between the old and
    the new focus, in which case the key is reported handled.  The
    focus stays, with a key whose command is ['cursor left'] (or
    ['cursor right']) handed back, only when no column to the left (or
    right) is selectable.  (The focus column is taken to have a width,
    as it has in every list [column_widths] computes.) *)
Theorem Columns_keypress_navigation (self self1 self' : Columns.t)
    (size : Z * option Z) (key : string) (widths : list Z) (r : option string) :
  let cs := MonitoredFocusList.items (Columns.contents self) in
  let i := MonitoredFocusList._focus (Columns.contents self) in
  let j := MonitoredFocusList._focus (Columns.contents self') in
  let unselectable (k : nat) :=
    forall other : Columns.entry, cs !! k = Some other -> w_selectable other.1 = false in
  Columns.column_widths self size false = Ok (widths, self1) ->
  (i < length widths)%nat -> (i < length cs)%nat ->
  Columns.keypress self size key = Ok (r, self') ->
  MonitoredFocusList.items (Columns.contents self') = cs /\
  ((j = i /\
    (_command_map r = Some "cursor left" -> forall k : nat, (k < i)%nat -> unselectable k) /\
    (_command_map r = Some "cursor right" -> forall k : nat, (i < k)%nat -> unselectable k)) \/
   (r = None /\ j <> i /\
    (exists item : Columns.entry, cs !! j = Some item /\ w_selectable item.1 = true) /\
    (forall k : nat, (j < k < i)%nat \/ (i < k < j)%nat -> unselectable k))).
Proof.
  intros cs i j unselectable Hcw Hwi Hci Hkp. subst j.
  destruct (Columns_column_widths_layout _ _ _ _ _ Hcw) as (Hc1 & _).
  unfold Columns.keypress in Hkp.
  assert (Hfp : Columns.focus_position self = Ok i).
  { unfold Columns.focus_position. fold cs. destruct cs; [cbn in Hci; lia | done]. }
  rewrite Hfp in Hkp. cbn [mbind result_bind] in Hkp. rewrite Hcw in Hkp.
  cbn [mbind result_bind] in Hkp.
  rewrite bool_decide_eq_false_2 in Hkp by lia.
  rewrite !Builtins_item_nat in Hkp.
  destruct (lookup_lt_is_Some_2 widths i Hwi) as [mc Hmc]. rewrite Hmc in Hkp.
  cbn [mbind result_bind] in Hkp. rewrite Hc1 in Hkp. fold cs in Hkp.
  destruct (lookup_lt_is_Some_2 cs i Hci) as [[w [[t amount] b]] Hitem]. rewrite Hitem in Hkp.
  cbn [mbind result_bind] in Hkp.
  set (self2 := if bool_decide _ then Columns.with_pref_col self1 None else self1) in Hkp.
  assert (Hc2 : Columns.contents self2 = Columns.contents self).
  { subst self2. by destruct (bool_decide (_ ∉ _)). }
  (* the focus column sees the key *)
  match type of Hkp with
  | (?child ≫= _) = _ => destruct child as [[key' self3] |] eqn:Hchild; [| done]
  end.
  cbn [mbind result_bind] in Hkp.
  assert (Hc3 : Columns.contents self3 = Columns.contents self).
  { destruct (w_selectable w); [| by simplify_eq].
    destruct (bool_decide (size.2 = None) && b); [| by simplify_eq].
    destruct (Columns.rows self2 size true) as [[rr self4] |] eqn:Hrows; [| done].
    cbn in Hchild. simplify_eq. apply Columns_rows_layout in Hrows. congruence. }
  rewrite Hc3 in Hkp. fold cs in Hkp.
  destruct (bool_decide_reflect
              (_command_map key' ∉ [Some "cursor left"; Some "cursor right"]))
    as [Hcmd | Hcmd].
  { simplify_eq. rewrite Hc3. split; [done |]. left. split; [done |].
    split; intros Hr; exfalso; apply Hcmd; rewrite Hr; list_mem; tauto. }
  destruct (bool_decide_reflect (_command_map key' = Some "cursor left")) as [Hleft | Hnl].
  - (* cursor left *)
    destruct (Columns_move_focus_spec self3 key'
                (Builtins.range_down (Z.of_nat i - 1) (-1))) as [Hmove | [Hnone Hm]].
    { intros j Hj. apply Builtins_range_down_elem in Hj. rewrite Hc3. fold cs. lia. }
    + destruct Hmove as (n & j & item & self4 & Hn & Hj & Hsel & Hbefore & Hm & Hit & Hf).
      rewrite Hm in Hkp. simplify_eq. rewrite Hc3 in *. fold cs in Hj, Hbefore, Hit.
      rewrite Builtins_range_down_lookup in Hn.
      destruct (bool_decide_reflect (-1 < Z.of_nat i - 1 - Z.of_nat n)) as [Hlt | ?];
        [| done].
      simplify_eq. rewrite Hit, Hf. split; [done |]. right.
      split; [done |]. split; [lia |]. split; [by exists item |].
      intros k Hk other Hother.
      apply (Hbefore (i - 1 - k)%nat (Z.of_nat k) other); [lia | | by rewrite Nat2Z.id].
      rewrite Builtins_range_down_lookup.
      rewrite bool_decide_eq_true_2 by lia. f_equal. lia.
    + rewrite Hm in Hkp. simplify_eq. rewrite Hc3 in *. fold cs in Hnone.
      split; [done |]. left. split; [done |]. split.
      * intros _ k Hk other Hother.
        apply (Hnone (i - 1 - k)%nat (Z.of_nat k) other); [| by rewrite Nat2Z.id].
        rewrite Builtins_range_down_lookup.
        rewrite bool_decide_eq_true_2 by lia. f_equal. lia.
      * intros Hr. congruence.
  - (* cursor right *)
    assert (Hright : _command_map key' = Some "cursor right").
    { destruct (decide (_command_map key' = Some "cursor right")) as [? | Hnr]; [done |].
      exfalso. apply Hcmd. list_mem; tauto. }
    destruct (Columns_move_focus_spec self3 key'
                (Builtins.range (Z.of_nat i + 1) (Z.of_nat (length cs))))
      as [Hmove | [Hnone Hm]].
    { intros j Hj. apply Builtins_range_elem in Hj. rewrite Hc3. fold cs. lia. }
    + destruct Hmove as (n & j & item & self4 & Hn & Hj & Hsel & Hbefore & Hm & Hit & Hf).
      rewrite Hm in Hkp. simplify_eq. rewrite Hc3 in *. fold cs in Hj, Hbefore, Hit.
      rewrite Builtins_range_lookup in Hn.
      destruct (bool_decide_reflect (Z.of_nat i + 1 + Z.of_nat n < Z.of_nat (length cs)))
        as [Hlt | ?]; [| done].
      simplify_eq. rewrite Hit, Hf. split; [done |]. right.
      split; [done |]. split; [lia |]. split; [by exists item |].
      intros k Hk other Hother.
      apply (Hbefore (k - i - 1)%nat (Z.of_nat k) other); [lia | | by rewrite Nat2Z.id].
      rewrite Builtins_range_lookup.
      rewrite bool_decide_eq_true_2 by lia. f_equal. lia.
    + rewrite Hm in Hkp. simplify_eq. rewrite Hc3 in *. fold cs in Hnone.
      split; [done |]. left. split; [done |]. split.
      * intros Hr. congruence.
      * intros _ k Hk other Hother.
        apply (Hnone (k - i - 1)%nat (Z.of_nat k) other); [| by rewrite Nat2Z.id].
        rewrite Builtins_range_lookup.
        apply lookup_lt_Some in Hother.
        rewrite bool_decide_eq_true_2 by lia. f_equal. lia.
Qed.

End ColumnsKeypress.

Lemma Columns_keypress_navigation_witness :
  exists (r : option string) (self' : Columns.t),
    @Columns.keypress Samples.toolkit Samples.two_columns (10, Some 5) "right" = Ok (r, self') /\
    MonitoredFocusList.items (Columns.contents self')
      = MonitoredFocusList.items (Columns.contents Samples.two_columns).
Proof.
  eexists _, _. split; [reflexivity |].
  eapply (@Columns_keypress_navigation Samples.toolkit Samples.two_columns _ _ (10, Some 5)
            "right" [3; 6]); [reflexivity | cbn; lia | cbn; lia | reflexivity].
Defined.

(** ** Positions of the list containers *)

Lemma Builtins_range_elem_iff (start stop j : Z) :
  j ∈ Builtins.range start stop <-> start <= j < stop.
Proof.
  split; [apply Builtins_range_elem |]. intros Hj.
  apply list_elem_of_lookup. exists (Z.to_nat (j - start)).
  rewrite Builtins_range_lookup. rewrite bool_decide_eq_true_2 by lia. f_equal. lia.
Qed.

Lemma Builtins_range_down_reverse (n : Z) :
  Builtins.range_down (n - 1) (-1) = reverse (Builtins.range 0 n).
Proof.
  apply list_eq. intros k.
  rewrite Builtins_range_down_lookup.
  destruct (bool_decide_reflect (-1 < n - 1 - Z.of_nat k)) as [Hlt | Hge].
  - rewrite reverse_lookup.
    + rewrite Builtins_range_lookup. unfold Builtins.range. rewrite length_fmap, length_seq.
      rewrite bool_decide_eq_true_2 by lia. f_equal. lia.
    + unfold Builtins.range. rewrite length_fmap, length_seq. lia.
  - symmetry. apply lookup_ge_None. rewrite length_reverse.
    unfold Builtins.range. rewrite length_fmap, length_seq. lia.
Qed.

Lemma MonitoredFocusList_set_focus_ok {A : Type} (l : MonitoredFocusList.t A) (p : Z) :
  0 <= p < Z.of_nat (length (MonitoredFocusList.items l)) ->
  MonitoredFocusList.set_focus l p
  = Ok (MonitoredFocusList.mk (MonitoredFocusList.items l) (Z.to_nat p)).
Proof.
  intros Hp. unfold MonitoredFocusList.set_focus.
  destruct (MonitoredFocusList.items l) eqn:Hl; [cbn in Hp; lia |].
  rewrite !bool_decide_eq_false_2 by lia. done.
Qed.

(** X13.  The positions of a Pile, a Columns and a GridFlow.  Last to
    first is the reverse of first to last, and there are [len] of
    them.  The positions the container enumerates are exactly the ones
    its [focus_position] accepts: setting one of them succeeds, keeps
    the contents and is read back by [focus_position]; setting any
    other integer raises [IndexError]. *)
Theorem list_container_positions :
  (forall (A : Type) (contents : MonitoredFocusList.t A),
     WidgetContainerListContentsMixin.__reversed__ contents
       = reverse (WidgetContainerListContentsMixin.__iter__ contents) /\
     Z.of_nat (length (WidgetContainerListContentsMixin.__iter__ contents))
       = WidgetContainerListContentsMixin.__len__ contents) /\
  (forall (self : Pile.t) (p : Z),
     (p ∈ WidgetContainerListContentsMixin.__iter__ (Pile.contents self) ->
      exists self' : Pile.t,
        Pile.set_focus_position self p = Ok self' /\
        Pile.focus_position self' = Ok (Z.to_nat p) /\
        MonitoredFocusList.items (Pile.contents self')
          = MonitoredFocusList.items (Pile.contents self)) /\
     (p ∉ WidgetContainerListContentsMixin.__iter__ (Pile.contents self) ->
      Pile.set_focus_position self p = Raise IndexError)) /\
  (forall (self : Columns.t) (p : Z),
     (p ∈ WidgetContainerListContentsMixin.__iter__ (Columns.contents self) ->
      exists self' : Columns.t,
        Columns.set_focus_position self p = Ok self' /\
        Columns.focus_position self' = Ok (Z.to_nat p) /\
        MonitoredFocusList.items (Columns.contents self')
          = MonitoredFocusList.items (Columns.contents self)) /\
     (p ∉ WidgetContainerListContentsMixin.__iter__ (Columns.contents self) ->
      Columns.set_focus_position self p = Raise IndexError)) /\
  (forall (self : GridFlow.t) (p : Z),
     (p ∈ WidgetContainerListContentsMixin.__iter__ (GridFlow.contents self) ->
      exists self' : GridFlow.t,
        GridFlow.set_focus_position self p = Ok self' /\
        GridFlow.focus_position self' = Ok (Z.to_nat p) /\
        MonitoredFocusList.items (GridFlow.contents self')
          = MonitoredFocusList.items (GridFlow.contents self)) /\
     (p ∉ WidgetContainerListContentsMixin.__iter__ (GridFlow.contents self) ->
      GridFlow.set_focus_position self p = Raise IndexError)).
Proof.
  unfold WidgetContainerListContentsMixin.__iter__,
    WidgetContainerListContentsMixin.__reversed__,
    WidgetContainerListContentsMixin.__len__.
  split; [| split; [| split]].
  - intros A contents. split; [apply Builtins_range_down_reverse |].
    unfold Builtins.range. rewrite length_fmap, length_seq. lia.
  - intros self p. rewrite Builtins_range_elem_iff. split; intros Hp.
    + unfold Pile.set_focus_position. rewrite !bool_decide_eq_false_2 by lia. cbn [orb].
      rewrite MonitoredFocusList_set_focus_ok by lia. cbn.
      eexists. split; [reflexivity |]. split; [| done].
      unfold Pile.focus_position, MonitoredFocusList.focus. cbn.
      destruct (MonitoredFocusList.items (Pile.contents self)); [cbn in Hp; lia | done].
    + unfold Pile.set_focus_position.
      destruct (bool_decide_reflect (p < 0)); [done |].
      rewrite bool_decide_eq_true_2 by lia. done.
  - intros self p. rewrite Builtins_range_elem_iff. split; intros Hp.
    + unfold Columns.set_focus_position. rewrite !bool_decide_eq_false_2 by lia. cbn [orb].
      rewrite MonitoredFocusList_set_focus_ok by lia. cbn.
      assert (Hfp : forall c : Columns.t,
                Columns.contents c
                  = MonitoredFocusList.mk (MonitoredFocusList.items (Columns.contents self))
                      (Z.to_nat p) ->
                Columns.focus_position c = Ok (Z.to_nat p)).
      { intros c Hc. unfold Columns.focus_position. rewrite Hc. cbn.
        destruct (MonitoredFocusList.items (Columns.contents self)); [cbn in Hp; lia | done]. }
      destruct (bool_decide _); eexists; (split; [reflexivity |]);
        (split; [by apply Hfp | done]).
    + unfold Columns.set_focus_position.
      destruct (bool_decide_reflect (p < 0)); [done |].
      rewrite bool_decide_eq_true_2 by lia. done.
  - intros self p. rewrite Builtins_range_elem_iff. split; intros Hp.
    + unfold GridFlow.set_focus_position. rewrite !bool_decide_eq_false_2 by lia. cbn [orb].
      rewrite MonitoredFocusList_set_focus_ok by lia. cbn.
      assert (Hfp : forall c : GridFlow.t,
                GridFlow.contents c
                  = MonitoredFocusList.mk (MonitoredFocusList.items (GridFlow.contents self))
                      (Z.to_nat p) ->
                GridFlow.focus_position c = Ok (Z.to_nat p)).
      { intros c Hc. unfold GridFlow.focus_position, MonitoredFocusList.focus. rewrite Hc. cbn.
        destruct (MonitoredFocusList.items (GridFlow.contents self)); [cbn in Hp; lia | done]. }
      destruct (bool_decide _); eexists; (split; [reflexivity |]);
        (split; [by apply Hfp | done]).
    + unfold GridFlow.set_focus_position.
      destruct (bool_decide_reflect (p < 0)); [done |].
      rewrite bool_decide_eq_true_2 by lia. done.
Qed.

Lemma list_container_positions_witness :
  exists self' : Pile.t,
    Pile.set_focus_position (Samples.pile_of [(WEIGHT, 1); (GIVEN, 2)]) 1 = Ok self' /\
    Pile.focus_position self' = Ok 1%nat.
Proof.
  destruct list_container_positions as (_ & Hpile & _).
  destruct (Hpile (Samples.pile_of [(WEIGHT, 1); (GIVEN, 2)]) 1) as [Hin _].
  destruct Hin as (self' & Hset & Hfp & _); [by vm_compute; right; left |].
  by exists self'.
Defined.

(** ** GridFlow: construction and focus *)

Lemma sumZ_const (cw : Z) (r : GridFlowLayout.row) :
  Forall (fun cell : Widget * Z => cell.2 = cw) r ->
  sumZ (map snd r) = cw * Z.of_nat (length r).
Proof. induction 1 as [| cell r Hc _ IH]; cbn [map sumZ length]; [lia |]. rewrite IH, Hc. lia. Qed.

(** Cells of one width that fit side by side stay on one row. *)
Lemma GridFlow_wrap_rows_fit (maxcol h_sep cw : Z) (cells : list (Widget * Z)) :
  0 <= cw -> 0 <= h_sep ->
  forall cur : GridFlowLayout.row,
    Forall (fun cell : Widget * Z => cell.2 = cw) cur ->
    Forall (fun cell : Widget * Z => cell.2 = cw) cells ->
    (h_sep + cw) * Z.of_nat (length cur + length cells) <= maxcol ->
    GridFlowLayout.wrap_rows maxcol h_sep cur cells = [cur ++ cells].
Proof.
  intros Hcw Hh. induction cells as [| cell cells IH]; intros cur Hcur Hcells Hfit.
  - cbn. by rewrite app_nil_r.
  - apply Forall_cons in Hcells as [Hc Hcells].
    cbn [GridFlowLayout.wrap_rows]. unfold GridFlowLayout.row_used.
    rewrite (sumZ_const cw cur Hcur), Hc.
    cbn [length] in Hfit.
    rewrite bool_decide_eq_false_2 by nia.
    rewrite IH; [by rewrite <- app_assoc | | done |].
    + apply Forall_app. split; [done |]. by constructor.
    + rewrite length_app. cbn [length].
      replace (length cur + 1 + length cells)%nat
        with (length cur + S (length cells))%nat by lia. done.
Qed.

(** X14.  A new GridFlow shows its cells on one row.  With
    [cell_width >= 0] and [h_sep >= 0], [GridFlow(cells, ...)] of at
    least one cell succeeds: its contents are the cells in order as
    ['given'] entries of [cell_width], the focus is on the first cell,
    and the display widget it builds, for the width
    [(h_sep + cell_width) * len(cells)], is a single row holding every
    cell, with no divider.  Without cells the display widget is a
    divider of one row.  The cache key is that width when the setter
    of [_w] stores only, and [None] when the setter invalidates: the
    key is written before the display widget is assigned. *)
Theorem GridFlow_init_single_row (invalidating : bool) (cells : list Widget)
    (cell_width h_sep v_sep : Z) (align : options_value) :
  0 <= cell_width -> 0 <= h_sep ->
  exists self : GridFlow.t,
    GridFlow.__init__ invalidating cells cell_width h_sep v_sep align = Ok self /\
    MonitoredFocusList.items (GridFlow.contents self)
      = map (fun w : Widget => (w, (GIVEN, cell_width))) cells /\
    GridFlow._cache_maxcol self
      = (if invalidating then None
         else Some ((h_sep + cell_width) * Z.of_nat (length cells))) /\
    (cells <> [] -> GridFlow.focus_position self = Ok 0%nat) /\
    GridFlowLayout.layout (GridFlow._w self)
      = match cells with
        | [] => [inl 1]
        | _ => [inr (map (fun w : Widget => (w, cell_width)) cells)]
        end.
Proof.
  intros Hcw Hh. unfold GridFlow.__init__. cbn [GridFlow.contents MonitoredFocusList.items].
  rewrite length_map.
  set (maxcol := (h_sep + cell_width) * Z.of_nat (length cells)).
  unfold GridFlow.get_display_widget.
  cbn [GridFlow._cache_maxcol GridFlow.contents GridFlow._cell_width GridFlow.h_sep
       GridFlow.v_sep GridFlow.g_align GridFlow._w].
  rewrite bool_decide_eq_false_2 by done.
  set (self0 := GridFlow.mk _ cell_width h_sep v_sep align (Some maxcol) _).
  destruct cells as [| w cells].
  - cbn. eexists. split; [reflexivity |]. by destruct invalidating.
  - destruct (GridFlow_generate_spec self0 maxcol ltac:(done)) as (p & Hgen & Hlay).
    rewrite Hgen. cbn [mbind result_bind]. eexists. split; [reflexivity |].
    assert (GridFlow._set_w invalidating self0 (GridFlow.WPile p)
            = GridFlow.mk (GridFlow.contents self0) cell_width h_sep v_sep align
                (if invalidating then None else Some maxcol) (GridFlow.WPile p))
      as ->.
    { by destruct invalidating. }
    cbn [GridFlow.contents MonitoredFocusList.items GridFlow._cache_maxcol GridFlow._w
         GridFlowLayout.layout self0].
    split; [done |]. split; [done |]. split; [done |].
    rewrite Hlay. cbn [GridFlow.contents GridFlow.h_sep GridFlow.v_sep self0
                       MonitoredFocusList.items].
    set (rows := GridFlowLayout.wrapped _ _ _).
    assert (Hrows : rows = [map (fun w : Widget => (w, cell_width)) (w :: cells)]).
    { subst rows. cbn [map GridFlowLayout.wrapped].
      rewrite (GridFlow_wrap_rows_fit maxcol h_sep cell_width); try done.
      - cbn [app]. do 2 f_equal. clear. induction cells as [| c cells IH]; [done |].
        cbn. by rewrite IH.
      - by repeat constructor.
      - clear. induction cells as [| c cells IH]; constructor; done.
      - rewrite !length_map. subst maxcol. cbn [length]. lia. }
    rewrite Hrows. cbn [GridFlowLayout.preceded].
    destruct (bool_decide (v_sep <> 0)); done.
Qed.

Lemma GridFlow_init_single_row_witness :
  exists self : GridFlow.t,
    GridFlow.__init__ true
      [Samples.leaf 0 true; Samples.leaf 1 true; Samples.leaf 2 false]
      4 1 2 (OAtom (AStr "left")) = Ok self /\
    GridFlow._cache_maxcol self = None /\
    GridFlowLayout.layout (GridFlow._w self)
      = [inr [(Samples.leaf 0 true, 4); (Samples.leaf 1 true, 4);
              (Samples.leaf 2 false, 4)]].
Proof.
  destruct (GridFlow_init_single_row true
              [Samples.leaf 0 true; Samples.leaf 1 true; Samples.leaf 2 false]
              4 1 2 (OAtom (AStr "left")) ltac:(lia) ltac:(lia))
    as (self & Hinit & _ & Hkey & _ & Hlay).
  by exists self.
Defined.

(** ** GridFlow: the focus of the display widget *)

Lemma MonitoredFocusList_append_inv {A : Type} (validate : list A -> result unit)
    (l l' : MonitoredFocusList.t A) (x : A) :
  MonitoredFocusList.append validate l x = Ok l' ->
  MonitoredFocusList.items l' = MonitoredFocusList.items l ++ [x] /\
  ((MonitoredFocusList._focus l < length (MonitoredFocusList.items l))%nat ->
   MonitoredFocusList._focus l' = MonitoredFocusList._focus l) /\
  (MonitoredFocusList.items l = [] -> MonitoredFocusList._focus l' = 0%nat).
Proof.
  unfold MonitoredFocusList.append. destruct (validate [x]); [| done]. cbn.
  intros Heq. simplify_eq. cbn. split; [done |]. split.
  - intros Hlt. rewrite bool_decide_eq_false_2 by lia. lia.
  - intros ->. cbn. lia.
Qed.

Lemma GridFlow_pile_append_inv (p p' : GridFlow.DisplayPile)
    (x : GridFlow.child * (sizing * Z)) :
  GridFlow.pile_append p x = Ok p' ->
  MonitoredFocusList.items (GridFlow.p_contents p')
    = MonitoredFocusList.items (GridFlow.p_contents p) ++ [x] /\
  ((MonitoredFocusList._focus (GridFlow.p_contents p)
    < length (MonitoredFocusList.items (GridFlow.p_contents p)))%nat ->
   MonitoredFocusList._focus (GridFlow.p_contents p')
   = MonitoredFocusList._focus (GridFlow.p_contents p)).
Proof.
  unfold GridFlow.pile_append.
  destruct (MonitoredFocusList.append _ _ _) as [l |] eqn:Hl; [| done].
  cbn. intros Heq. simplify_eq. cbn.
  destruct (MonitoredFocusList_append_inv _ _ _ _ Hl) as (H1 & H2 & _). done.
Qed.

Lemma Columns_append_inv (c c' : Columns.t) (x : Columns.entry) :
  Columns.append c x = Ok c' ->
  MonitoredFocusList.items (Columns.contents c')
    = MonitoredFocusList.items (Columns.contents c) ++ [x] /\
  ((MonitoredFocusList._focus (Columns.contents c)
    < length (MonitoredFocusList.items (Columns.contents c)))%nat ->
   MonitoredFocusList._focus (Columns.contents c')
   = MonitoredFocusList._focus (Columns.contents c)) /\
  (MonitoredFocusList.items (Columns.contents c) = [] ->
   MonitoredFocusList._focus (Columns.contents c') = 0%nat).
Proof.
  unfold Columns.append.
  destruct (MonitoredFocusList.append _ _ _) as [l |] eqn:Hl; [| done].
  cbn. intros Heq. simplify_eq. cbn.
  exact (MonitoredFocusList_append_inv _ _ _ _ Hl).
Qed.

Lemma MonitoredFocusList_set_focus_inv {A : Type} (l l' : MonitoredFocusList.t A) (pos : Z) :
  MonitoredFocusList.set_focus l pos = Ok l' ->
  MonitoredFocusList.items l <> [] ->
  MonitoredFocusList.items l' = MonitoredFocusList.items l /\
  MonitoredFocusList._focus l' = Z.to_nat pos.
Proof.
  unfold MonitoredFocusList.set_focus. intros Hs Hne.
  destruct (MonitoredFocusList.items l) as [| x xs] eqn:Hl; [done |].
  destruct (_ || _); [done |]. simplify_eq. done.
Qed.

Lemma Columns_set_focus_position_inv (c c' : Columns.t) (pos : Z) :
  Columns.set_focus_position c pos = Ok c' ->
  MonitoredFocusList.items (Columns.contents c) <> [] ->
  MonitoredFocusList.items (Columns.contents c')
    = MonitoredFocusList.items (Columns.contents c) /\
  MonitoredFocusList._focus (Columns.contents c') = Z.to_nat pos.
Proof.
  unfold Columns.set_focus_position. intros Hs Hne.
  destruct (_ || _); [done |].
  destruct (MonitoredFocusList.set_focus _ _) as [l |] eqn:Hl; [| done].
  apply MonitoredFocusList_set_focus_inv in Hl; [| done].
  cbn in Hs. destruct (bool_decide _); simplify_eq; cbn; done.
Qed.

Lemma GridFlow_pile_set_focus_position_inv (p p' : GridFlow.DisplayPile) (pos : Z) :
  GridFlow.pile_set_focus_position p pos = Ok p' ->
  MonitoredFocusList.items (GridFlow.p_contents p) <> [] ->
  MonitoredFocusList.items (GridFlow.p_contents p')
    = MonitoredFocusList.items (GridFlow.p_contents p) /\
  MonitoredFocusList._focus (GridFlow.p_contents p') = Z.to_nat pos.
Proof.
  unfold GridFlow.pile_set_focus_position. intros Hs Hne.
  destruct (_ || _); [done |].
  destruct (MonitoredFocusList.set_focus _ _) as [l |] eqn:Hl; [| done].
  apply MonitoredFocusList_set_focus_inv in Hl; [| done].
  cbn in Hs. simplify_eq. cbn. done.
Qed.

Section GridFlowFocusProof.

Variable self : GridFlow.t.
Variable divider : GridFlow.Divider.
Variable maxcol : Z.
Variable fp : nat.
Hypothesis Hfp : GridFlow.focus_position self = Ok fp.

Abbreviation pile_items p := (MonitoredFocusList.items (GridFlow.p_contents p)).
Abbreviation pile_at p := (MonitoredFocusList._focus (GridFlow.p_contents p)).
Abbreviation row_items pad :=
  (MonitoredFocusList.items (Columns.contents (GridFlow.c pad))).
Abbreviation row_at pad :=
  (MonitoredFocusList._focus (Columns.contents (GridFlow.c pad))).

(** Starting a row: the new padding is the last child; the children
    and the focus of the pile so far are kept. *)
Lemma GridFlow_new_row_inv (i : nat) (p p' : GridFlow.DisplayPile)
    (pad : GridFlow.Padding) (cf : bool) :
  GridFlow.new_row self divider i p = Ok (p', pad, cf) ->
  cf = false /\
  pad = GridFlow.mkPadding (Columns.__init__ (GridFlow.h_sep self)) None
          (GridFlow.g_align self) None i /\
  (exists o,
     pile_items p'
     = pile_items p
       ++ (if bool_decide (GridFlow.v_sep self <> 0)
           then [(GridFlow.Div divider, (WEIGHT, 1))] else [])
       ++ [(GridFlow.Pad pad, o)]) /\
  ((pile_at p < length (pile_items p))%nat -> pile_at p' = pile_at p).
Proof.
  unfold GridFlow.new_row. intros Hnr.
  destruct (bool_decide (GridFlow.v_sep self <> 0)).
  - destruct (GridFlow.pile_append p _) as [p1 |] eqn:Hp1; [| done].
    cbn [mbind result_bind] in Hnr.
    destruct (GridFlow.pile_append p1 _) as [p2 |] eqn:Hp2; [| done].
    cbn in Hnr. simplify_eq.
    destruct (GridFlow_pile_append_inv _ _ _ Hp1) as [Hi1 Hf1].
    destruct (GridFlow_pile_append_inv _ _ _ Hp2) as [Hi2 Hf2].
    split; [done |]. split; [done |]. split.
    + eexists. rewrite Hi2, Hi1. by rewrite <- app_assoc.
    + intros Hlt. rewrite Hf2, Hf1; [done | done |].
      rewrite Hf1 by done. rewrite Hi1, length_app. lia.
  - cbn [mbind result_bind] in Hnr.
    destruct (GridFlow.pile_append p _) as [p2 |] eqn:Hp2; [| done].
    cbn in Hnr. simplify_eq.
    destruct (GridFlow_pile_append_inv _ _ _ Hp2) as [Hi2 Hf2].
    split; [done |]. split; [done |]. split; [| done].
    eexists. by rewrite Hi2.
Qed.

Lemma GridFlow_store_row_inv (p : GridFlow.DisplayPile) (pad : GridFlow.Padding) :
  pile_items p <> [] ->
  (exists o, last (pile_items (GridFlow.store_row p pad)) = Some (GridFlow.Pad pad, o)) /\
  length (pile_items (GridFlow.store_row p pad)) = length (pile_items p) /\
  pile_at (GridFlow.store_row p pad) = pile_at p /\
  (forall k x, pile_items p !! k = Some x -> S k <> length (pile_items p) ->
     pile_items (GridFlow.store_row p pad) !! k = Some x).
Proof.
  intros Hne. unfold GridFlow.store_row. cbn.
  assert (0 < length (pile_items p))%nat as Hlen.
  { destruct (pile_items p); [done | cbn; lia]. }
  split; [| split; [| split]].
  - eexists. rewrite last_lookup, length_insert.
    apply list_lookup_insert_eq. lia.
  - by rewrite length_insert.
  - done.
  - intros k x Hk Hnk. rewrite list_lookup_insert_ne by lia. done.
Qed.

(** The cell joins the row: the row stays the last child, and the
    focus stays on, or moves to, the cell in focus. *)
Lemma GridFlow_fill_inv (i : nat) (item : GridFlow.entry) (p : GridFlow.DisplayPile)
    (pad : GridFlow.Padding) (cf : bool) (st' : GridFlow.gen) :
  GridFlow.fill self maxcol i item p pad cf = Ok st' ->
  MonitoredFocusList.items (GridFlow.contents self) !! i = Some item ->
  item.2.2 <= maxcol ->
  GridFlowFocus.current p pad i ->
  ((fp < i)%nat ->
   GridFlowFocus.focused self fp p /\
   (S (pile_at p) = length (pile_items p) -> cf = true)) ->
  exists pad',
    GridFlow.gen_pad st' = Some pad' /\
    GridFlowFocus.current (GridFlow.gen_p st') pad' (S i) /\
    length (pile_items (GridFlow.gen_p st')) = length (pile_items p) /\
    (forall k x, pile_items p !! k = Some x -> S k <> length (pile_items p) ->
       pile_items (GridFlow.gen_p st') !! k = Some x) /\
    ((fp < S i)%nat ->
     GridFlowFocus.focused self fp (GridFlow.gen_p st') /\
     (S (pile_at (GridFlow.gen_p st')) = length (pile_items (GridFlow.gen_p st')) ->
      GridFlow.gen_column_focused st' = true)).
Proof.
  intros Hfill Hitem Hfit Hcur Hfocus. destruct Hcur as ([o Hlast] & Horig & Hfirst & Hrow).
  destruct item as (w, (wt, wa)). cbn [snd] in Hfit.
  unfold GridFlow.fill in Hfill.
  destruct (Columns.append _ _) as [c1 |] eqn:Hc1; [| done].
  apply Columns_append_inv in Hc1 as (Hi1 & Hf1 & Hf1').
  cbn [mbind result_bind] in Hfill. rewrite Hfp in Hfill.
  cbn [mbind result_bind] in Hfill.
  assert (pile_items p <> []) as Hne by (intros Hnil; by rewrite Hnil in Hlast).
  assert (MonitoredFocusList.items (Columns.contents c1) <> []) as Hne1.
  { rewrite Hi1. by destruct (row_items pad). }
  assert (exists c2 cf' p2,
    st' = GridFlow.mkGen
            (GridFlow.store_row p2
               (GridFlow.mkPadding c2 None (GridFlow.align pad)
                  (Some (GridFlow.used (GridFlow.h_sep self) c2 - GridFlow.h_sep self))
                  (GridFlow.first_position pad)))
            (Some (GridFlow.mkPadding c2 None (GridFlow.align pad)
                  (Some (GridFlow.used (GridFlow.h_sep self) c2 - GridFlow.h_sep self))
                  (GridFlow.first_position pad)))
            cf' (GridFlow.used (GridFlow.h_sep self) c2) /\
    MonitoredFocusList.items (Columns.contents c2)
      = row_items pad ++ [(w, Columns.options GIVEN wa false)] /\
    pile_items p2 = pile_items p /\
    (MonitoredFocusList._focus (Columns.contents c2)
     < length (row_items pad ++ [(w, Columns.options GIVEN wa false)]))%nat /\
    (i = fp ->
     MonitoredFocusList._focus (Columns.contents c2) = length (row_items pad) /\
     S (pile_at p2) = length (pile_items p) /\ cf' = true) /\
    (i <> fp ->
     p2 = p /\
     (cf = true ->
      MonitoredFocusList._focus (Columns.contents c2)
      = MonitoredFocusList._focus (Columns.contents c1) /\ cf' = true)))
    as (c2 & cf' & p2 & -> & Hi2 & Hp2 & Hlt2 & Heq & Hneq).
  { rewrite (bool_decide_eq_false_2 (wa > maxcol)), Horig in Hfill by lia.
    destruct (decide (i = fp)) as [-> | Hnfp].
    - rewrite !bool_decide_eq_true_2 in Hfill by done. cbn [orb] in Hfill.
      destruct (Columns.set_focus_position c1 _) as [c2 |] eqn:Hc2; [| done].
      apply Columns_set_focus_position_inv in Hc2 as [Hi2 Hf2]; [| done].
      cbn [mbind result_bind] in Hfill.
      destruct (GridFlow.pile_set_focus_position p _) as [p2 |] eqn:Hp2; [| done].
      apply GridFlow_pile_set_focus_position_inv in Hp2 as [Hip2 Hfp2]; [| done].
      cbn [mbind result_bind] in Hfill. injection Hfill as <-.
      assert (0 < length (pile_items p))%nat
        by (destruct (pile_items p); [done | cbn; lia]).
      exists c2, true, p2. rewrite Hi2, Hf2, Hfp2, Hi1, !length_app. cbn [length].
      repeat split; try done; try lia.
    - rewrite !(bool_decide_eq_false_2 (i = fp)) in Hfill by done. cbn [orb] in Hfill.
      destruct cf; cbn [negb andb] in Hfill.
      + cbn [mbind result_bind] in Hfill. injection Hfill as <-.
        exists c1, true, p. rewrite Hi1, !length_app. cbn [length].
        repeat split; try done.
        destruct Hrow as [Hlt | [Hnil H0]].
        * rewrite Hf1 by done. lia.
        * rewrite Hf1' by done. lia.
      + destruct (w_selectable w).
        * destruct (Columns.set_focus_position c1 _) as [c2 |] eqn:Hc2; [| done].
          apply Columns_set_focus_position_inv in Hc2 as [Hi2 Hf2]; [| done].
          cbn [mbind result_bind] in Hfill. injection Hfill as <-.
          exists c2, true, p. rewrite Hi2, Hf2, Hi1, !length_app. cbn [length].
          repeat split; try done; lia.
        * cbn [mbind result_bind] in Hfill. injection Hfill as <-.
          exists c1, false, p. rewrite Hi1, !length_app. cbn [length].
          repeat split; try done.
          destruct Hrow as [Hlt | [Hnil H0]].
          -- rewrite Hf1 by done. lia.
          -- rewrite Hf1' by done. lia. }
  clear Hfill.
  set (pad' := GridFlow.mkPadding c2 None (GridFlow.align pad) _ _).
  destruct (GridFlow_store_row_inv p2 pad') as (Hlast' & Hlen' & Hat' & Hframe').
  { by rewrite Hp2. }
  rewrite Hp2 in Hlen', Hframe'.
  exists pad'. cbn [GridFlow.gen_pad GridFlow.gen_p GridFlow.gen_column_focused].
  split; [done |]. split; [| split; [done | split; [done |]]].
  { split; [done |]. split; [done |]. cbn. rewrite Hi2, length_app. cbn [length].
    split; [lia |]. left. by rewrite length_app in Hlt2. }
  intros Hlt. rewrite Hlen', Hat'.
  destruct (decide (i = fp)) as [-> | Hnfp].
  - destruct (Heq eq_refl) as (Hf2 & Hat2 & ->). split; [| done].
    destruct Hlast' as [o' Hlast']. exists pad', o'. cbn zeta.
    rewrite Hat'. split.
    + rewrite last_lookup, Hlen' in Hlast'. rewrite <- Hat2 in Hlast'. done.
    + split; [done |]. cbn. rewrite Hf2, Hi2. split; [lia |].
      rewrite list_lookup_middle by done. symmetry. exact (f_equal (fmap fst) Hitem).
  - destruct (Hneq Hnfp) as [-> Hcf].
    destruct Hfocus as [(padf & o1 & Hpf & Horigf & Hfirstf & Hcellf) Hlastf]; [lia |].
    cbn zeta in *.
    destruct (decide (S (pile_at p) = length (pile_items p))) as [Hl | Hl].
    + destruct (Hcf (Hlastf Hl)) as [Hf2 ->]. split; [| done].
      destruct Hlast' as [o' Hlast']. exists pad', o'. cbn zeta.
      rewrite Hat'.
      rewrite last_lookup in Hlast, Hlast'. rewrite Hlen' in Hlast'.
      rewrite <- Hl in Hlast, Hlast'. cbn [pred] in Hlast, Hlast'.
      rewrite Hlast in Hpf. injection Hpf as <- <-.
      assert (is_Some (MonitoredFocusList.items (GridFlow.contents self) !! fp)) as [x Hx].
      { apply lookup_lt_is_Some. apply lookup_lt_Some in Hitem. lia. }
      unfold GridFlow.entry, Columns.entry in *. rewrite Hx in Hcellf.
      destruct Hrow as [Hrow | [Hnil _]]; [| by rewrite Hnil in Hcellf].
      split; [done |]. split; [done |]. cbn. rewrite Hf2, Hf1 by done.
      split; [done |]. rewrite Hi2, lookup_app_l by done. by rewrite Hcellf, Hx.
    + split; [| intros Hl'; by rewrite Hl' in Hl].
      exists padf, o1. cbn zeta. rewrite Hat'. split; [| done].
      apply Hframe'; done.
Qed.

Lemma GridFlow_new_row_tracks (i : nat) (p p' : GridFlow.DisplayPile)
    (pad : GridFlow.Padding) (cf : bool) :
  GridFlow.new_row self divider i p = Ok (p', pad, cf) ->
  ((fp < i)%nat -> GridFlowFocus.focused self fp p) ->
  (pile_items p <> [] -> GridFlow.v_sep self <> 0 ->
   exists d o, pile_items p !! 0%nat = Some (GridFlow.Div d, o)) ->
  GridFlowFocus.current p' pad i /\
  ((fp < i)%nat ->
   GridFlowFocus.focused self fp p' /\
   (S (pile_at p') = length (pile_items p') -> cf = true)) /\
  (GridFlow.v_sep self <> 0 ->
   exists d o, pile_items p' !! 0%nat = Some (GridFlow.Div d, o)).
Proof.
  intros Hnr Hfocus Hdiv.
  apply GridFlow_new_row_inv in Hnr as (-> & Hpad & [o Hitems] & Hat).
  split; [| split].
  - split.
    + exists o. rewrite Hitems, app_assoc. apply last_snoc.
    + subst pad. cbn. repeat split; [lia | by right].
  - intros Hlt. destruct (Hfocus Hlt) as (padf & o1 & Hpf & Hrest). cbn zeta in *.
    pose proof (lookup_lt_Some _ _ _ Hpf) as Hlen.
    rewrite <- (Hat Hlen) in Hpf. split.
    + exists padf, o1. cbn zeta. split; [| done].
      rewrite Hitems. by apply lookup_app_l_Some.
    + rewrite Hitems, !length_app. cbn [length]. rewrite (Hat Hlen). lia.
  - intros Hv. rewrite Hitems.
    destruct (pile_items p) as [| x xs] eqn:Hp.
    + rewrite bool_decide_eq_true_2 by done. cbn. eauto.
    + destruct Hdiv as (d & o' & Hd); [done | done |].
      exists d, o'. cbn in Hd |- *. done.
Qed.

(** One turn of the loop keeps the focus tracked. *)
Lemma GridFlow_place_tracks (st st' : GridFlow.gen) (i : nat) (item : GridFlow.entry) :
  GridFlow.place self divider maxcol st i item = Ok st' ->
  MonitoredFocusList.items (GridFlow.contents self) !! i = Some item ->
  item.2.2 <= maxcol ->
  GridFlowFocus.tracks self fp st i ->
  GridFlowFocus.tracks self fp st' (S i).
Proof.
  intros Hplace Hitem Hfit Htr. unfold GridFlow.place in Hplace.
  destruct (match GridFlow.gen_pad st with None => _ | Some _ => _ end)
    as [[[p pad] cf] |] eqn:Hrow; [| done].
  cbn [mbind result_bind] in Hplace.
  assert (GridFlowFocus.current p pad i /\
          ((fp < i)%nat ->
           GridFlowFocus.focused self fp p /\
           (S (pile_at p) = length (pile_items p) -> cf = true)) /\
          (GridFlow.v_sep self <> 0 ->
           exists d o, pile_items p !! 0%nat = Some (GridFlow.Div d, o)))
    as (Hcur & Hfocus & Hdiv).
  { unfold GridFlowFocus.tracks in Htr. cbn zeta in Htr.
    destruct (GridFlow.gen_pad st) as [pad0 |].
    - destruct Htr as (Hcur & Hdiv & Hfocus).
      destruct (bool_decide _).
      + apply (GridFlow_new_row_tracks _ _ _ _ _ Hrow).
        * intros Hlt. by destruct (Hfocus Hlt).
        * intros _. done.
      + injection Hrow as <- <- <-. done.
    - destruct Htr as [-> Hnil].
      apply (GridFlow_new_row_tracks _ _ _ _ _ Hrow).
      + lia.
      + intros Hne. done. }
  destruct (GridFlow_fill_inv _ _ _ _ _ _ Hplace Hitem Hfit Hcur Hfocus)
    as (pad' & Hpad' & Hcur' & Hlen' & Hframe' & Hfocus').
  unfold GridFlowFocus.tracks. cbn zeta. rewrite Hpad'.
  split; [done |]. split; [| done].
  intros Hv. destruct (Hdiv Hv) as (d & o & Hd). exists d, o.
  apply Hframe'; [done |].
  destruct Hcur as ([o' Hlast] & _). rewrite last_lookup in Hlast.
  intros Hl. rewrite <- Hl in Hlast. cbn in Hlast. by rewrite Hd in Hlast.
Qed.

(** The loop over the cells from [i] on keeps the focus tracked. *)
Lemma GridFlow_place_all_tracks (items : list GridFlow.entry) :
  forall (st st' : GridFlow.gen) (i : nat),
    GridFlow.place_all self divider maxcol st i items = Ok st' ->
    (forall k item, items !! k = Some item ->
       MonitoredFocusList.items (GridFlow.contents self) !! (i + k)%nat = Some item) ->
    Forall (fun item : GridFlow.entry => item.2.2 <= maxcol) items ->
    GridFlowFocus.tracks self fp st i ->
    GridFlowFocus.tracks self fp st' (i + length items).
Proof.
  induction items as [| item items IH]; intros st st' i Hall Hsub Hfit Htr.
  - cbn in Hall. injection Hall as <-. cbn [length]. by rewrite Nat.add_0_r.
  - cbn [GridFlow.place_all] in Hall.
    destruct (GridFlow.place _ _ _ _ _ _) as [st1 |] eqn:Hplace; [| done].
    cbn [mbind result_bind] in Hall.
    apply Forall_cons in Hfit as [Hfit1 Hfit].
    cbn [length]. rewrite Nat.add_succ_r, <- Nat.add_succ_l.
    apply (IH st1 st' (S i) Hall); [| done |].
    + intros k x Hk. specialize (Hsub (S k) x Hk).
      by rewrite Nat.add_succ_r in Hsub.
    + apply (GridFlow_place_tracks st st1 i item Hplace); [| done | done].
      specialize (Hsub 0%nat item eq_refl). by rewrite Nat.add_0_r in Hsub.
Qed.

End GridFlowFocusProof.

(** The display widget generated for a GridFlow whose cells all fit
    the width has its focus on the row of the cell in focus, and that
    row its focus on the cell. *)
Lemma GridFlow_generated_focus (self : GridFlow.t) (maxcol : Z) (fp : nat)
    (w : Widget) (o : sizing * Z) :
  MonitoredFocusList.items (GridFlow.contents self) !! fp = Some (w, o) ->
  MonitoredFocusList._focus (GridFlow.contents self) = fp ->
  Forall (fun item : GridFlow.entry => item.2.2 <= maxcol)
    (MonitoredFocusList.items (GridFlow.contents self)) ->
  exists p : GridFlow.DisplayPile,
    GridFlow.generate_display_widget self maxcol = Ok (GridFlow.WPile p) /\
    GridFlowFocus.focused self fp p.
Proof.
  intros Hw Hat Hfit.
  assert (MonitoredFocusList.items (GridFlow.contents self) <> []) as Hne.
  { intros Hnil. by rewrite Hnil in Hw. }
  assert (GridFlow.focus_position self = Ok fp) as Hfp.
  { unfold GridFlow.focus_position, MonitoredFocusList.focus.
    destruct (MonitoredFocusList.items (GridFlow.contents self)); [done |].
    by rewrite Hat. }
  destruct (GridFlow_generate_spec self maxcol Hne) as (p & Hgen & _).
  exists p. split; [done |].
  unfold GridFlow.generate_display_widget in Hgen.
  destruct (MonitoredFocusList.items (GridFlow.contents self)) as [| x xs] eqn:Hitems;
    [done |].
  rewrite <- Hitems in *.
  destruct (GridFlow.place_all _ _ _ _ _ _) as [st |] eqn:Hall; [| done].
  cbn [mbind result_bind] in Hgen.
  apply (GridFlow_place_all_tracks self _ maxcol fp Hfp) in Hall; [| done | done |].
  2: { unfold GridFlowFocus.tracks. cbn. done. }
  unfold GridFlowFocus.tracks in Hall. cbn zeta in Hall.
  pose proof (lookup_lt_Some _ _ _ Hw) as Hlt.
  unfold GridFlow.entry in *.
  destruct (GridFlow.gen_pad st) as [pad |]; [| cbn in Hall; lia].
  destruct Hall as (_ & Hdiv & Hfocus). cbn [Nat.add] in Hfocus.
  destruct (Hfocus Hlt) as [(padf & o1 & Hpf & Hrest) _]. cbn zeta in Hpf, Hrest.
  destruct (bool_decide_reflect (GridFlow.v_sep self <> 0)) as [Hv | Hv].
  - injection Hgen as <-. destruct (Hdiv Hv) as (d & o2 & Hd).
    exists padf, o1. cbn.
    pose proof (lookup_lt_Some _ _ _ Hpf) as Hlen.
    destruct (MonitoredFocusList._focus (GridFlow.p_contents (GridFlow.gen_p st)))
      as [| k] eqn:Hk; [by rewrite Hd in Hpf |].
    cbn [pred]. rewrite Nat.min_l by lia. rewrite lookup_drop. done.
  - injection Hgen as <-. exists padf, o1. cbn. done.
Qed.

(** X15.  The display widget a GridFlow builds agrees with its focus.
    Let every cell be at most [maxcol] wide, the cell in focus be a
    true value, and the cache not hold the display for [maxcol].  Then
    [get_display_widget] builds a pile and holds it as [_w], and
    [_set_focus_from_display_widget] reads the focus back from it
    without changing anything: the contents, the focus, the display
    widget and the cache key stay as they are.  So a mouse event that
    the display widget leaves unanswered and unchanged leaves the
    GridFlow as [get_display_widget] left it.  The cache key it left
    is [maxcol] when the setter of [_w] stores only, and [None] when
    the setter invalidates. *)
Theorem GridFlow_focus_round_trip (invalidating : bool) (self : GridFlow.t)
    (maxcol : Z) (w : Widget) (o : sizing * Z) :
  GridFlow._cache_maxcol self <> Some maxcol ->
  MonitoredFocusList.items (GridFlow.contents self)
    !! MonitoredFocusList._focus (GridFlow.contents self) = Some (w, o) ->
  truthy w = true ->
  Forall (fun item : GridFlow.entry => item.2.2 <= maxcol)
    (MonitoredFocusList.items (GridFlow.contents self)) ->
  exists (p : GridFlow.DisplayPile) (self1 : GridFlow.t),
    GridFlow.get_display_widget invalidating self maxcol
    = Ok (GridFlow.WPile p, self1) /\
    GridFlow.contents self1 = GridFlow.contents self /\
    GridFlow._cache_maxcol self1 = (if invalidating then None else Some maxcol) /\
    GridFlow._w self1 = GridFlow.WPile p /\
    GridFlow._set_focus_from_display_widget self1 = Ok self1 /\
    forall display_mouse_event event button col row focus handled,
      display_mouse_event (GridFlow.WPile p) maxcol event button col row focus
      = Ok (GridFlow.WPile p, handled) ->
      GridFlow.mouse_event invalidating display_mouse_event self maxcol event button
        col row focus
      = Ok (self1, true).
Proof.
  intros Hmiss Hw Htrue Hfit.
  unfold GridFlow.mouse_event, GridFlow.get_display_widget.
  rewrite bool_decide_eq_false_2 by done.
  set (self0 := GridFlow.mk _ _ _ _ _ (Some maxcol) (GridFlow._w self)).
  destruct (GridFlow_generated_focus self0 maxcol _ w o Hw eq_refl Hfit)
    as (p & Hgen & padf & o1 & Hpf & Horig & Hfirst & Hcell).
  cbn zeta in Hpf, Hfirst, Hcell. cbn [GridFlow.contents self0] in Hfirst, Hcell.
  cbn zeta. rewrite Hgen. cbn [mbind result_bind].
  assert (GridFlow._set_w invalidating self0 (GridFlow.WPile p)
          = GridFlow.mk (GridFlow.contents self) (GridFlow._cell_width self)
              (GridFlow.h_sep self) (GridFlow.v_sep self) (GridFlow.g_align self)
              (if invalidating then None else Some maxcol) (GridFlow.WPile p))
    as ->.
  { by destruct invalidating. }
  set (self1 := GridFlow.mk _ _ _ _ _ _ (GridFlow.WPile p)).
  assert (GridFlow._set_focus_from_display_widget self1 = Ok self1) as Hset.
  { unfold GridFlow._set_focus_from_display_widget. cbn [GridFlow._w self1].
    assert (MonitoredFocusList.focus (GridFlow.p_contents p)
            = Some (MonitoredFocusList._focus (GridFlow.p_contents p))) as Hfoc.
    { unfold MonitoredFocusList.focus.
      destruct (MonitoredFocusList.items (GridFlow.p_contents p)); [done | done]. }
    unfold GridFlow.pile_focus. rewrite Hfoc, Hpf.
    cbn [fmap option_fmap option_map fst]. rewrite Horig.
    unfold GridFlow.entry in *. rewrite Hw in Hcell.
    cbn [fmap option_fmap option_map fst] in Hcell.
    assert (MonitoredFocusList.focus (Columns.contents (GridFlow.c padf))
            = Some (MonitoredFocusList._focus (Columns.contents (GridFlow.c padf))))
      as Hfoc'.
    { unfold MonitoredFocusList.focus.
      destruct (MonitoredFocusList.items (Columns.contents (GridFlow.c padf)));
        [done | done]. }
    unfold Columns.focus. rewrite Hfoc', Hcell. cbn [truthy_opt]. rewrite Htrue.
    unfold Columns.focus_position.
    destruct (MonitoredFocusList.items (Columns.contents (GridFlow.c padf)))
      as [| y ys]; [done |].
    cbn [map fmap result_fmap mbind result_bind].
    rewrite <- Nat2Z.inj_add, Hfirst.
    pose proof (lookup_lt_Some _ _ _ Hw) as Hlt.
    unfold GridFlow.set_focus_position. cbn [GridFlow.contents self1].
    unfold GridFlow.entry in *.
    rewrite !bool_decide_eq_false_2 by lia. cbn [orb].
    rewrite MonitoredFocusList_set_focus_ok by lia.
    cbn [mbind result_bind MonitoredFocusList._focus]. rewrite Nat2Z.id.
    rewrite bool_decide_eq_true_2 by done.
    unfold GridFlow.with_contents, self1. cbn.
    by destruct (GridFlow.contents self). }
  exists p, self1. repeat split; try done.
  intros dme event button col row focus handled Hdme.
  cbn [GridFlow._w self1]. rewrite Hdme. cbn [mbind result_bind].
  change (GridFlow.with_display self1 (GridFlow.WPile p)) with self1.
  by rewrite Hset.
Qed.

Lemma GridFlow_focus_round_trip_witness :
  exists (p : GridFlow.DisplayPile) (self1 : GridFlow.t),
    GridFlow.get_display_widget true Samples.gridflow 11
    = Ok (GridFlow.WPile p, self1) /\
    GridFlow.contents self1 = GridFlow.contents Samples.gridflow /\
    GridFlow._cache_maxcol self1 = None /\
    GridFlow._w self1 = GridFlow.WPile p /\
    GridFlow._set_focus_from_display_widget self1 = Ok self1 /\
    forall display_mouse_event event button col row focus handled,
      display_mouse_event (GridFlow.WPile p) 11 event button col row focus
      = Ok (GridFlow.WPile p, handled) ->
      GridFlow.mouse_event true display_mouse_event Samples.gridflow 11 event button
        col row focus
      = Ok (self1, true).
Proof.
  apply (GridFlow_focus_round_trip true Samples.gridflow 11 (Samples.leaf 3 true)
           (GIVEN, 4)).
  - done.
  - reflexivity.
  - reflexivity.
  - repeat constructor; cbn; lia.
Defined.

(** ** Overlay: where the top widget goes *)

Section OverlayLayout.

Context `{Toolkit}.

(** X16.  [calculate_padding_filler] fails in one case only: the top
    widget is a fixed one ([width_type] is ['pack']) that packs to
    height 0; that is an [OverlayError].  Otherwise it returns
    margins, and a fixed top widget is left at least the rows it packs
    to, whatever the filler computed; a flow top widget taller than
    the screen gets the negative bottom margin [maxrow - rows]. *)
Theorem Overlay_padding_filler (self : Overlay.t) (maxcol maxrow : Z) (focus : bool) :
  let height := (w_pack_fixed (Overlay.top_w self) focus).2 in
  let rows := w_rows (Overlay.top_w self) maxcol focus in
  (Overlay.width_type self = AStr "pack" -> height = 0 ->
   Overlay.calculate_padding_filler self (maxcol, maxrow) focus = Raise OverlayError) /\
  (~ (Overlay.width_type self = AStr "pack" /\ height = 0) ->
   exists left' right' top' bottom',
     Overlay.calculate_padding_filler self (maxcol, maxrow) focus
     = Ok (left', right', top', bottom') /\
     (Overlay.width_type self = AStr "pack" ->
      height <= maxrow - top' - bottom' /\
      Overlay.top_w_size self (maxcol, maxrow) left' right' top' bottom' = []) /\
     (Overlay.width_type self <> AStr "pack" ->
      Overlay.height_type self = AStr "pack" ->
      (maxrow < rows -> bottom' = maxrow - rows) /\
      Overlay.top_w_size self (maxcol, maxrow) left' right' top' bottom'
      = [maxcol - left' - right']) /\
     (Overlay.width_type self <> AStr "pack" ->
      Overlay.height_type self <> AStr "pack" ->
      Overlay.top_w_size self (maxcol, maxrow) left' right' top' bottom'
      = [maxcol - left' - right'; maxrow - top' - bottom'])).
Proof.
  cbn zeta. unfold Overlay.calculate_padding_filler, Overlay.top_w_size.
  destruct (w_pack_fixed (Overlay.top_w self) focus) as [width height] eqn:Hpack.
  cbn [snd]. split.
  - intros Hw Hh.
    rewrite (bool_decide_eq_true_2 (Overlay.width_type self = AStr "pack")) by done.
    rewrite (bool_decide_eq_true_2 (height = 0)) by done. done.
  - intros Hn.
    destruct (bool_decide_reflect (Overlay.width_type self = AStr "pack")) as [Hw | Hw].
    + rewrite (bool_decide_eq_false_2 (height = 0)) by (intros Hh; apply Hn; done).
      destruct (calculate_left_right_padding _ _ _ _ _ _ _ _) as [l r].
      cbn [mbind result_bind].
      destruct (calculate_top_bottom_filler _ _ _ _ _ _ _ _) as [t b].
      destruct (bool_decide_reflect (maxrow - t - b < height)) as [Hlt | Hlt];
        (eexists _, _, _, _; split; [reflexivity |]);
        (split; [intros _; split; [lia | done] | split; intros; done]).
    + destruct (calculate_left_right_padding _ _ _ _ _ _ _ _) as [l r].
      cbn [mbind result_bind].
      destruct (bool_decide_reflect (Overlay.height_type self = AStr "pack")) as [Hh | Hh].
      * destruct (calculate_top_bottom_filler _ _ _ _ _ _ _ _) as [t b].
        destruct (bool_decide_reflect (w_rows (Overlay.top_w self) maxcol focus > maxrow))
          as [Hgt | Hgt];
          (eexists _, _, _, _; split; [reflexivity |]);
          (split; [done |]); (split; [| done]); intros _ _;
          rewrite bool_decide_eq_true_2 by done; (split; [| done]); [done | lia].
      * destruct (calculate_top_bottom_filler _ _ _ _ _ _ _ _) as [t b].
        eexists _, _, _, _. split; [reflexivity |].
        split; [done |]. split; [done |]. intros _ _.
        by rewrite bool_decide_eq_true_2 by done.
Qed.

(** X17.  [mouse_event] of an Overlay whose top widget takes mouse
    events, with the margins [calculate_padding_filler] returns.  An
    event outside of the rectangle the margins leave is answered
    [False] and the top widget does not see it.  An event inside goes
    to the top widget with the coordinates counted from the corner of
    the rectangle: they are not negative and below the width and the
    height of the rectangle. *)
Theorem Overlay_mouse_event_inside (self : Overlay.t) (maxcol maxrow : Z)
    (event : string) (button col row : Z) (focus : bool)
    (left' right' top' bottom' : Z) :
  has_mouse_event (Overlay.top_w self) = true ->
  Overlay.calculate_padding_filler self (maxcol, maxrow) focus
  = Ok (left', right', top', bottom') ->
  let inside :=
    left' <= col < maxcol - right' /\ top' <= row < maxrow - bottom' in
  (~ inside ->
   Overlay.mouse_event self (maxcol, maxrow) event button col row focus
   = Ok (Some false)) /\
  (inside ->
   exists col' row',
     Overlay.mouse_event self (maxcol, maxrow) event button col row focus
     = Ok (w_mouse_event (Overlay.top_w self)
             (Overlay.top_w_size self (maxcol, maxrow) left' right' top' bottom')
             event button col' row' focus) /\
     col = left' + col' /\ row = top' + row' /\
     0 <= col' < maxcol - left' - right' /\
     0 <= row' < maxrow - top' - bottom').
Proof.
  intros Hhas Hcalc inside. unfold Overlay.mouse_event.
  rewrite Hhas, Hcalc. cbn [negb mbind result_bind]. split.
  - intros Hout.
    destruct (bool_decide_reflect (col < left')); [done |].
    destruct (bool_decide_reflect (col >= maxcol - right')); [done |].
    destruct (bool_decide_reflect (row < top')); [done |].
    destruct (bool_decide_reflect (row >= maxrow - bottom')); [done |].
    exfalso. apply Hout. unfold inside. lia.
  - intros [Hc Hr].
    rewrite !bool_decide_eq_false_2 by lia. cbn [orb].
    exists (col - left'), (row - top'). split; [done |]. lia.
Qed.

End OverlayLayout.

Lemma Overlay_mouse_event_inside_witness :
  let inside := 6 <= 10 < 24 - 6 /\ 2 <= 4 < 10 - 3 in
  (~ inside ->
   @Overlay.mouse_event Samples.toolkit Samples.overlay (24, 10) "mouse press" 1 10 4 true
   = Ok (Some false)) /\
  (inside ->
   exists col' row',
     @Overlay.mouse_event Samples.toolkit Samples.overlay (24, 10) "mouse press" 1 10 4 true
     = Ok (@w_mouse_event Samples.toolkit (Overlay.top_w Samples.overlay)
             (Overlay.top_w_size Samples.overlay (24, 10) 6 6 2 3)
             "mouse press" 1 col' row' true) /\
     10 = 6 + col' /\ 4 = 2 + row' /\
     0 <= col' < 24 - 6 - 6 /\
     0 <= row' < 10 - 2 - 3).
Proof.
  apply (@Overlay_mouse_event_inside Samples.toolkit Samples.overlay 24 10
           "mouse press" 1 10 4 true 6 6 2 3).
  - reflexivity.
  - reflexivity.
Defined.

(** ** WidgetContainerMixin: the focus path *)

Section FocusPaths.

Import WidgetContainerMixin.

Lemma widget_tree_ind (P : widget -> Prop) :
  (forall x, P (Leaf x)) ->
  (forall cs f, Forall P cs -> P (Container cs f)) ->
  forall w, P w.
Proof.
  intros HL HC. fix IH 1. intros [x | cs f]; [apply HL | apply HC].
  induction cs as [| c cs IHcs]; constructor; [apply IH | exact IHcs].
Qed.

Lemma get_focus_path_Container (cs : list widget) (f : nat) :
  get_focus_path (Container cs f)
  = match cs with
    | [] => Ok []
    | _ =>
        match cs !! f with
        | Some c => out ← get_focus_path c; Ok (Z.of_nat f :: out)
        | None => Raise IndexError
        end
    end.
Proof.
  destruct cs as [| c0 cs0]; [done |].
  cbn [get_focus_path]. generalize (Z.of_nat f). intros z.
  destruct f as [| k]; [done |]. cbn [lookup list_lookup].
  revert k. induction cs0 as [| c cs IH]; intros k; [done |].
  destruct k as [| k]; [done |]. cbn [lookup list_lookup]. apply IH.
Qed.

Lemma get_focus_widgets_Container (cs : list widget) (f : nat) :
  get_focus_widgets (Container cs f)
  = match cs with
    | [] => Ok []
    | _ =>
        match cs !! f with
        | Some c => out ← get_focus_widgets c; Ok (c :: out)
        | None => Raise IndexError
        end
    end.
Proof.
  destruct cs as [| c0 cs0]; [done |].
  cbn [get_focus_widgets].
  destruct f as [| k]; [done |]. cbn [lookup list_lookup].
  revert k. induction cs0 as [| c cs IH]; intros k; [done |].
  destruct k as [| k]; [done |]. cbn [lookup list_lookup]. apply IH.
Qed.

Lemma FocusPath_skeleton_Container (w : widget) (cs : list widget) (f : nat) :
  FocusPath.skeleton w = FocusPath.skeleton (Container cs f) ->
  exists ds g, w = Container ds g /\
    map FocusPath.skeleton ds = map FocusPath.skeleton cs.
Proof.
  destruct w as [x | ds g]; [done |]. cbn. intros [= Heq]. eauto.
Qed.

Lemma FocusPath_skeleton_lookup (cs ds : list widget) (k : nat) (c : widget) :
  map FocusPath.skeleton ds = map FocusPath.skeleton cs ->
  cs !! k = Some c ->
  exists d, ds !! k = Some d /\ FocusPath.skeleton d = FocusPath.skeleton c.
Proof.
  intros Hmap Hc.
  assert (map FocusPath.skeleton ds !! k = Some (FocusPath.skeleton c)) as Hd.
  { rewrite Hmap. change map with (@fmap list _) at 1.
    by rewrite list_lookup_fmap, Hc. }
  change map with (@fmap list _) in Hd. rewrite list_lookup_fmap in Hd.
  destruct (ds !! k) as [d |]; [| done]. exists d. split; [done |].
  by injection Hd.
Qed.

Lemma FocusPath_skeleton_insert (cs ds : list widget) (k : nat) (c d : widget) :
  map FocusPath.skeleton ds = map FocusPath.skeleton cs ->
  cs !! k = Some c ->
  FocusPath.skeleton d = FocusPath.skeleton c ->
  map FocusPath.skeleton (<[k := d]> ds) = map FocusPath.skeleton cs.
Proof.
  intros Hmap Hc Hd. change map with (@fmap list _) in *.
  rewrite list_fmap_insert, Hmap, Hd.
  apply list_insert_id. by rewrite list_lookup_fmap, Hc.
Qed.

(** One step of [set_focus_path] into an existing child. *)
Lemma set_focus_path_cons (ds : list widget) (g k : nat) (d : widget) (ps : list Z) :
  ds !! k = Some d ->
  set_focus_path (Container ds g) (Z.of_nat k :: ps)
  = ((Container (<[k := (set_focus_path d ps).1]> ds) k), (set_focus_path d ps).2).
Proof.
  intros Hd. pose proof (lookup_lt_Some _ _ _ Hd) as Hk.
  cbn [set_focus_path]. unfold focus_position.
  destruct ds as [| d0 ds0] eqn:Hds; [done |]. rewrite <- Hds in *.
  assert ((if bool_decide (Z.of_nat k <> Z.of_nat g)
           then set_focus_position (Container ds g) (Z.of_nat k)
           else Ok (Container ds g)) = Ok (Container ds k)) as ->.
  { destruct (bool_decide_reflect (Z.of_nat k <> Z.of_nat g)) as [Hne | Heq].
    - unfold set_focus_position. rewrite !bool_decide_eq_false_2 by lia.
      cbn [orb]. by rewrite Nat2Z.id.
    - assert (k = g) as -> by lia. done. }
  assert (focus (Container ds k) = Ok (Some d)) as ->.
  { unfold focus. rewrite Hd. by rewrite Hds. }
  by destruct (set_focus_path d ps).
Qed.

Lemma forallb_lookup {A : Type} (f : A -> bool) (l : list A) (k : nat) (x : A) :
  forallb f l = true -> l !! k = Some x -> f x = true.
Proof.
  revert k. induction l as [| y l IH]; intros k Hall Hk; [done |].
  cbn in Hall. apply andb_true_iff in Hall as [Hy Hall].
  destruct k as [| k]; [by injection Hk as <- |]. by apply (IH k).
Qed.

Lemma forallb_insert {A : Type} (f : A -> bool) (l : list A) (k : nat) (x : A) :
  forallb f l = true -> f x = true -> forallb f (<[k := x]> l) = true.
Proof.
  revert k. induction l as [| y l IH]; intros k Hall Hx; [done |].
  cbn in Hall. apply andb_true_iff in Hall as [Hy Hall].
  destruct k as [| k]; cbn; apply andb_true_iff; split; try done. by apply IH.
Qed.

Lemma FocusPath_wf_Container (cs : list widget) (f : nat) :
  FocusPath.wf (Container cs f) = true <->
  (cs = [] \/ (f < length cs)%nat) /\ forallb FocusPath.wf cs = true.
Proof.
  cbn [FocusPath.wf]. rewrite andb_true_iff.
  destruct cs as [| c cs].
  - split; intros [_ Hall]; (split; [| done]); [by left | done].
  - rewrite bool_decide_eq_true.
    split; intros [Hf Hall]; (split; [| done]); [by right | by destruct Hf].
Qed.

Lemma get_focus_path_total (w : widget) :
  FocusPath.wf w = true -> exists ps, get_focus_path w = Ok ps.
Proof.
  induction w as [x | cs f IH] using widget_tree_ind; intros Hwf; [by exists [] |].
  rewrite get_focus_path_Container.
  apply FocusPath_wf_Container in Hwf as [Hf Hall].
  destruct cs as [| c0 cs0] eqn:Hcs; [by exists [] |]. rewrite <- Hcs in *.
  destruct Hf as [Hnil | Hf]; [by rewrite Hcs in Hnil |].
  destruct (lookup_lt_is_Some_2 cs f Hf) as [c Hc]. rewrite Hc.
  rewrite Forall_lookup in IH.
  destruct (IH f c Hc (forallb_lookup _ _ _ _ Hall Hc)) as [ps Hps].
  rewrite Hps. cbn. eauto.
Qed.

(** X18.  Restoring a focus path.  The path [get_focus_path] returns
    can be given back to [set_focus_path]: on the same widget nothing
    changes, and on the widget after any changes of focus (the same
    tree of widgets, whatever is in focus) it succeeds and leaves a
    widget whose focus path is the saved one again. *)
Theorem focus_path_restore (w : widget) (ps : list Z) :
  get_focus_path w = Ok ps ->
  set_focus_path w ps = (w, Ok tt) /\
  forall w1 : widget,
    FocusPath.skeleton w1 = FocusPath.skeleton w ->
    exists w2 : widget,
      set_focus_path w1 ps = (w2, Ok tt) /\
      get_focus_path w2 = Ok ps /\
      FocusPath.skeleton w2 = FocusPath.skeleton w.
Proof.
  revert ps. induction w as [x | cs f IH] using widget_tree_ind; intros ps Hps.
  - injection Hps as <-. split; [done |].
    intros [y | ds g] Hsk; [| done]. exists (Leaf y). done.
  - rewrite get_focus_path_Container in Hps.
    destruct cs as [| c0 cs0] eqn:Hcs.
    { injection Hps as <-. split; [done |].
      intros w1 Hsk. apply FocusPath_skeleton_Container in Hsk as (ds & g & -> & Hmap).
      destruct ds; [| done]. by exists (Container [] g). }
    rewrite <- Hcs in *.
    destruct (cs !! f) as [c |] eqn:Hc; [| done].
    destruct (get_focus_path c) as [out |] eqn:Hout; [| done].
    injection Hps as <-.
    rewrite Forall_lookup in IH. destruct (IH f c Hc out Hout) as [Hid Hrestore].
    split.
    + rewrite (set_focus_path_cons cs f f c out Hc), Hid. cbn.
      by rewrite list_insert_id.
    + intros w1 Hsk.
      apply FocusPath_skeleton_Container in Hsk as (ds & g & -> & Hmap).
      destruct (FocusPath_skeleton_lookup cs ds f c Hmap Hc) as (d & Hd & Hdc).
      destruct (Hrestore d Hdc) as (d2 & Hset & Hget & Hsk2).
      exists (Container (<[f := d2]> ds) f).
      rewrite (set_focus_path_cons ds g f d out Hd), Hset. cbn [fst snd].
      split; [done |]. split.
      * rewrite get_focus_path_Container.
        pose proof (lookup_lt_Some _ _ _ Hd) as Hlt.
        rewrite list_lookup_insert_eq by done. rewrite Hget. cbn.
        destruct (<[f := d2]> ds) eqn:Hins; [| done].
        apply (f_equal length) in Hins. rewrite length_insert in Hins.
        cbn in Hins. lia.
      * cbn. f_equal. by apply (FocusPath_skeleton_insert _ _ _ c).
Qed.

(** [set_focus_path] stops with [IndexError] at a widget without
    focus, and at a position outside of a container, changing
    nothing there. *)
Lemma set_focus_path_stops (w : widget) (p : Z) (ps : list Z) :
  FocusPath.wf w = true ->
  (forall cs g, w = Container cs g -> ~ (0 <= p < Z.of_nat (length cs))) ->
  set_focus_path w (p :: ps) = (w, Raise IndexError) /\
  exists rest, get_focus_path w = Ok rest /\ head rest <> Some p.
Proof.
  intros Hwf Hout. destruct w as [x | cs g].
  - split; [done |]. by exists [].
  - destruct cs as [| c0 cs0] eqn:Hcs.
    { split; [done |]. by exists []. }
    rewrite <- Hcs in *. specialize (Hout cs g eq_refl).
    pose proof Hwf as Hwf'.
    apply FocusPath_wf_Container in Hwf' as [[Hnil | Hg] _]; [by rewrite Hcs in Hnil |].
    split.
    + cbn [set_focus_path]. unfold focus_position. rewrite Hcs at 1.
      rewrite bool_decide_eq_true_2 by lia.
      unfold set_focus_position.
      destruct (bool_decide_reflect (p < 0)); [done |].
      rewrite bool_decide_eq_true_2 by lia. done.
    + destruct (get_focus_path_total _ Hwf) as [rest Hrest]. exists rest.
      split; [done |]. rewrite get_focus_path_Container in Hrest.
      rewrite Hcs in Hrest at 1.
      destruct (cs !! g); [| done]. destruct (get_focus_path w); [| done].
      injection Hrest as <-. cbn. intros [= Heq]. lia.
Qed.

(** X19.  What [set_focus_path] leaves behind, on widgets whose
    containers have their cursor inside their contents.  It changes
    nothing but what is in focus.  When it returns, the focus path
    starts with the positions given.  When it fails, the exception is
    [IndexError], and the assignments made before the failing position
    stay in place: the focus path follows the positions given up to
    the failing one, where it differs. *)
Theorem set_focus_path_outcome (positions : list Z) :
  forall (w w' : widget) (r : result unit),
    FocusPath.wf w = true ->
    set_focus_path w positions = (w', r) ->
    FocusPath.skeleton w' = FocusPath.skeleton w /\
    FocusPath.wf w' = true /\
    match r with
    | Ok _ => exists rest, get_focus_path w' = Ok (positions ++ rest)
    | Raise e =>
        e = IndexError /\
        exists before p after rest,
          positions = before ++ p :: after /\
          get_focus_path w' = Ok (before ++ rest) /\
          head rest <> Some p
    end.
Proof.
  induction positions as [| p ps IH]; intros w w' r Hwf Hset.
  - cbn in Hset. injection Hset as <- <-. split; [done |]. split; [done |].
    destruct (get_focus_path_total _ Hwf) as [rest Hrest]. by exists rest.
  - assert ((exists cs g k d, w = Container cs g /\ p = Z.of_nat k /\ cs !! k = Some d)
            \/ (forall cs g, w = Container cs g -> ~ (0 <= p < Z.of_nat (length cs))))
      as [(cs & g & k & d & -> & -> & Hd) | Hout].
    { destruct w as [x | cs g]; [by right |].
      destruct (decide (0 <= p < Z.of_nat (length cs))) as [Hin | Hout].
      - left. destruct (lookup_lt_is_Some_2 cs (Z.to_nat p)) as [d Hd]; [lia |].
        exists cs, g, (Z.to_nat p), d. rewrite Z2Nat.id by lia. done.
      - right. by intros ? ? [= <- <-]. }
    + rewrite (set_focus_path_cons cs g k d ps Hd) in Hset.
      destruct (set_focus_path d ps) as [d' r'] eqn:Hsub.
      cbn [fst snd] in Hset. injection Hset as <- <-.
      apply FocusPath_wf_Container in Hwf as [_ Hall].
      destruct (IH d d' r' (forallb_lookup _ _ _ _ Hall Hd) Hsub) as (Hsk & Hwf' & Hr).
      pose proof (lookup_lt_Some _ _ _ Hd) as Hlt.
      assert (get_focus_path (Container (<[k := d']> cs) k)
              = (out ← get_focus_path d'; Ok (Z.of_nat k :: out))) as Hget.
      { rewrite get_focus_path_Container, list_lookup_insert_eq by done.
        destruct (<[k := d']> cs) eqn:Hins; [| done].
        apply (f_equal length) in Hins. rewrite length_insert in Hins.
        cbn in Hins. lia. }
      split; [| split].
      * cbn. f_equal. by apply (FocusPath_skeleton_insert _ _ _ d).
      * apply FocusPath_wf_Container. split.
        -- right. by rewrite length_insert.
        -- by apply forallb_insert.
      * rewrite Hget. destruct r' as [[] | e].
        -- destruct Hr as [rest ->]. by exists rest.
        -- destruct Hr as (-> & before & q & after & rest & -> & -> & Hq).
           split; [done |]. by exists (Z.of_nat k :: before), q, after, rest.
    + destruct (set_focus_path_stops w p ps Hwf Hout) as (Hstop & rest & Hrest & Hp).
      rewrite Hstop in Hset. injection Hset as <- <-.
      split; [done |]. split; [done |]. split; [done |].
      by exists [], p, ps, rest.
Qed.

(** X20.  [get_focus_widgets] against [get_focus_path].  When the
    focus path is [ps], [get_focus_widgets] returns one widget for
    each position of [ps], and the widget at depth [k] is the one the
    short-cut [w[p0][p1]...[pk]] reaches; the last of them has no
    focus of its own. *)
Theorem focus_widgets_along_path (w : widget) (ps : list Z) :
  get_focus_path w = Ok ps ->
  exists ws : list widget,
    get_focus_widgets w = Ok ws /\
    length ws = length ps /\
    (forall (k : nat) (c : widget),
       ws !! k = Some c -> FocusPath.descend w (take (S k) ps) = Ok c) /\
    (forall c : widget, last ws = Some c -> focus c = Ok None).
Proof.
  revert ps. induction w as [x | cs f IH] using widget_tree_ind; intros ps Hps.
  - injection Hps as <-. exists []. done.
  - rewrite get_focus_path_Container in Hps.
    rewrite get_focus_widgets_Container.
    destruct cs as [| c0 cs0] eqn:Hcs.
    { injection Hps as <-. exists []. done. }
    rewrite <- Hcs in *.
    destruct (cs !! f) as [c |] eqn:Hc; [| done].
    destruct (get_focus_path c) as [out |] eqn:Hout; [| done].
    injection Hps as <-.
    rewrite Forall_lookup in IH.
    destruct (IH f c Hc out Hout) as (ws & -> & Hlen & Hdesc & Hlast).
    exists (c :: ws). split; [done |]. split; [cbn; by rewrite Hlen |]. split.
    + intros k c' Hk. cbn [take FocusPath.descend __getitem__].
      rewrite Builtins_item_nat, Hc. cbn [mbind result_bind].
      destruct k as [| k].
      * injection Hk as <-. by rewrite take_0.
      * by apply Hdesc.
    + intros c' Hc'. destruct ws as [| c1 ws].
      * injection Hc' as <-. destruct out; [| done].
        destruct c as [x | ds g]; [done |].
        rewrite get_focus_path_Container in Hout.
        destruct ds as [| d0 ds0] eqn:Hds; [done |]. rewrite <- Hds in *.
        destruct (ds !! g); [| done]. by destruct (get_focus_path w).
      * apply Hlast. done.
Qed.

End FocusPaths.

Lemma focus_path_restore_witness :
  WidgetContainerMixin.set_focus_path Samples.nested [1; 1] = (Samples.nested, Ok tt) /\
  forall w1 : WidgetContainerMixin.widget,
    FocusPath.skeleton w1 = FocusPath.skeleton Samples.nested ->
    exists w2 : WidgetContainerMixin.widget,
      WidgetContainerMixin.set_focus_path w1 [1; 1] = (w2, Ok tt) /\
      WidgetContainerMixin.get_focus_path w2 = Ok [1; 1] /\
      FocusPath.skeleton w2 = FocusPath.skeleton Samples.nested.
Proof. apply (focus_path_restore Samples.nested [1; 1]). reflexivity. Defined.

Lemma set_focus_path_outcome_witness :
  let w' :=
    WidgetContainerMixin.Container
      [WidgetContainerMixin.Leaf (Samples.leaf 0 true);
       WidgetContainerMixin.Container
         [WidgetContainerMixin.Leaf (Samples.leaf 1 true);
          WidgetContainerMixin.Leaf (Samples.leaf 2 true)] 0;
       WidgetContainerMixin.Container [] 0] 1 in
  FocusPath.skeleton w' = FocusPath.skeleton Samples.nested /\
  FocusPath.wf w' = true /\
  (IndexError = IndexError /\
   exists before p after rest,
     [1; 0; 7] = before ++ p :: after /\
     WidgetContainerMixin.get_focus_path w' = Ok (before ++ rest) /\
     head rest <> Some p).
Proof.
  intros w'.
  apply (set_focus_path_outcome [1; 0; 7] Samples.nested w' (Raise IndexError)).
  - reflexivity.
  - reflexivity.
Defined.

Lemma focus_widgets_along_path_witness :
  exists ws : list WidgetContainerMixin.widget,
    WidgetContainerMixin.get_focus_widgets Samples.nested = Ok ws /\
    length ws = length [1; 1] /\
    (forall (k : nat) (c : WidgetContainerMixin.widget),
       ws !! k = Some c -> FocusPath.descend Samples.nested (take (S k) [1; 1]) = Ok c) /\
    (forall c : WidgetContainerMixin.widget,
       last ws = Some c -> WidgetContainerMixin.focus c = Ok None).
Proof. apply (focus_widgets_along_path Samples.nested [1; 1]). reflexivity. Defined.

(** ** Pile: arrow keys *)

Lemma match_nonempty {A B : Type} (l : list A) (a b : B) :
  l <> [] -> match l with [] => a | _ :: _ => b end = b.
Proof. by destruct l. Qed.

Section PileKeys.
Context `{Toolkit}.

Lemma Pile_update_pref_col_layout (self self' : Pile.t) (size : Z * option Z) :
  Pile._update_pref_col_from_focus self size = Returns self' ->
  Pile.contents self' = Pile.contents self /\
  Pile._selectable self' = Pile._selectable self.
Proof.
  unfold Pile._update_pref_col_from_focus. intros Hup.
  destruct (Pile.focus self) as [w |]; [| by simplify_eq].
  destruct (has_get_pref_col w); cbn [negb] in Hup; [| by simplify_eq].
  destruct (Pile.focus_position self) as [i |]; [| done].
  cbn [lift mbind outcome_bind] in Hup.
  destruct (Pile.get_item_size self size i true None) as [tsize |]; [| done].
  cbn [mbind outcome_bind] in Hup.
  destruct (w_get_pref_col w tsize); by simplify_eq.
Qed.

(** The loop over the candidates stops at the first selectable one. *)
Lemma Pile_move_focus_spec (self self' : Pile.t) (size : Z * option Z)
    (key r : option string) (item_rows : list (option Z)) (candidates : list Z) :
  let cs := MonitoredFocusList.items (Pile.contents self) in
  (forall j : Z, j ∈ candidates -> 0 <= j < Z.of_nat (length cs)) ->
  Pile.move_focus self size key item_rows candidates = Returns (r, self') ->
  (exists (n : nat) (j : Z) (item : Pile.entry),
     candidates !! n = Some j /\ cs !! Z.to_nat j = Some item /\
     w_selectable item.1 = true /\
     (forall (m : nat) (k : Z) (other : Pile.entry),
        (m < n)%nat -> candidates !! m = Some k -> cs !! Z.to_nat k = Some other ->
        w_selectable other.1 = false) /\
     r = None /\
     MonitoredFocusList.items (Pile.contents self') = cs /\
     Pile._selectable self' = Pile._selectable self /\
     MonitoredFocusList._focus (Pile.contents self') = Z.to_nat j) \/
  ((forall (m : nat) (k : Z) (other : Pile.entry),
      candidates !! m = Some k -> cs !! Z.to_nat k = Some other ->
      w_selectable other.1 = false) /\
   r = key /\ self' = self).
Proof.
  intros cs. induction candidates as [| j candidates IH]; intros Hrange Hmove.
  - right. cbn in Hmove. by simplify_eq.
  - assert (Hj : 0 <= j < Z.of_nat (length cs)) by (apply Hrange; left).
    assert (Hrest : forall j' : Z, j' ∈ candidates -> 0 <= j' < Z.of_nat (length cs))
      by (intros j' Hj'; apply Hrange; by right).
    destruct (lookup_lt_is_Some_2 cs (Z.to_nat j) ltac:(lia)) as [item Hitem].
    assert (Hit : Builtins.item cs j = Ok item).
    { pose proof (Builtins_item_nat cs (Z.to_nat j)) as Hn.
      rewrite Z2Nat.id in Hn by lia. by rewrite Hn, Hitem. }
    cbn [Pile.move_focus] in Hmove. fold cs in Hmove. rewrite Hit in Hmove.
    cbn [lift mbind outcome_bind] in Hmove.
    destruct (w_selectable item.1) eqn:Hsel; cbn [negb] in Hmove.
    + left.
      destruct (Pile._update_pref_col_from_focus self size) as [self1 |] eqn:Hup; [| done].
      apply Pile_update_pref_col_layout in Hup as [Hc1 Hs1].
      cbn [mbind outcome_bind] in Hmove.
      pose proof (Pile_set_focus_position_ok self1 (Z.to_nat j)) as Hset.
      rewrite Hc1, Z2Nat.id in Hset by lia. fold cs in Hset.
      rewrite Hset in Hmove by lia. cbn [lift mbind outcome_bind] in Hmove.
      set (self2 := Pile.mk _ _ _) in Hmove.
      assert (r = None /\ self' = self2) as [-> ->].
      { destruct (Pile.focus self2) as [w |]; [| by simplify_eq].
        destruct (has_move_cursor_to_coords w); cbn [negb] in Hmove; [| by simplify_eq].
        destruct (Builtins.item item_rows j) as [[rows |] |]; try done.
        cbn [lift mbind outcome_bind] in Hmove.
        destruct (Pile.place_cursor _ _ _ _ _ _); [| done].
        cbn in Hmove. by simplify_eq. }
      exists 0%nat, j, item. repeat split; try done. intros; lia.
    + destruct (IH Hrest Hmove)
        as [(n & j' & item' & Hn & Hi' & Hs' & Hbefore & Hr & Hits & Hsl & Hf) | (Hnone & Hr & Hs)].
      * left. exists (S n), j', item'. repeat split; try done.
        intros [| m] k other Hlt Hk Hother; cbn in Hk.
        -- by simplify_eq.
        -- apply (Hbefore m k other); [lia | done | done].
      * right. split; [| done].
        intros [| m] k other Hk Hother; cbn in Hk.
        -- by simplify_eq.
        -- by apply (Hnone m k other).
Qed.

(** X21.  Arrow keys in a Pile.  When [keypress] returns, the contents
    are the same and the focus either stays or has moved to a
    selectable item with no selectable item between the old and the
    new focus, in which case the key is reported handled.  The focus
    stays with a key whose command is ['cursor up'] handed back only
    when no item above is selectable, and with one whose command is
    ['cursor down'] only when no item below is. *)
Theorem Pile_keypress_navigation (self self' : Pile.t) (size : Z * option Z)
    (key : string) (r : option string) :
  let cs := MonitoredFocusList.items (Pile.contents self) in
  let i := MonitoredFocusList._focus (Pile.contents self) in
  let j := MonitoredFocusList._focus (Pile.contents self') in
  let unselectable (k : nat) :=
    forall other : Pile.entry, cs !! k = Some other -> w_selectable other.1 = false in
  (i < length cs)%nat ->
  Pile.keypress self size key = Returns (r, self') ->
  MonitoredFocusList.items (Pile.contents self') = cs /\
  Pile._selectable self' = Pile._selectable self /\
  ((j = i /\
    (_command_map r = Some "cursor up" -> forall k : nat, (k < i)%nat -> unselectable k) /\
    (_command_map r = Some "cursor down" -> forall k : nat, (i < k)%nat -> unselectable k)) \/
   (r = None /\ j <> i /\
    (exists item : Pile.entry, cs !! j = Some item /\ w_selectable item.1 = true) /\
    (forall k : nat, (j < k < i)%nat \/ (i < k < j)%nat -> unselectable k))).
Proof.
  intros cs i j unselectable Hci Hkp. subst j.
  unfold Pile.keypress in Hkp. fold cs in Hkp.
  rewrite (match_nonempty cs) in Hkp by (intros Hnil; rewrite Hnil in Hci; cbn in Hci; lia).
  match type of Hkp with
  | (?rows ≫= _) = _ => destruct rows as [item_rows |] eqn:Hrows; [| done]
  end.
  cbn [mbind outcome_bind] in Hkp.
  assert (Hfp : Pile.focus_position self = Ok i).
  { unfold Pile.focus_position, MonitoredFocusList.focus. fold cs.
    destruct cs; [cbn in Hci; lia | done]. }
  rewrite Hfp in Hkp. cbn [lift mbind outcome_bind] in Hkp.
  match type of Hkp with
  | (?child ≫= _) = _ => destruct child as [[key' answered] |] eqn:Hchild; [| done]
  end.
  cbn [mbind outcome_bind] in Hkp.
  destruct answered.
  { (* the widget in focus answered *)
    assert (_command_map key' ∉ [Some "cursor up"; Some "cursor down"]) as Hcmd.
    { destruct (Pile._selectable self); [| by simplify_eq].
      destruct (Pile.get_item_size self size i true item_rows); [| done].
      cbn [mbind outcome_bind] in Hchild.
      destruct (Pile.focus self); [| done].
      injection Hchild as <- Hans. by apply bool_decide_eq_true in Hans. }
    injection Hkp as <- <-. split; [done |]. split; [done |]. left. split; [done |].
    split; intros Hr; exfalso; apply Hcmd; rewrite Hr; list_mem; tauto. }
  match type of Hkp with
  | (?rows ≫= _) = _ => destruct rows as [item_rows' |] eqn:Hrows'; [| done]
  end.
  cbn [mbind outcome_bind] in Hkp.
  destruct (bool_decide_reflect (_command_map key' = Some "cursor up")) as [Hup | Hnup].
  - (* cursor up *)
    destruct (Pile_move_focus_spec self self' size key' r item_rows'
                (Builtins.range_down (Z.of_nat i - 1) (-1))) as [Hmove | (Hnone & -> & ->)];
      [| done | |].
    { intros j Hj. apply Builtins_range_down_elem in Hj. fold cs. lia. }
    + destruct Hmove as (n & j & item & Hn & Hj & Hsel & Hbefore & -> & Hit & Hsl & Hf).
      fold cs in Hj, Hbefore, Hit.
      rewrite Builtins_range_down_lookup in Hn.
      destruct (bool_decide_reflect (-1 < Z.of_nat i - 1 - Z.of_nat n)) as [Hlt | ?];
        [| done].
      simplify_eq. rewrite Hit, Hf. split; [done |]. split; [done |]. right.
      split; [done |]. split; [lia |]. split; [by exists item |].
      intros k Hk other Hother.
      apply (Hbefore (i - 1 - k)%nat (Z.of_nat k) other); [lia | | by rewrite Nat2Z.id].
      rewrite Builtins_range_down_lookup.
      rewrite bool_decide_eq_true_2 by lia. f_equal. lia.
    + fold cs in Hnone. split; [done |]. split; [done |]. left. split; [done |]. split.
      * intros _ k Hk other Hother.
        apply (Hnone (i - 1 - k)%nat (Z.of_nat k) other); [| by rewrite Nat2Z.id].
        rewrite Builtins_range_down_lookup.
        rewrite bool_decide_eq_true_2 by lia. f_equal. lia.
      * intros Hr. congruence.
  - (* cursor down, and every other key of a Pile that is not selectable *)
    destruct (Pile_move_focus_spec self self' size key' r item_rows'
                (Builtins.range (Z.of_nat i + 1) (Z.of_nat (length cs))))
      as [Hmove | (Hnone & -> & ->)]; [| done | |].
    { intros j Hj. apply Builtins_range_elem in Hj. fold cs. lia. }
    + destruct Hmove as (n & j & item & Hn & Hj & Hsel & Hbefore & -> & Hit & Hsl & Hf).
      fold cs in Hj, Hbefore, Hit.
      rewrite Builtins_range_lookup in Hn.
      destruct (bool_decide_reflect (Z.of_nat i + 1 + Z.of_nat n < Z.of_nat (length cs)))
        as [Hlt | ?]; [| done].
      simplify_eq. rewrite Hit, Hf. split; [done |]. split; [done |]. right.
      split; [done |]. split; [lia |]. split; [by exists item |].
      intros k Hk other Hother.
      apply (Hbefore (k - i - 1)%nat (Z.of_nat k) other); [lia | | by rewrite Nat2Z.id].
      rewrite Builtins_range_lookup.
      rewrite bool_decide_eq_true_2 by lia. f_equal. lia.
    + fold cs in Hnone. split; [done |]. split; [done |]. left. split; [done |]. split.
      * intros Hr. congruence.
      * intros _ k Hk other Hother.
        apply (Hnone (k - i - 1)%nat (Z.of_nat k) other); [| by rewrite Nat2Z.id].
        rewrite Builtins_range_lookup.
        apply lookup_lt_Some in Hother.
        rewrite bool_decide_eq_true_2 by lia. f_equal. lia.
Qed.

End PileKeys.

Lemma Pile_keypress_navigation_witness :
  let self := Samples.pile_of [(GIVEN, 2); (WEIGHT, 1)] in
  let self' :=
    Pile.mk (MonitoredFocusList.mk (MonitoredFocusList.items (Pile.contents self)) 1)
      true 2 in
  let cs := MonitoredFocusList.items (Pile.contents self) in
  let i := MonitoredFocusList._focus (Pile.contents self) in
  let j := MonitoredFocusList._focus (Pile.contents self') in
  let unselectable (k : nat) :=
    forall other : Pile.entry, cs !! k = Some other -> w_selectable other.1 = false in
  MonitoredFocusList.items (Pile.contents self') = cs /\
  Pile._selectable self' = Pile._selectable self /\
  ((j = i /\
    (@_command_map Samples.toolkit None = Some "cursor up" ->
     forall k : nat, (k < i)%nat -> unselectable k) /\
    (@_command_map Samples.toolkit None = Some "cursor down" ->
     forall k : nat, (i < k)%nat -> unselectable k)) \/
   (@None string = None /\ j <> i /\
    (exists item : Pile.entry, cs !! j = Some item /\ w_selectable item.1 = true) /\
    (forall k : nat, (j < k < i)%nat \/ (i < k < j)%nat -> unselectable k))).
Proof.
  intros self self'.
  apply (@Pile_keypress_navigation Samples.toolkit self self' (80, Some 5) "down" None).
  - cbn. lia.
  - vm_compute. reflexivity.
Defined.
